(** * SyncEdge task-management server: visibility, audit and notification

    A shallow embedding of the Express/Mongoose server of SyncEdge
    (the [server] module of the repository): the Mongoose schemas,
    the collections, the JWT access gate, the task and group route
    handlers, [recordAudit], [getUsersToNotify] and [sendNotifications].

    Every handler is an [async] function that reads and writes the
    collections, may throw, and catches what it throws; it is embedded in
    a small state-and-exception monad [M] over the collections and the
    console. *)

From Stdlib Require Import String Ascii List Bool ZArith NArith RelationClasses.
From Stdlib Require Import Lia Sorted.
Import ListNotations.
Local Open Scope string_scope.
Local Open Scope list_scope.
Local Open Scope N_scope.

(* ================================================================== *)
(** ** ObjectId *)

(** A BSON ObjectId is a 96-bit value; [toString()] prints it as 24
    lowercase hexadecimal digits. *)
Definition ObjectId := N.

Definition hex_digit (d : N) : ascii :=
  match d with
  | 0 => "0" | 1 => "1" | 2 => "2" | 3 => "3" | 4 => "4" | 5 => "5"
  | 6 => "6" | 7 => "7" | 8 => "8" | 9 => "9" | 10 => "a" | 11 => "b"
  | 12 => "c" | 13 => "d" | 14 => "e" | _ => "f"
  end%char.

Fixpoint to_hex (digits : nat) (n : N) (acc : string) : string :=
  match digits with
  | O => acc
  | S k => to_hex k (n / 16) (String (hex_digit (n mod 16)) acc)
  end.

(** [ObjectId.prototype.toString] *)
Definition toString (o : ObjectId) : string := to_hex 24 o EmptyString.
Opaque toString.

Definition hex_value (c : ascii) : option N :=
  let n := N_of_ascii c in
  if (48 <=? n) && (n <=? 57) then Some (n - 48)
  else if (97 <=? n) && (n <=? 102) then Some (n - 87)
  else if (65 <=? n) && (n <=? 70) then Some (n - 55)
  else None.

Fixpoint parse_hex (s : string) (acc : N) : option N :=
  match s with
  | EmptyString => Some acc
  | String c rest =>
      match hex_value c with
      | Some d => parse_hex rest (16 * acc + d)
      | None => None
      end
  end.

(** One parser the [ObjectId] constructor may be: exactly 24 hexadecimal
    characters.  The server never fixes which [bson] it is linked with
    (older ones also take any 12-character string), so the model takes the
    parser from the environment ([ObjectId_parse] below); this one serves
    for concrete runs. *)
Definition parseHex24 (s : string) : option ObjectId :=
  if (N.of_nat (String.length s) =? 24) then parse_hex s 0 else None.

(* ================================================================== *)
(** ** Mongoose schemas *)

Module userSchema.
Record t := mk
  { _id : ObjectId;
    name : string;
    username : string;
    password : string;
    resetToken : option string;
    resetTokenExpiration : option Z }.
End userSchema.

Module taskSchema.
Record t := mk
  { _id : ObjectId;
    title : string;
    description : option string;
    link : option string;
    tags : option string;
    visibility : string;          (* default 'private' *)
    completed : bool;             (* default false *)
    status : Z;                   (* default 1 *)
    group : option ObjectId;
    owner : ObjectId;
    assigned_by : option string;
    assigned_to : option string;
    priority : option string;
    dueDate : option string;
    type : option string;
    linkedTasks : list ObjectId }.
End taskSchema.

Module groupSchema.
Record t := mk
  { _id : ObjectId;
    name : string;
    owner : ObjectId;
    members : list ObjectId }.
End groupSchema.

(** A JavaScript value as it is stored under a key of [changes]. *)
Inductive Value :=
| VUndefined
| VString (s : string)
| VBoolean (b : bool)
| VNumber (z : Z)
| VObjectId (o : ObjectId)
| VObjectIds (l : list ObjectId).

(** A plain JavaScript object: keys in insertion order. *)
Definition JsObject := list (string * Value).

Module auditSchema.
Record t := mk
  { _id : ObjectId;
    taskId : ObjectId;
    action : string;              (* 'create', 'update', 'delete' *)
    changedBy : ObjectId;
    changes : JsObject;
    timestamp : Z }.
End auditSchema.

Inductive NotificationType := assignment | update | deleted.

Module notificationSchema.
Record t := mk
  { _id : ObjectId;
    userId : ObjectId;
    taskId : option ObjectId;
    message : string;
    type : NotificationType;
    read : bool;                  (* default false *)
    createdAt : Z }.
End notificationSchema.

(* ================================================================== *)
(** ** The collections, the environment, the monad *)

Record Db := mkDb
  { users : list userSchema.t;
    tasks : list taskSchema.t;
    groups : list groupSchema.t;
    audits : list auditSchema.t;
    notifications : list notificationSchema.t;
    next_oid : ObjectId            (* the ObjectId the driver generates next *) }.

Record World := mkWorld
  { db : Db;
    console : list string          (* console.error, oldest first *) }.

(** The calls that leave the process and so may be rejected. *)
Inductive Op :=
| User_findOne | User_findById | User_find | User_save
| Task_find | Task_findById | Task_save | Task_findOneAndUpdate
| Task_findOneAndDelete | Task_deleteMany
| Group_find | Group_findById | Group_findByIdAndDelete
| Audit_save | Notification_insertMany
| sendMail.

Definition Op_eqb (a b : Op) : bool :=
  match a, b with
  | User_findOne, User_findOne | User_findById, User_findById
  | User_find, User_find | User_save, User_save
  | Task_find, Task_find | Task_findById, Task_findById
  | Task_save, Task_save | Task_findOneAndUpdate, Task_findOneAndUpdate
  | Task_findOneAndDelete, Task_findOneAndDelete
  | Task_deleteMany, Task_deleteMany
  | Group_find, Group_find | Group_findById, Group_findById
  | Group_findByIdAndDelete, Group_findByIdAndDelete
  | Audit_save, Audit_save
  | Notification_insertMany, Notification_insertMany
  | sendMail, sendMail => true
  | _, _ => false
  end.

Record Env := mkEnv
  { JWT_SECRET : string;                         (* process.env.JWT_SECRET *)
    now : Z;                                     (* the clock, in seconds *)
    outage : Op -> bool;                         (* calls that are rejected *)
    ObjectId_parse : string -> option ObjectId;  (* new ObjectId(string) *)
    bcrypt_hash : string -> string;
    bcrypt_compare : string -> string -> bool }.

Inductive Exn :=
| BSONError
| CastError
| ValidationError
| TypeError
| MongoError (op : Op)
| JsonWebTokenError
| TokenExpiredError.

Inductive Outcome (A : Type) :=
| Ok (a : A)
| Throw (e : Exn).
Arguments Ok {A} a.
Arguments Throw {A} e.

Definition M (A : Type) := Env -> World -> Outcome A * World.

Definition ret {A} (a : A) : M A := fun _ w => (Ok a, w).

Definition bind {A B} (m : M A) (k : A -> M B) : M B :=
  fun env w =>
    match m env w with
    | (Ok a, w') => k a env w'
    | (Throw e, w') => (Throw e, w')
    end.

Definition throw {A} (e : Exn) : M A := fun _ w => (Throw e, w).

(** [try { m } catch (error) { h error }] *)
Definition try_catch {A} (m : M A) (h : Exn -> M A) : M A :=
  fun env w =>
    match m env w with
    | (Ok a, w') => (Ok a, w')
    | (Throw e, w') => h e env w'
    end.

Declare Scope monad_scope.
Delimit Scope monad_scope with monad.
Notation "x <- m ;; k" := (bind m (fun x => k))
  (at level 100, m at next level, right associativity) : monad_scope.
Notation "m ;; k" := (bind m (fun _ => k))
  (at level 100, right associativity) : monad_scope.
Local Open Scope monad_scope.

Definition set_users (d : Db) (x : list userSchema.t) : Db :=
  mkDb x (tasks d) (groups d) (audits d) (notifications d) (next_oid d).
Definition set_tasks (d : Db) (x : list taskSchema.t) : Db :=
  mkDb (users d) x (groups d) (audits d) (notifications d) (next_oid d).
Definition set_groups (d : Db) (x : list groupSchema.t) : Db :=
  mkDb (users d) (tasks d) x (audits d) (notifications d) (next_oid d).
Definition set_audits (d : Db) (x : list auditSchema.t) : Db :=
  mkDb (users d) (tasks d) (groups d) x (notifications d) (next_oid d).
Definition set_notifications (d : Db) (x : list notificationSchema.t) : Db :=
  mkDb (users d) (tasks d) (groups d) (audits d) x (next_oid d).

Definition set_next_oid (d : Db) (x : ObjectId) : Db :=
  mkDb (users d) (tasks d) (groups d) (audits d) (notifications d) x.

(** Reading the environment and the collections. *)
Definition asks {A} (f : Env -> A) : M A := fun env w => (Ok (f env), w).
Definition gets {A} (f : Db -> A) : M A := fun _ w => (Ok (f (db w)), w).
Definition modify_db (f : Db -> Db) : M unit :=
  fun _ w => (Ok tt, mkWorld (f (db w)) (console w)).

Definition console_error (msg : string) : M unit :=
  fun _ w => (Ok tt, mkWorld (db w) (console w ++ [msg])).

(** A call to the store or the mail relay: rejected during an outage. *)
Definition call (op : Op) : M unit :=
  fun env w => if outage env op then (Throw (MongoError op), w) else (Ok tt, w).

(** [new mongoose.Types.ObjectId(s)] *)
Definition ObjectId_of_string (s : string) : M ObjectId :=
  parse <- asks ObjectId_parse ;;
  match parse s with
  | Some o => ret o
  | None => throw BSONError
  end.

(** Mongoose casts a string to an ObjectId with the [ObjectId] constructor
    and rejects with a CastError when the constructor throws. *)
Definition castObjectId (s : string) : M ObjectId :=
  try_catch (ObjectId_of_string s) (fun _ => throw CastError).

(** [new Model(...)] draws the document's [_id]. *)
Definition new_ObjectId : M ObjectId :=
  id <- gets next_oid ;;
  modify_db (fun d => set_next_oid d (N.succ (next_oid d))) ;;
  ret id.

(** JavaScript truthiness of the values the handlers test. *)
Definition truthy (s : option string) : bool :=
  match s with
  | Some (String _ _) => true
  | _ => false
  end.

Definition option_string_eqb (a : option string) (b : string) : bool :=
  match a with
  | Some s => String.eqb s b
  | None => false
  end.

Definition option_oid_eqb (a : option ObjectId) (b : ObjectId) : bool :=
  match a with
  | Some o => N.eqb o b
  | None => false
  end.

Definition mem_oid (o : ObjectId) (l : list ObjectId) : bool :=
  existsb (N.eqb o) l.

(** Casting an array of ids: the first one that does not cast rejects. *)
Fixpoint castObjectIds (l : list string) : M (list ObjectId) :=
  match l with
  | [] => ret []
  | s :: rest =>
      o <- castObjectId s ;;
      os <- castObjectIds rest ;;
      ret (o :: os)
  end.

(* ================================================================== *)
(** ** Mongoose models *)

Module User.
Definition has_id (o : ObjectId) (u : userSchema.t) : bool :=
  N.eqb (userSchema._id u) o.

(** [User.findOne({ username })] *)
Definition findOne (username : string) : M (option userSchema.t) :=
  call User_findOne ;;
  docs <- gets users ;;
  ret (find (fun u => String.eqb (userSchema.username u) username) docs).

(** [User.findById(id)]; [findById(undefined)] queries for [_id: null]
    and finds nothing. *)
Definition findById (id : option string) : M (option userSchema.t) :=
  match id with
  | None => call User_findById ;; ret None
  | Some s =>
      o <- castObjectId s ;;
      call User_findById ;;
      docs <- gets users ;;
      ret (find (has_id o) docs)
  end.

(** [newUser.save()]: [name], [username], [password] are required, and
    [username] is unique. *)
Definition save (u : userSchema.t) : M userSchema.t :=
  if truthy (Some (userSchema.name u)) && truthy (Some (userSchema.username u))
     && truthy (Some (userSchema.password u))
  then
    call User_save ;;
    docs <- gets users ;;
    if existsb (fun v => String.eqb (userSchema.username v) (userSchema.username u))
               docs
    then throw (MongoError User_save)
    else modify_db (fun d => set_users d (users d ++ [u])) ;; ret u
  else throw ValidationError.
End User.

Module Task.
Definition has_id (o : ObjectId) (t : taskSchema.t) : bool :=
  N.eqb (taskSchema._id t) o.

(** [Task.find(filter)] *)
Definition find (filter : taskSchema.t -> bool) : M (list taskSchema.t) :=
  call Task_find ;;
  docs <- gets tasks ;;
  ret (List.filter filter docs).

(** [Task.findById(id)] *)
Definition findById (id : string) : M (option taskSchema.t) :=
  o <- castObjectId id ;;
  call Task_findById ;;
  docs <- gets tasks ;;
  ret (List.find (has_id o) docs).

(** [task.save()] of a new, validated document *)
Definition save (t : taskSchema.t) : M taskSchema.t :=
  call Task_save ;;
  modify_db (fun d => set_tasks d (tasks d ++ [t])) ;;
  ret t.

(** The first document with this [_id], replaced by [f] of it. *)
Fixpoint update_first (o : ObjectId) (f : taskSchema.t -> taskSchema.t)
         (l : list taskSchema.t) : list taskSchema.t :=
  match l with
  | [] => []
  | t :: rest => if has_id o t then f t :: rest else t :: update_first o f rest
  end.

(** [Task.findOneAndUpdate({ _id: id }, update, { new: true })]: the
    document as it is after the update, or null. *)
Definition findOneAndUpdate (id : string) (update : M (taskSchema.t -> taskSchema.t))
  : M (option taskSchema.t) :=
  o <- castObjectId id ;;
  f <- update ;;
  call Task_findOneAndUpdate ;;
  docs <- gets tasks ;;
  modify_db (fun d => set_tasks d (update_first o f (tasks d))) ;;
  ret (option_map f (List.find (has_id o) docs)).

Fixpoint remove_first (o : ObjectId) (l : list taskSchema.t) : list taskSchema.t :=
  match l with
  | [] => []
  | t :: rest => if has_id o t then rest else t :: remove_first o rest
  end.

(** [Task.findOneAndDelete({ _id: id })] *)
Definition findOneAndDelete (id : string) : M (option taskSchema.t) :=
  o <- castObjectId id ;;
  call Task_findOneAndDelete ;;
  docs <- gets tasks ;;
  modify_db (fun d => set_tasks d (remove_first o (tasks d))) ;;
  ret (List.find (has_id o) docs).

(** [Task.deleteMany({ group: groupId })] *)
Definition deleteMany_group (groupId : string) : M unit :=
  g <- castObjectId groupId ;;
  call Task_deleteMany ;;
  modify_db (fun d => set_tasks d
    (List.filter (fun t => negb (option_oid_eqb (taskSchema.group t) g)) (tasks d))).
End Task.

Module Group.
Definition has_id (o : ObjectId) (g : groupSchema.t) : bool :=
  N.eqb (groupSchema._id g) o.

(** [Group.find({ members: userId }).distinct('_id')] *)
Definition find_members_distinct_id (userId : string) : M (list ObjectId) :=
  u <- castObjectId userId ;;
  call Group_find ;;
  docs <- gets groups ;;
  ret (nodup N.eq_dec
         (map groupSchema._id
              (List.filter (fun g => mem_oid u (groupSchema.members g)) docs))).

(** [Group.findById(id)] *)
Definition findById (o : ObjectId) : M (option groupSchema.t) :=
  call Group_findById ;;
  docs <- gets groups ;;
  ret (List.find (has_id o) docs).

(** [.populate('members')]: one query for the users whose [_id] is in
    [members]; each member id is replaced by the user document found
    for it, and ids without a document are dropped from the array. *)
Definition populate_members (g : option groupSchema.t)
  : M (option (list userSchema.t)) :=
  match g with
  | None => ret None
  | Some g =>
      call User_find ;;
      docs <- gets users ;;
      ret (Some (flat_map
                   (fun m => match List.find (User.has_id m) docs with
                             | Some u => [u]
                             | None => []
                             end)
                   (groupSchema.members g)))
  end.

Fixpoint remove_first (o : ObjectId) (l : list groupSchema.t) : list groupSchema.t :=
  match l with
  | [] => []
  | g :: rest => if has_id o g then rest else g :: remove_first o rest
  end.

(** [Group.findByIdAndDelete(groupId)] *)
Definition findByIdAndDelete (groupId : string) : M unit :=
  o <- castObjectId groupId ;;
  call Group_findByIdAndDelete ;;
  modify_db (fun d => set_groups d (remove_first o (groups d))).
End Group.

Module Audit.
(** [auditLog.save()] *)
Definition save (a : auditSchema.t) : M unit :=
  call Audit_save ;;
  modify_db (fun d => set_audits d (audits d ++ [a])).
End Audit.

Module Notification.
(** One stored notification per element, each with its own [_id],
    [read] at its default and [createdAt] at the clock. *)
Fixpoint documents (first : ObjectId) (createdAt : Z)
         (l : list (ObjectId * option ObjectId * string * NotificationType))
  : list notificationSchema.t :=
  match l with
  | [] => []
  | (userId, taskId, message, type) :: rest =>
      notificationSchema.mk first userId taskId message type false createdAt
        :: documents (N.succ first) createdAt rest
  end.

(** [Notification.insertMany(notifications)]; nothing is sent to the
    store for an empty array. *)
Definition insertMany
           (l : list (ObjectId * option ObjectId * string * NotificationType))
  : M unit :=
  match l with
  | [] => ret tt
  | _ =>
      createdAt <- asks now ;;
      first <- gets next_oid ;;
      let inserted := documents first createdAt l in
      modify_db (fun d => set_next_oid d (next_oid d + N.of_nat (List.length l))) ;;
      call Notification_insertMany ;;
      modify_db (fun d => set_notifications d (notifications d ++ inserted))
  end.
End Notification.

(* ================================================================== *)
(** ** JavaScript [Set] of ObjectId objects *)

(** An ObjectId is a JavaScript object, and a [Set] compares objects by
    identity, not by the bytes they hold.  [getUsersToNotify] puts three
    kinds of objects in its set: the one it builds from [task.assigned_to],
    the task document's own [owner], and the [_id] of each populated user
    document (populate hands out one document per user). *)
Inductive Ref :=
| ref_new_ObjectId
| ref_task_owner
| ref_user_id (u : ObjectId).

Definition Ref_eqb (a b : Ref) : bool :=
  match a, b with
  | ref_new_ObjectId, ref_new_ObjectId => true
  | ref_task_owner, ref_task_owner => true
  | ref_user_id u, ref_user_id v => N.eqb u v
  | _, _ => false
  end.

Record Obj := mkObj { ref : Ref; valueOf : ObjectId }.

Definition JsSet := list Obj.

Definition Set_add (s : JsSet) (x : Obj) : JsSet :=
  if existsb (fun y => Ref_eqb (ref y) (ref x)) s then s else (s ++ [x])%list.

Definition Array_from (s : JsSet) : list ObjectId := map valueOf s.

(* ================================================================== *)
(** ** jsonwebtoken *)

Record Payload := mkPayload
  { userId : string;
    iat : Z;
    exp : option Z }.

(** What arrives as the [jwt] cookie: a string that is no token, or a
    payload signed with some key. *)
Inductive Token :=
| malformed (s : string)
| signed (key : string) (payload : Payload).

(** [jwt.sign({ userId }, secret, { expiresIn })] *)
Definition jwt_sign (userId : string) (secret : string) (expiresIn : option Z)
  : M Token :=
  timestamp <- asks now ;;
  ret (signed secret
         (mkPayload userId timestamp (option_map (Z.add timestamp) expiresIn))).

(** [jwt.verify(token, secret)] *)
Definition jwt_verify (token : Token) (secret : string) : M Payload :=
  clockTimestamp <- asks now ;;
  match token with
  | malformed _ => throw JsonWebTokenError
  | signed key payload =>
      if String.eqb key secret then
        match exp payload with
        | Some e => if (e <=? clockTimestamp)%Z then throw TokenExpiredError
                    else ret payload
        | None => ret payload
        end
      else throw JsonWebTokenError
  end.

(* ================================================================== *)
(** ** Requests and responses *)

Module body.
(** The fields the task handlers take from [req.body]. *)
Record t := mk
  { title : option string;
    description : option string;
    link : option string;
    tags : option string;
    visibility : option string;
    completed : option bool;
    status : option Z;
    group : option string;
    assigned_by : option string;
    assigned_to : option string;
    priority : option string;
    dueDate : option string;
    type : option string;
    linkedTasks : option (list string) }.
End body.

Inductive Json :=
| json_message (message : string)
| json_error (error : string)
| json_task (t : taskSchema.t)
| json_tasks (l : list taskSchema.t)
| json_signup (token : Token) (userId : ObjectId)
| json_login (token : Token) (userId : ObjectId) (userName : string)
| json_verify (message : string) (userId : string).

Record Response := mkResponse
  { status : nat;
    json : Json;
    cookie_jwt : option Token      (* res.cookie('jwt', ...) *) }.

Definition res (status : nat) (j : Json) : Response := mkResponse status j None.

(* ================================================================== *)
(** ** Users: signup, login, verify, the access gate *)

(** [POST /api/users/signup] *)
Definition postSignup (name username password : string) : M Response :=
  try_catch
    (existingUser <- User.findOne username ;;
     match existingUser with
     | Some _ => ret (res 400 (json_message "Username already exists"))
     | None =>
         hash <- asks bcrypt_hash ;;
         let hashedPassword := hash password in
         id <- new_ObjectId ;;
         newUser <- User.save (userSchema.mk id name username hashedPassword None None) ;;
         call sendMail ;;
         secret <- asks JWT_SECRET ;;
         token <- jwt_sign (toString (userSchema._id newUser)) secret None ;;
         ret (res 201 (json_signup token (userSchema._id newUser)))
     end)
    (fun error =>
       console_error "Error signing up user:" ;;
       ret (res 500 (json_message "Server error"))).

(** [POST /api/users/login] *)
Definition postLogin (username password : string) : M Response :=
  try_catch
    (user <- User.findOne username ;;
     match user with
     | None => ret (res 400 (json_message "Invalid username or password"))
     | Some user =>
         compare <- asks bcrypt_compare ;;
         if compare password (userSchema.password user) then
           secret <- asks JWT_SECRET ;;
           token <- jwt_sign (toString (userSchema._id user)) secret (Some 3600%Z) ;;
           ret (mkResponse 200
                  (json_login token (userSchema._id user) (userSchema.name user))
                  (Some token))
         else ret (res 400 (json_message "Invalid username or password"))
     end)
    (fun error =>
       console_error "Error logging in user:" ;;
       ret (res 500 (json_message "Server error"))).

(** [!token] *)
Definition no_token (c : option Token) : bool :=
  match c with
  | None => true
  | Some (malformed EmptyString) => true
  | Some _ => false
  end.

(** [GET /api/users/verify] *)
Definition getVerify (cookie : option Token) : M Response :=
  try_catch
    (match cookie with
     | Some token =>
         if no_token cookie then ret (res 401 (json_message "Unauthorized"))
         else
           secret <- asks JWT_SECRET ;;
           decodedToken <- jwt_verify token secret ;;
           try_catch
             (user <- User.findById (Some (userId decodedToken)) ;;
              match user with
              | None => ret (res 401 (json_message "Unauthorized"))
              | Some _ =>
                  ret (res 200 (json_verify "JWT is valid" (userId decodedToken)))
              end)
             (fun error =>
                console_error "Error finding user:" ;;
                ret (res 500 (json_message "Server error")))
     | None => ret (res 401 (json_message "Unauthorized"))
     end)
    (fun error =>
       console_error "Error verifying JWT:" ;;
       ret (res 401 (json_message "Unauthorized"))).

(** [authMiddleware]: either it answers itself, or it sets [req.userId]
    and calls [next()].  The handlers behind it are [async] functions with
    a [try] of their own, so nothing they throw comes back into this
    [try]: [next] runs after it. *)
Definition authMiddleware (cookie : option Token) (next : string -> M Response)
  : M Response :=
  r <- try_catch
         (match cookie with
          | Some token =>
              if no_token cookie
              then ret (inl (res 401 (json_message "Unauthorized")))
              else
                secret <- asks JWT_SECRET ;;
                decodedToken <- jwt_verify token secret ;;
                ret (inr (userId decodedToken))
          | None => ret (inl (res 401 (json_message "Unauthorized")))
          end)
         (fun error => ret (inl (res 401 (json_message "Unauthorized")))) ;;
  match r with
  | inl response => ret response
  | inr req_userId => next req_userId
  end.

(* ================================================================== *)
(** ** Audit recorder and notification dispatcher *)

(** [recordAudit(taskId, action, changedBy, changes)] *)
Definition recordAudit (taskId : ObjectId) (action : string) (changedBy : string)
           (changes : JsObject) : M unit :=
  try_catch
    (id <- new_ObjectId ;;
     changedBy <- castObjectId changedBy ;;
     timestamp <- asks now ;;
     Audit.save (auditSchema.mk id taskId action changedBy changes timestamp))
    (fun error => console_error "Error recording audit log:").

Definition dquote : string := String (ascii_of_nat 34) EmptyString.

(** [task.title || 'a task'] *)
Definition title_or_a_task (task : taskSchema.t) : string :=
  if truthy (Some (taskSchema.title task)) then taskSchema.title task else "a task".

(** [sendNotifications(userIds, task, type, actorId)] *)
Definition sendNotifications (userIds : list ObjectId) (task : taskSchema.t)
           (type : NotificationType) (actorId : string) : M unit :=
  actor <- User.findById (Some actorId) ;;
  let actorName :=
    match actor with Some a => userSchema.name a | None => "Someone" end in
  let taskTitle := title_or_a_task task in
  message <-
    match type with
    | assignment =>
        assignee <- User.findById (taskSchema.assigned_to task) ;;
        let assigneeName :=
          match assignee with Some a => userSchema.name a | None => "someone" end in
        ret (actorName ++ " created a task " ++ dquote ++ taskTitle ++ dquote
               ++ " for " ++ assigneeName ++ ".")%string
    | update =>
        ret (actorName ++ " updated the task " ++ dquote ++ taskTitle ++ dquote
               ++ ".")%string
    | deleted =>
        ret (actorName ++ " deleted the task " ++ dquote ++ taskTitle ++ dquote
               ++ ".")%string
    end ;;
  let notifications :=
    map (fun userId => (userId, Some (taskSchema._id task), message, type)) userIds in
  Notification.insertMany notifications.

(** [getUsersToNotify(task)] *)
Definition getUsersToNotify (task : taskSchema.t) : M (list ObjectId) :=
  try_catch
    (let users : JsSet := [] in
     users <-
       match taskSchema.assigned_to task with
       | Some (String _ _ as assigned_to) =>
           o <- ObjectId_of_string assigned_to ;;
           ret (Set_add users (mkObj ref_new_ObjectId o))
       | _ => ret users
       end ;;
     let users :=
       match taskSchema.assigned_to task with
       | Some (String _ _ as assigned_to) =>
           if negb (String.eqb (toString (taskSchema.owner task)) assigned_to)
           then Set_add users (mkObj ref_task_owner (taskSchema.owner task))
           else users
       | _ => users
       end in
     users <-
       match String.eqb (taskSchema.visibility task) "group", taskSchema.group task with
       | true, Some g =>
           group <- Group.findById g ;;
           members <- Group.populate_members group ;;
           match members with
           | None => throw TypeError
           | Some members =>
               ret (fold_left
                      (fun users member =>
                         Set_add users (mkObj (ref_user_id (userSchema._id member))
                                              (userSchema._id member)))
                      members users)
           end
       | _, _ => ret users
       end ;;
     ret (Array_from users))
    (fun error =>
       console_error "Error determining users to notify:" ;;
       ret []).

(* ================================================================== *)
(** ** Task routes *)

(** The filter of [GET /api/tasks], on one document. *)
Definition tasks_filter (owner : ObjectId) (userId : string) (groupIds : list ObjectId)
           (t : taskSchema.t) : bool :=
  N.eqb (taskSchema.owner t) owner
  || option_string_eqb (taskSchema.assigned_by t) userId
  || option_string_eqb (taskSchema.assigned_to t) userId
  || String.eqb (taskSchema.visibility t) "public"
  || (String.eqb (taskSchema.visibility t) "group"
      && match taskSchema.group t with
         | Some g => mem_oid g groupIds
         | None => false
         end).

(** [GET /api/tasks] *)
Definition getTasks (userId : string) : M Response :=
  try_catch
    (groupIds <- Group.find_members_distinct_id userId ;;
     owner <- castObjectId userId ;;
     tasks <- Task.find (tasks_filter owner userId groupIds) ;;
     ret (res 200 (json_tasks tasks)))
    (fun error =>
       console_error "Error fetching tasks:" ;;
       ret (res 500 (json_message "Failed to fetch tasks"))).

Definition visibility_enum : list string := ["private"; "group"; "public"].

(** [...(group && { group })] *)
Definition group_if_provided (b : body.t) : M (option ObjectId) :=
  match body.group b with
  | Some (String _ _ as group) => g <- castObjectId group ;; ret (Some g)
  | _ => ret None
  end.

(** [new Task({ ... })] of [postTask], with the schema's defaults and
    validators.  Mongoose keeps what fails to cast or validate on the
    document and [save()] rejects with it; nothing happens in between, so
    the model raises at once. *)
Definition new_Task (b : body.t) (req_userId : string) : M taskSchema.t :=
  id <- new_ObjectId ;;
  try_catch
    (title <- match body.title b with
              | Some (String _ _ as title) => ret title
              | _ => throw ValidationError
              end ;;
     visibility <- match body.visibility b with
                   | None => ret "private"
                   | Some v => if existsb (String.eqb v) visibility_enum then ret v
                               else throw ValidationError
                   end ;;
     owner <- castObjectId req_userId ;;
     linkedTasks <- match body.linkedTasks b with
                    | Some l => castObjectIds l
                    | None => ret []
                    end ;;
     group <- group_if_provided b ;;
     ret (taskSchema.mk id title (body.description b) (body.link b) (body.tags b)
            visibility false
            (match body.status b with Some s => s | None => 1%Z end)
            group owner (body.assigned_by b) (body.assigned_to b)
            (body.priority b) (body.dueDate b) (body.type b) linkedTasks))
    (fun error => throw ValidationError).

Definition entry {A} (key : string) (f : A -> Value) (v : option A) : JsObject :=
  match v with
  | Some a => [(key, f a)]
  | None => []
  end.

(** [savedTask.toObject()] *)
Definition toObject (t : taskSchema.t) : JsObject :=
  ([("_id", VObjectId (taskSchema._id t));
    ("title", VString (taskSchema.title t))]
   ++ entry "description" VString (taskSchema.description t)
   ++ entry "link" VString (taskSchema.link t)
   ++ entry "tags" VString (taskSchema.tags t)
   ++ [("visibility", VString (taskSchema.visibility t));
       ("completed", VBoolean (taskSchema.completed t));
       ("status", VNumber (taskSchema.status t))]
   ++ entry "group" VObjectId (taskSchema.group t)
   ++ [("owner", VObjectId (taskSchema.owner t))]
   ++ entry "assigned_by" VString (taskSchema.assigned_by t)
   ++ entry "assigned_to" VString (taskSchema.assigned_to t)
   ++ entry "priority" VString (taskSchema.priority t)
   ++ entry "dueDate" VString (taskSchema.dueDate t)
   ++ entry "type" VString (taskSchema.type t)
   ++ [("linkedTasks", VObjectIds (taskSchema.linkedTasks t));
       ("__v", VNumber 0)])%list.

(** [POST /api/tasks] *)
Definition postTask (req_userId : string) (b : body.t) : M Response :=
  try_catch
    (newTask <- new_Task b req_userId ;;
     savedTask <- Task.save newTask ;;
     recordAudit (taskSchema._id savedTask) "create" req_userId (toObject savedTask) ;;
     usersToNotify <- getUsersToNotify savedTask ;;
     sendNotifications usersToNotify savedTask assignment req_userId ;;
     ret (res 201 (json_task savedTask)))
    (fun error =>
       console_error "Error creating task:" ;;
       ret (res 500 (json_message "Failed to create task"))).

Definition or_keep {A} (new : option A) (old : A) : A :=
  match new with Some a => a | None => old end.

Definition or_keep_option {A} (new : option A) (old : option A) : option A :=
  match new with Some a => Some a | None => old end.

(** The update document of [putTask]; a key whose value is [undefined]
    is not part of the update. *)
Definition update_of (b : body.t) : M (taskSchema.t -> taskSchema.t) :=
  linkedTasks <- match body.linkedTasks b with
                 | Some l => l' <- castObjectIds l ;; ret (Some l')
                 | None => ret None
                 end ;;
  group <- group_if_provided b ;;
  ret (fun t =>
         taskSchema.mk (taskSchema._id t)
           (or_keep (body.title b) (taskSchema.title t))
           (or_keep_option (body.description b) (taskSchema.description t))
           (or_keep_option (body.link b) (taskSchema.link t))
           (or_keep_option (body.tags b) (taskSchema.tags t))
           (or_keep (body.visibility b) (taskSchema.visibility t))
           (or_keep (body.completed b) (taskSchema.completed t))
           (or_keep (body.status b) (taskSchema.status t))
           (or_keep_option group (taskSchema.group t))
           (taskSchema.owner t)
           (or_keep_option (body.assigned_by b) (taskSchema.assigned_by t))
           (or_keep_option (body.assigned_to b) (taskSchema.assigned_to t))
           (or_keep_option (body.priority b) (taskSchema.priority t))
           (or_keep_option (body.dueDate b) (taskSchema.dueDate t))
           (or_keep_option (body.type b) (taskSchema.type t))
           (or_keep linkedTasks (taskSchema.linkedTasks t))).

(** [a?.toString() !== b?.toString()] *)
Definition group_differs (a b : option ObjectId) : bool :=
  match a, b with
  | Some x, Some y => negb (String.eqb (toString x) (toString y))
  | None, None => false
  | _, _ => true
  end.

Definition value_of_group (g : option ObjectId) : Value :=
  match g with Some o => VObjectId o | None => VUndefined end.

(** The [changes] object [putTask] builds from [oldTask] and [updatedTask]. *)
Definition changes_of (oldTask updatedTask : taskSchema.t) : JsObject :=
  let changes : JsObject := [] in
  let changes :=
    if negb (String.eqb (taskSchema.title oldTask) (taskSchema.title updatedTask))
    then (changes ++ [("title", VString (taskSchema.title updatedTask))])%list
    else changes in
  let changes :=
    if group_differs (taskSchema.group oldTask) (taskSchema.group updatedTask)
    then (changes ++ [("group", value_of_group (taskSchema.group updatedTask))])%list
    else changes in
  changes.

(** [PUT /api/tasks/:id] *)
Definition putTask (req_userId : string) (id : string) (b : body.t) : M Response :=
  try_catch
    (updatedTask <- Task.findOneAndUpdate id (update_of b) ;;
     match updatedTask with
     | None => ret (res 404 (json_message "Task not found"))
     | Some updatedTask =>
         oldTask <- Task.findById id ;;
         match oldTask with
         | None => throw TypeError
         | Some oldTask =>
             let changes := changes_of oldTask updatedTask in
             recordAudit (taskSchema._id updatedTask) "update" req_userId changes ;;
             usersToNotify <- getUsersToNotify updatedTask ;;
             sendNotifications usersToNotify updatedTask update req_userId ;;
             ret (res 200 (json_task updatedTask))
         end
     end)
    (fun error =>
       console_error "Error updating task:" ;;
       ret (res 500 (json_message "Failed to update task"))).

Definition value_of_string (s : option string) : Value :=
  match s with Some x => VString x | None => VUndefined end.

(** The snapshot [deleteTask] hands to [recordAudit]. *)
Definition snapshot (t : taskSchema.t) : JsObject :=
  [("title", VString (taskSchema.title t));
   ("description", value_of_string (taskSchema.description t));
   ("link", value_of_string (taskSchema.link t));
   ("tags", value_of_string (taskSchema.tags t));
   ("visibility", VString (taskSchema.visibility t));
   ("completed", VBoolean (taskSchema.completed t));
   ("status", VNumber (taskSchema.status t));
   ("group", value_of_group (taskSchema.group t));
   ("owner", VObjectId (taskSchema.owner t));
   ("assigned_by", value_of_string (taskSchema.assigned_by t));
   ("assigned_to", value_of_string (taskSchema.assigned_to t));
   ("priority", value_of_string (taskSchema.priority t));
   ("dueDate", value_of_string (taskSchema.dueDate t));
   ("linkedTasks", VObjectIds (taskSchema.linkedTasks t))].

(** [DELETE /api/tasks/:id] *)
Definition deleteTask (req_userId : string) (id : string) : M Response :=
  try_catch
    (taskToDelete <- Task.findById id ;;
     match taskToDelete with
     | None => ret (res 404 (json_message "Task not found"))
     | Some taskToDelete =>
         recordAudit (taskSchema._id taskToDelete) "delete" req_userId
                     (snapshot taskToDelete) ;;
         deletedTask <- Task.findOneAndDelete id ;;
         usersToNotify <- getUsersToNotify taskToDelete ;;
         sendNotifications usersToNotify taskToDelete deleted req_userId ;;
         ret (res 200 (json_message "Task deleted"))
     end)
    (fun error =>
       console_error "Error deleting task:" ;;
       ret (res 500 (json_message "Failed to delete task"))).

(* ================================================================== *)
(** ** Group routes *)

(** [DELETE /api/groups/:id] *)
Definition deleteGroup (req_userId : string) (groupId : string) : M Response :=
  try_catch
    (id <- castObjectId groupId ;;
     group <- Group.findById id ;;
     match group with
     | None => ret (res 404 (json_message "Group not found"))
     | Some group =>
         if negb (String.eqb (toString (groupSchema.owner group)) req_userId)
         then ret (res 403 (json_message "Forbidden: Only the owner can delete the group"))
         else
           Group.findByIdAndDelete groupId ;;
           Task.deleteMany_group groupId ;;
           ret (res 200 (json_message "Group deleted"))
     end)
    (fun error =>
       console_error "Error deleting group:" ;;
       ret (res 500 (json_message "Failed to delete group"))).

(* ================================================================== *)
(** ** What the specification says, in its own words *)

(** Section 4.2: a task is visible to user [u], whose id prints as
    [userId], if any of: [u] is the owner, [u] equals [assigned_by], [u]
    equals [assigned_to], the task is public, or the task is a group task
    and [u] is a member of the group its [group] field refers to. *)
Definition visible_to (d : Db) (u : ObjectId) (userId : string) (t : taskSchema.t)
  : Prop :=
  taskSchema.owner t = u
  \/ taskSchema.assigned_by t = Some userId
  \/ taskSchema.assigned_to t = Some userId
  \/ taskSchema.visibility t = "public"
  \/ (taskSchema.visibility t = "group"
      /\ exists g, In g (groups d)
                   /\ taskSchema.group t = Some (groupSchema._id g)
                   /\ In u (groupSchema.members g)).

(** Section 4.1: the token is absent, malformed, signed with another key,
    or expired at the clock of [env]. *)
Inductive rejected (env : Env) : option Token -> Prop :=
| rejected_absent : rejected env None
| rejected_malformed s : rejected env (Some (malformed s))
| rejected_signature key payload :
    key <> JWT_SECRET env -> rejected env (Some (signed key payload))
| rejected_expired payload e :
    exp payload = Some e -> (e <= now env)%Z ->
    rejected env (Some (signed (JWT_SECRET env) payload)).

(** Signed with the server's key and not expired. *)
Inductive accepted (env : Env) : option Token -> string -> Prop :=
| accepted_valid payload :
    (forall e, exp payload = Some e -> (now env < e)%Z) ->
    accepted env (Some (signed (JWT_SECRET env) payload)) (userId payload).

Definition Unauthorized : Response := res 401 (json_message "Unauthorized").

(** The three task mutations and the route that serves each. *)
Inductive Mutation :=
| create (b : body.t)
| change (id : string) (b : body.t)
| delete (id : string).

Definition serve (req_userId : string) (m : Mutation) : M Response :=
  match m with
  | create b => postTask req_userId b
  | change id b => putTask req_userId id b
  | delete id => deleteTask req_userId id
  end.

Definition action_of (m : Mutation) : string :=
  match m with
  | create _ => "create"
  | change _ _ => "update"
  | delete _ => "delete"
  end.

(** The status with which the route reports the mutation done. *)
Definition success_of (m : Mutation) : nat :=
  match m with
  | create _ => 201
  | _ => 200
  end.

(** The same environment with one call forced to fail or to go through. *)
Definition with_outage (env : Env) (op : Op) (down : bool) : Env :=
  mkEnv (JWT_SECRET env) (now env)
        (fun o => if Op_eqb o op then down else outage env o)
        (ObjectId_parse env) (bcrypt_hash env) (bcrypt_compare env).

(** A computation leaves a part of the store as it found it, however it
    ends. *)
Definition preserves {A X} (part : Db -> X) (m : M A) : Prop :=
  forall env w, part (db (snd (m env w))) = part (db w).

(** Two stores that differ at most in the audit log. *)
Definition same_but_audits (d1 d2 : Db) : Prop :=
  users d1 = users d2 /\ tasks d1 = tasks d2 /\ groups d1 = groups d2
  /\ notifications d1 = notifications d2 /\ next_oid d1 = next_oid d2.

(** A computation that neither reads the audit log nor the console, run
    once with audit writes going through and once with them failing. *)
Definition blind_to_audit {A} (env : Env) (m : M A) : Prop :=
  forall w1 w2,
    same_but_audits (db w1) (db w2) ->
    fst (m (with_outage env Audit_save false) w1)
    = fst (m (with_outage env Audit_save true) w2)
    /\ same_but_audits (db (snd (m (with_outage env Audit_save false) w1)))
                       (db (snd (m (with_outage env Audit_save true) w2))).

Definition count_for (u : ObjectId) (l : list notificationSchema.t) : nat :=
  List.length (List.filter (fun n => N.eqb (notificationSchema.userId n) u) l).

(* ================================================================== *)
(** ** A small deployment to run the handlers on *)

Module Demo.
Definition env : Env :=
  mkEnv "s3cret" 1000%Z (fun _ => false) parseHex24
        (fun p => ("bcrypt:" ++ p)%string)
        (fun p h => String.eqb ("bcrypt:" ++ p) h).

Definition ann := userSchema.mk 1 "Ann" "ann@example.org" "bcrypt:a" None None.
Definition bob := userSchema.mk 2 "Bob" "bob@example.org" "bcrypt:b" None None.
Definition cid := userSchema.mk 3 "Cid" "cid@example.org" "bcrypt:c" None None.
Definition dee := userSchema.mk 4 "Dee" "dee@example.org" "bcrypt:d" None None.

(** Owned by Bob; members Cid and Dee. *)
Definition team := groupSchema.mk 10 "team" 2 [3; 4].
(** Owned by Bob; members Ann and Cid. *)
Definition crew := groupSchema.mk 11 "crew" 2 [1; 3].

Definition task (id : ObjectId) (title visibility : string)
           (group : option ObjectId) (owner : ObjectId)
           (assigned_to : option string) : taskSchema.t :=
  taskSchema.mk id title None None None visibility false 1%Z group owner
                None assigned_to None None None [].

Definition request (title : string) (visibility group assigned_to : option string)
  : body.t :=
  body.mk (Some title) None None None visibility None None group None
          assigned_to None None None None.

Definition store (tasks : list taskSchema.t) : World :=
  mkWorld (mkDb [ann; bob; cid; dee] tasks [team; crew] [] [] 100) [].

Definition empty : World := store [].
End Demo.

(** A computation takes every world to one related to it by [R], however
    it ends. *)
Definition keeps {A} (R : World -> World -> Prop) (env : Env) (m : M A) : Prop :=
  forall w, R w (snd (m env w)).

(** A part of the store is the same in both worlds. *)
Definition same {X} (part : Db -> X) (w w' : World) : Prop :=
  part (db w') = part (db w).

(** Nothing written to the console is lost. *)
Definition logged (w w' : World) : Prop :=
  forall msg, In msg (console w) -> In msg (console w').

Module Cases.
Import Demo.

(** Bob's private task "A". *)
Definition task_A : taskSchema.t := task 50 "A" "private" None 2 None.
Definition task_B : taskSchema.t := task 50 "B" "private" None 2 None.

(** A task of the team, owned by Bob. *)
Definition team_task : taskSchema.t := task 51 "plan" "group" (Some 10) 2 None.

(** Bob's task, assigned to a name that is no ObjectId. *)
Definition named_task : taskSchema.t :=
  task 52 "call" "private" None 2 (Some "Robert").

(** Bob assigns Ann a task of the team (members Cid and Dee). *)
Definition for_team : body.t :=
  request "T" (Some "group") (Some (toString 10)) (Some (toString 1)).

(** Bob assigns Ann a task of the crew (members Ann and Cid). *)
Definition for_crew : body.t :=
  request "T" (Some "group") (Some (toString 11)) (Some (toString 1)).

(** Bob assigns a task to "Robert". *)
Definition for_Robert : body.t := request "T" None None (Some "Robert").

Definition rename_to_B : body.t :=
  body.mk (Some "B") None None None None None None None None None None None None None.

(** A token for a user id no user has, signed by the server, valid
    until 4500. *)
Definition stranger : Token :=
  signed "s3cret" (mkPayload (toString 99) 900%Z (Some 4500%Z)).

(** Two hours after [Demo.env]. *)
Definition two_hours_later : Env :=
  mkEnv "s3cret" 8200%Z (fun _ => false) parseHex24
        (bcrypt_hash Demo.env) (bcrypt_compare Demo.env).
End Cases.

(** The [jwt] cookie a response sets, if the handler answered. *)
Definition cookie_jwt_of (r : Outcome Response) : option Token :=
  match r with
  | Ok response => cookie_jwt response
  | Throw _ => None
  end.

(* ================================================================== *)
(** ** The other routes of the server *)

(** [getNameById(users, userid)]: [user.name] of what [find] returns,
    which is [undefined] when no element matches. *)
Definition getNameById (users : list userSchema.t) (userid : string) : M string :=
  userIdObj <- ObjectId_of_string userid ;;
  match find (User.has_id userIdObj) users with
  | Some user => ret (userSchema.name user)
  | None => throw TypeError
  end.

(** [getUsernameById(users, userid)]: [user ? user.username : null] *)
Definition getUsernameById (users : list userSchema.t) (userid : string)
  : M (option string) :=
  userIdObj <- ObjectId_of_string userid ;;
  match find (User.has_id userIdObj) users with
  | Some user => ret (Some (userSchema.username user))
  | None => ret None
  end.

Section ArraysEqual.
Variable A : Type.
Variable toString_of : A -> string.

(** [arr.every((value, index) => f(value, index))], from [index] on. *)
Fixpoint every_from (index : nat) (f : A -> nat -> Outcome bool) (arr : list A)
  : Outcome bool :=
  match arr with
  | [] => Ok true
  | value :: rest =>
      match f value index with
      | Ok true => every_from (S index) f rest
      | Ok false => Ok false
      | Throw e => Throw e
      end
  end.

(** [arraysEqual(arr1, arr2)]; [arr2[index]] is [undefined] past the end
    of [arr2], and [undefined.toString()] throws. *)
Definition arraysEqual (arr1 arr2 : list A) : Outcome bool :=
  if negb (Nat.eqb (List.length arr1) (List.length arr2)) then Ok false
  else every_from 0
         (fun value index =>
            match nth_error arr2 index with
            | Some other => Ok (String.eqb (toString_of value) (toString_of other))
            | None => Throw TypeError
            end)
         arr1.
End ArraysEqual.

(** [Date.now()]: the clock of the environment, read in milliseconds. *)
Definition Date_now : M Z :=
  seconds <- asks now ;;
  ret (1000 * seconds)%Z.

(** [User.findOne(filter)] *)
Definition user_findOne (filter : userSchema.t -> bool) : M (option userSchema.t) :=
  call User_findOne ;;
  docs <- gets users ;;
  ret (find filter docs).

Fixpoint replace_user (u : userSchema.t) (l : list userSchema.t)
  : list userSchema.t :=
  match l with
  | [] => []
  | v :: rest =>
      if User.has_id (userSchema._id u) v then u :: rest
      else v :: replace_user u rest
  end.

(** [user.save()] of a document read from the collection: the required
    paths are validated, the unique index on [username] refuses a name
    another document has, and the stored document is replaced. *)
Definition user_save (u : userSchema.t) : M userSchema.t :=
  if truthy (Some (userSchema.name u)) && truthy (Some (userSchema.username u))
     && truthy (Some (userSchema.password u))
  then
    call User_save ;;
    docs <- gets users ;;
    if existsb (fun v => negb (User.has_id (userSchema._id u) v)
                         && String.eqb (userSchema.username v) (userSchema.username u))
               docs
    then throw (MongoError User_save)
    else modify_db (fun d => set_users d (replace_user u (users d))) ;; ret u
  else throw ValidationError.

(** [POST /api/users/reset-password] *)
Definition postResetPassword (token password : string) : M Response :=
  try_catch
    (now_ms <- Date_now ;;
     user <- user_findOne
               (fun u => option_string_eqb (userSchema.resetToken u) token
                         && match userSchema.resetTokenExpiration u with
                            | Some expiration => (now_ms <? expiration)%Z
                            | None => false
                            end) ;;
     match user with
     | None => ret (res 400 (json_message "Invalid or expired token"))
     | Some user =>
         hash <- asks bcrypt_hash ;;
         let hashedPassword := hash password in
         user_save (userSchema.mk (userSchema._id user) (userSchema.name user)
                                  (userSchema.username user) hashedPassword
                                  None None) ;;
         ret (res 200 (json_message "Password reset successful"))
     end)
    (fun error =>
       console_error "Error resetting password:" ;;
       ret (res 500 (json_message "Server error"))).

(** [GET /api/users/logout]: the [jwt] cookie is set to the empty string,
    expiring at once. *)
Definition getLogout : M Response :=
  try_catch
    (ret (mkResponse 200 (json_message "Logged out successfully")
                     (Some (malformed EmptyString))))
    (fun error =>
       console_error "Error logging out user:" ;;
       ret (res 500 (json_message "Server error"))).

(** What the remaining routes send: one of the bodies above, a user, a
    group, notifications, audit records with the name of who changed, or
    the bare status of [res.sendStatus]. *)
Inductive Sent :=
| sent_json (j : Json)
| sent_user (u : userSchema.t)
| sent_group (g : groupSchema.t)
| sent_notifications (l : list notificationSchema.t)
| sent_auditLogs (l : list (auditSchema.t * option string))
| sent_status.

Record Reply := mkReply
  { code : nat;
    sent : Sent }.

(** [PUT /api/users/:id] *)
Definition putUser (req_userId : string) (userId : string) (name username : string)
  : M Reply :=
  try_catch
    (user <- User.findById (Some userId) ;;
     match user with
     | None => ret (mkReply 404 (sent_json (json_message "User not found")))
     | Some user =>
         if negb (String.eqb (toString (userSchema._id user)) req_userId)
         then ret (mkReply 403 (sent_json (json_message
                     "Forbidden: You can only update your own profile")))
         else
           updatedUser <- user_save
                            (userSchema.mk (userSchema._id user) name username
                               (userSchema.password user)
                               (userSchema.resetToken user)
                               (userSchema.resetTokenExpiration user)) ;;
           ret (mkReply 200 (sent_user updatedUser))
     end)
    (fun error =>
       console_error "Error updating user:" ;;
       ret (mkReply 500 (sent_json (json_message "Failed to update user")))).

(** Keys in descending order: [.sort({ key: -1 })].  The store fixes no
    order among equal keys; the model keeps the order of the collection
    among them. *)
Fixpoint insert_desc {A} (key : A -> Z) (x : A) (l : list A) : list A :=
  match l with
  | [] => [x]
  | y :: rest =>
      if (key y <? key x)%Z then x :: l else y :: insert_desc key x rest
  end.

Definition sort_desc {A} (key : A -> Z) (l : list A) : list A :=
  fold_right (insert_desc key) [] l.

(** The store calls of these routes that [Op] does not name. *)
Inductive StoreCall :=
| Notification_find
| Notification_findByIdAndUpdate
| Notification_updateMany
| Group_save
| Task_findOne
| Audit_find.

Section Routes.
(** The error, if any, with which the store rejects a call. *)
Variable rejection : StoreCall -> option Exn.
(** [crypto.randomBytes(32).toString("hex")] *)
Variable randomBytes : string.

Definition store_call (c : StoreCall) : M unit :=
  match rejection c with
  | Some e => throw e
  | None => ret tt
  end.

(** [POST /api/users/forgot-password] *)
Definition postForgotPassword (email : string) : M Response :=
  try_catch
    (user <- User.findOne email ;;
     match user with
     | None => ret (res 404 (json_message "User not found"))
     | Some user =>
         let token := randomBytes in
         now_ms <- Date_now ;;
         user_save (userSchema.mk (userSchema._id user) (userSchema.name user)
                                  (userSchema.username user)
                                  (userSchema.password user)
                                  (Some token) (Some (now_ms + 3600000)%Z)) ;;
         call sendMail ;;
         ret (res 200 (json_message "Password reset email sent"))
     end)
    (fun error =>
       console_error "Error sending password reset email:" ;;
       ret (res 500 (json_message "Failed to send reset email"))).

(** [new Group({ name, owner, members })] and [group.save()]'s
    validation: [name] and [owner] are required, ids are cast. *)
Definition validate_group (id : ObjectId) (name owner : string) (members : list string)
  : M groupSchema.t :=
  try_catch
    (name <- match name with
             | String _ _ => ret name
             | EmptyString => throw ValidationError
             end ;;
     owner <- castObjectId owner ;;
     members <- castObjectIds members ;;
     ret (groupSchema.mk id name owner members))
    (fun error => throw ValidationError).

(** [POST /api/groups] *)
Definition postGroup (req_userId : string) (name : string) (members : list string)
  : M Reply :=
  try_catch
    (id <- new_ObjectId ;;
     newGroup <- validate_group id name req_userId members ;;
     store_call Group_save ;;
     modify_db (fun d => set_groups d (groups d ++ [newGroup])) ;;
     ret (mkReply 201 (sent_group newGroup)))
    (fun error =>
       console_error "Error creating group:" ;;
       ret (mkReply 500 (sent_json (json_message "Failed to create group")))).

Fixpoint replace_group (g : groupSchema.t) (l : list groupSchema.t)
  : list groupSchema.t :=
  match l with
  | [] => []
  | x :: rest =>
      if Group.has_id (groupSchema._id g) x then g :: rest
      else x :: replace_group g rest
  end.

(** [PUT /api/groups/:id] *)
Definition putGroup (req_userId : string) (groupId : string)
           (name : string) (members : list string) (owner : string) : M Reply :=
  try_catch
    (id <- castObjectId groupId ;;
     group <- Group.findById id ;;
     match group with
     | None => ret (mkReply 404 (sent_json (json_message "Group not found")))
     | Some group =>
         if negb (String.eqb (toString (groupSchema.owner group)) req_userId)
         then ret (mkReply 403 (sent_json (json_message
                     "Forbidden: Only the owner can update the group")))
         else
           updatedGroup <- validate_group (groupSchema._id group) name owner members ;;
           store_call Group_save ;;
           modify_db (fun d => set_groups d (replace_group updatedGroup (groups d))) ;;
           ret (mkReply 200 (sent_group updatedGroup))
     end)
    (fun error =>
       console_error "Error updating group:" ;;
       ret (mkReply 500 (sent_json (json_message "Failed to update group")))).

(** [.populate('changedBy', 'name')]: each record with the name of the
    user its [changedBy] refers to, null when there is none. *)
Definition populate_changedBy (logs : list auditSchema.t)
  : M (list (auditSchema.t * option string)) :=
  call User_find ;;
  docs <- gets users ;;
  ret (map (fun a =>
              (a, option_map userSchema.name
                             (find (User.has_id (auditSchema.changedBy a)) docs)))
           logs).

(** [GET /api/tasks/:id/audit] *)
Definition getTaskAudit (taskId : string) : M Reply :=
  try_catch
    (id <- castObjectId taskId ;;
     store_call Task_findOne ;;
     docs <- gets tasks ;;
     match find (Task.has_id id) docs with
     | None => ret (mkReply 404 (sent_json (json_message
                      "Task not found or access denied")))
     | Some task =>
         id <- castObjectId taskId ;;
         store_call Audit_find ;;
         logs <- gets audits ;;
         auditLogs <- populate_changedBy
                        (sort_desc auditSchema.timestamp
                           (filter (fun a => N.eqb (auditSchema.taskId a) id) logs)) ;;
         ret (mkReply 200 (sent_auditLogs auditLogs))
     end)
    (fun error =>
       console_error "Error fetching audit logs:" ;;
       ret (mkReply 500 (sent_json (json_message "Failed to fetch audit logs")))).

(** [GET /api/notifications] *)
Definition getNotifications (req_userId : string) : M Reply :=
  try_catch
    (userId <- castObjectId req_userId ;;
     store_call Notification_find ;;
     docs <- gets notifications ;;
     let notifications :=
       firstn 30
         (sort_desc notificationSchema.createdAt
            (filter (fun n => N.eqb (notificationSchema.userId n) userId) docs)) in
     ret (mkReply 200 (sent_notifications notifications)))
    (fun err =>
       console_error "Error fetching notifications:" ;;
       ret (mkReply 500 (sent_json (json_error "Failed to load notifications")))).

Definition mark_read (n : notificationSchema.t) : notificationSchema.t :=
  notificationSchema.mk (notificationSchema._id n) (notificationSchema.userId n)
    (notificationSchema.taskId n) (notificationSchema.message n)
    (notificationSchema.type n) true (notificationSchema.createdAt n).

Fixpoint read_first (id : ObjectId) (l : list notificationSchema.t)
  : list notificationSchema.t :=
  match l with
  | [] => []
  | n :: rest =>
      if N.eqb (notificationSchema._id n) id then mark_read n :: rest
      else n :: read_first id rest
  end.

(** [PUT /api/notifications/:id/read]; the route has no [authMiddleware]
    and its [catch] does not log. *)
Definition putNotificationRead (id : string) : M Reply :=
  try_catch
    (id <- castObjectId id ;;
     store_call Notification_findByIdAndUpdate ;;
     modify_db (fun d => set_notifications d (read_first id (notifications d))) ;;
     ret (mkReply 204 sent_status))
    (fun err =>
       ret (mkReply 500 (sent_json (json_error "Failed to update notification")))).

(** [PUT /api/notifications/mark-all-read] *)
Definition putMarkAllRead (req_userId : string) : M Reply :=
  try_catch
    (userId <- castObjectId req_userId ;;
     store_call Notification_updateMany ;;
     modify_db (fun d =>
       set_notifications d
         (map (fun n =>
                 if N.eqb (notificationSchema.userId n) userId
                    && negb (notificationSchema.read n)
                 then mark_read n else n)
              (notifications d))) ;;
     ret (mkReply 200 (sent_json (json_message "All notifications marked as read"))))
    (fun err =>
       console_error "Error marking all notifications as read:" ;;
       ret (mkReply 500 (sent_json (json_error
              "Failed to mark all notifications as read")))).
End Routes.

(* ================================================================== *)
(** ** Relations between the store before and after a request *)

(** The tasks are the same documents in the same places, each with the
    [_id] and [owner] it had, and untouched unless its [_id] is [target]. *)
Definition touches (target : option ObjectId) (w w' : World) : Prop :=
  Forall2 (fun t t' => taskSchema._id t' = taskSchema._id t
                       /\ taskSchema.owner t' = taskSchema.owner t
                       /\ (target <> Some (taskSchema._id t) -> t' = t))
          (tasks (db w)) (tasks (db w')).

(** What [new Task(...)] of [postTask] refuses: no title, or a
    [visibility] outside the schema's enum. *)
Definition invalid_task (b : body.t) : Prop :=
  body.title b = None \/ body.title b = Some EmptyString
  \/ exists v, body.visibility b = Some v /\ ~ In v visibility_enum.

(** The audit log of [w'] is that of [w] with records added at its end. *)
Definition grown (w w' : World) : Prop :=
  exists added, audits (db w') = audits (db w) ++ added.

(** The modelled routes, behind the access gate where they have one:
    [req_userId] is the id the gate has set. *)
Inductive Route :=
| POST_signup (name username password : string)
| POST_login (username password : string)
| GET_verify (cookie : option Token)
| GET_logout
| POST_forgot_password (email : string)
| POST_reset_password (token password : string)
| PUT_users (req_userId userId name username : string)
| GET_tasks (req_userId : string)
| task_mutation (req_userId : string) (m : Mutation)
| POST_groups (req_userId name : string) (members : list string)
| PUT_groups (req_userId groupId name : string) (members : list string)
             (owner : string)
| DELETE_groups (req_userId groupId : string)
| GET_tasks_audit (taskId : string)
| GET_notifications (req_userId : string)
| PUT_notifications_read (id : string)
| PUT_notifications_mark_all_read (req_userId : string).

Definition answered {A} (m : M A) : M unit := _ <- m ;; ret tt.

(** What the server does to store and console on a request. *)
Definition route (rejection : StoreCall -> option Exn) (randomBytes : string)
           (r : Route) : M unit :=
  match r with
  | POST_signup name username password => answered (postSignup name username password)
  | POST_login username password => answered (postLogin username password)
  | GET_verify cookie => answered (getVerify cookie)
  | GET_logout => answered getLogout
  | POST_forgot_password email => answered (postForgotPassword randomBytes email)
  | POST_reset_password token password => answered (postResetPassword token password)
  | PUT_users req_userId userId name username =>
      answered (putUser req_userId userId name username)
  | GET_tasks req_userId => answered (getTasks req_userId)
  | task_mutation req_userId m => answered (serve req_userId m)
  | POST_groups req_userId name members =>
      answered (postGroup rejection req_userId name members)
  | PUT_groups req_userId groupId name members owner =>
      answered (putGroup rejection req_userId groupId name members owner)
  | DELETE_groups req_userId groupId => answered (deleteGroup req_userId groupId)
  | GET_tasks_audit taskId => answered (getTaskAudit rejection taskId)
  | GET_notifications req_userId => answered (getNotifications rejection req_userId)
  | PUT_notifications_read id => answered (putNotificationRead rejection id)
  | PUT_notifications_mark_all_read req_userId =>
      answered (putMarkAllRead rejection req_userId)
  end.

(* ================================================================== *)
(** ** More of the small deployment *)

Module Runs.
Import Demo Cases.

(** The store takes every call. *)
Definition answering : StoreCall -> option Exn := fun _ => None.

Definition note (id userId : ObjectId) (read : bool) (createdAt : Z)
  : notificationSchema.t :=
  notificationSchema.mk id userId (Some 50) "Bob updated the task" update read
                        createdAt.

(** Ann has an unread and a read notification, Bob an unread one. *)
Definition inbox : World :=
  mkWorld (mkDb [ann; bob; cid; dee] [task_A] [team; crew] []
                [note 60 1 false 10%Z; note 61 2 false 20%Z; note 62 1 true 30%Z] 100)
          [].

Definition record (id taskId : ObjectId) (action : string) (changedBy : ObjectId)
           (timestamp : Z) : auditSchema.t :=
  auditSchema.mk id taskId action changedBy [] timestamp.

(** Bob's task "A" was created by Bob and updated by a user since
    gone; another task has a record too. *)
Definition trail : World :=
  mkWorld (mkDb [ann; bob; cid; dee] [task_A] [team; crew]
                [record 70 50 "create" 2 100%Z; record 71 51 "create" 2 200%Z;
                 record 72 50 "update" 9 300%Z] [] 100)
          [].

(** A task of a group that is not stored, assigned to Ann. *)
Definition orphan : taskSchema.t :=
  task 53 "orphan" "group" (Some 77) 2 (Some (toString 1)).

(** A request with an empty title. *)
Definition untitled : body.t := request EmptyString None None None.
End Runs.

(* ================================================================== *)
(** ** Running the monad *)

Lemma bind_Ok {A B} (m : M A) (k : A -> M B) env w b w' :
  bind m k env w = (Ok b, w') ->
  exists a w1, m env w = (Ok a, w1) /\ k a env w1 = (Ok b, w').
Proof.
  unfold bind. destruct (m env w) as [[a | e] w1]; intros H.
  - exists a, w1. split; [reflexivity | exact H].
  - discriminate H.
Qed.

Lemma try_catch_Ok {A} (m : M A) (h : Exn -> M A) env w a w' :
  try_catch m h env w = (Ok a, w') ->
  m env w = (Ok a, w')
  \/ exists e w1, m env w = (Throw e, w1) /\ h e env w1 = (Ok a, w').
Proof.
  unfold try_catch. destruct (m env w) as [[x | e] w1]; intros H.
  - left. exact H.
  - right. exists e, w1. split; [reflexivity | exact H].
Qed.

Lemma castObjectId_Some env w s o :
  ObjectId_parse env s = Some o -> castObjectId s env w = (Ok o, w).
Proof.
  intros H. unfold castObjectId, try_catch, ObjectId_of_string, bind, asks.
  rewrite H. reflexivity.
Qed.

Lemma castObjectId_None env w s :
  ObjectId_parse env s = None -> castObjectId s env w = (Throw CastError, w).
Proof.
  intros H. unfold castObjectId, try_catch, ObjectId_of_string, bind, asks.
  rewrite H. reflexivity.
Qed.

Lemma castObjectId_Ok env w s o w' :
  castObjectId s env w = (Ok o, w') -> ObjectId_parse env s = Some o /\ w' = w.
Proof.
  destruct (ObjectId_parse env s) as [o' |] eqn:E.
  - rewrite (castObjectId_Some _ _ _ _ E). intros H. inversion H. auto.
  - rewrite (castObjectId_None _ _ _ E). discriminate.
Qed.

Lemma call_up env w op : outage env op = false -> call op env w = (Ok tt, w).
Proof. intros H. unfold call. rewrite H. reflexivity. Qed.

Lemma call_down env w op :
  outage env op = true -> call op env w = (Throw (MongoError op), w).
Proof. intros H. unfold call. rewrite H. reflexivity. Qed.

(* ================================================================== *)
(** ** Visibility resolver *)

Lemma mem_oid_In o l : mem_oid o l = true <-> In o l.
Proof.
  unfold mem_oid. rewrite existsb_exists. split.
  - intros [x [Hin Heq]]. apply N.eqb_eq in Heq. subst. exact Hin.
  - intros Hin. exists o. split; [exact Hin | apply N.eqb_refl].
Qed.

Lemma option_string_eqb_eq a b : option_string_eqb a b = true <-> a = Some b.
Proof.
  destruct a as [s |]; simpl.
  - rewrite String.eqb_eq. split; congruence.
  - split; discriminate.
Qed.

(** The ids [Group.find({ members: u }).distinct('_id')] returns are those
    of the stored groups that have [u] among their members. *)
Lemma member_groups_In (u g : ObjectId) (gs : list groupSchema.t) :
  In g (nodup N.eq_dec
          (map groupSchema._id
               (filter (fun x => mem_oid u (groupSchema.members x)) gs)))
  <-> exists x, In x gs /\ groupSchema._id x = g /\ In u (groupSchema.members x).
Proof.
  rewrite nodup_In, in_map_iff. split.
  - intros [x [Hid Hin]]. apply filter_In in Hin. destruct Hin as [Hin Hmem].
    exists x. rewrite mem_oid_In in Hmem. auto.
  - intros [x [Hin [Hid Hmem]]]. exists x. split; [exact Hid |].
    apply filter_In. rewrite mem_oid_In. auto.
Qed.

Lemma tasks_filter_visible d u userId t :
  tasks_filter u userId
    (nodup N.eq_dec
       (map groupSchema._id
            (filter (fun x => mem_oid u (groupSchema.members x)) (groups d)))) t
  = true
  <-> visible_to d u userId t.
Proof.
  unfold tasks_filter, visible_to.
  rewrite !orb_true_iff, andb_true_iff, N.eqb_eq, !option_string_eqb_eq,
    !String.eqb_eq.
  destruct (taskSchema.group t) as [g |].
  - rewrite mem_oid_In, member_groups_In. split.
    + intros [[[[H | H] | H] | H] | [Hv [x [Hin [Hid Hmem]]]]]; auto.
      do 4 right. split; [exact Hv |]. exists x. subst g. auto.
    + intros [H | [H | [H | [H | [Hv [x [Hin [Hid Hmem]]]]]]]]; auto 6.
      right. split; [exact Hv |]. exists x. inversion Hid. auto.
  - split.
    + intros [[[[H | H] | H] | H] | [Hv Hf]]; auto. discriminate Hf.
    + intros [H | [H | [H | [H | [Hv [x [Hin [Hid Hmem]]]]]]]]; auto 6.
      discriminate Hid.
Qed.

(** C1.  [GET /api/tasks] for the user whose id prints as [userId], with
    the store answering: the response is 200 with exactly the stored tasks
    that the user owns, or that name the user in [assigned_by] or
    [assigned_to], or that are public, or that are group tasks of a group
    the user is a member of; nothing in the store changes. *)
Theorem getTasks_visible env w userId u :
  outage env Group_find = false ->
  outage env Task_find = false ->
  ObjectId_parse env userId = Some u ->
  exists visible,
    getTasks userId env w = (Ok (res 200 (json_tasks visible)), w)
    /\ forall t, In t visible
                 <-> In t (tasks (db w)) /\ visible_to (db w) u userId t.
Proof.
  intros Hgroups Htasks Hu.
  eexists. split.
  - unfold getTasks, try_catch, bind, Group.find_members_distinct_id, Task.find,
      bind, gets, ret.
    rewrite (castObjectId_Some _ _ _ _ Hu), (call_up _ _ _ Hgroups).
    rewrite (castObjectId_Some _ _ _ _ Hu), (call_up _ _ _ Htasks).
    reflexivity.
  - intros t. rewrite filter_In, tasks_filter_visible. reflexivity.
Qed.

(* ================================================================== *)
(** ** Frame rules: what a computation leaves alone *)

#[local] Instance same_Reflexive {X} (part : Db -> X) : Reflexive (same part).
Proof. intros w. reflexivity. Qed.

#[local] Instance same_Transitive {X} (part : Db -> X) : Transitive (same part).
Proof. unfold same. intros a b c H1 H2. congruence. Qed.

#[local] Instance logged_Reflexive : Reflexive logged.
Proof. intros w msg H. exact H. Qed.

#[local] Instance logged_Transitive : Transitive logged.
Proof. intros a b c H1 H2 msg H. auto. Qed.

Section Keeps.
Context (R : World -> World -> Prop) `{!Reflexive R} `{!Transitive R}.
Variable env : Env.

Lemma keeps_ret {A} (a : A) : keeps R env (ret a).
Proof. intros w. reflexivity. Qed.

Lemma keeps_throw {A} e : keeps R env (@throw A e).
Proof. intros w. reflexivity. Qed.

Lemma keeps_asks {A} (f : Env -> A) : keeps R env (asks f).
Proof. intros w. reflexivity. Qed.

Lemma keeps_gets {A} (f : Db -> A) : keeps R env (gets f).
Proof. intros w. reflexivity. Qed.

Lemma keeps_call op : keeps R env (call op).
Proof. intros w. unfold call. destruct (outage env op); reflexivity. Qed.

Lemma keeps_bind {A B} (m : M A) (k : A -> M B) :
  keeps R env m -> (forall a, keeps R env (k a)) -> keeps R env (bind m k).
Proof.
  intros Hm Hk w. unfold bind. specialize (Hm w).
  destruct (m env w) as [[a | e] w1]; simpl in *.
  - etransitivity; [exact Hm | apply Hk].
  - exact Hm.
Qed.

Lemma keeps_try_catch {A} (m : M A) (h : Exn -> M A) :
  keeps R env m -> (forall e, keeps R env (h e)) -> keeps R env (try_catch m h).
Proof.
  intros Hm Hh w. unfold try_catch. specialize (Hm w).
  destruct (m env w) as [[a | e] w1]; simpl in *.
  - exact Hm.
  - etransitivity; [exact Hm | apply Hh].
Qed.

Lemma keeps_castObjectId s : keeps R env (castObjectId s).
Proof.
  unfold castObjectId, ObjectId_of_string.
  apply keeps_try_catch; [| intros; apply keeps_throw].
  apply keeps_bind; [apply keeps_asks |].
  intros parse. destruct (parse s); [apply keeps_ret | apply keeps_throw].
Qed.

Lemma keeps_castObjectIds l : keeps R env (castObjectIds l).
Proof.
  induction l as [| s rest IH]; simpl.
  - apply keeps_ret.
  - apply keeps_bind; [apply keeps_castObjectId |]. intros o.
    apply keeps_bind; [exact IH |]. intros os. apply keeps_ret.
Qed.
End Keeps.

Lemma same_modify_db {X} (part : Db -> X) env f :
  (forall d, part (f d) = part d) -> keeps (same part) env (modify_db f).
Proof. intros H w. unfold same. simpl. apply H. Qed.

Lemma same_console_error {X} (part : Db -> X) env msg :
  keeps (same part) env (console_error msg).
Proof. intros w. reflexivity. Qed.

Lemma logged_modify_db env f : keeps logged env (modify_db f).
Proof. intros w msg H. exact H. Qed.

Lemma logged_console_error env msg : keeps logged env (console_error msg).
Proof. intros w m H. simpl. apply in_or_app. left. exact H. Qed.

(** A write to the audit log that the store rejects changes no part of
    the store. *)
Lemma same_Audit_save_down {X} (part : Db -> X) env a :
  outage env Audit_save = true -> keeps (same part) env (Audit.save a).
Proof.
  intros H w. unfold Audit.save, bind. rewrite (call_down _ _ _ H). reflexivity.
Qed.

Ltac unfold_model :=
  unfold postTask, putTask, deleteTask, deleteGroup, getTasks,
    recordAudit, getUsersToNotify, sendNotifications, new_Task, update_of,
    group_if_provided,
    Task.find, Task.findById, Task.save, Task.findOneAndUpdate,
    Task.findOneAndDelete, Task.deleteMany_group,
    Group.find_members_distinct_id, Group.findById, Group.populate_members,
    Group.findByIdAndDelete,
    User.findById, User.findOne, User.save,
    Notification.insertMany, new_ObjectId, ObjectId_of_string.

(** One step down the syntax of a computation. *)
Ltac keeps_step :=
  match goal with
  | |- keeps _ _ (ret _) => apply keeps_ret; try typeclasses eauto
  | |- keeps _ _ (throw _) => apply keeps_throw; try typeclasses eauto
  | |- keeps _ _ (asks _) => apply keeps_asks; try typeclasses eauto
  | |- keeps _ _ (gets _) => apply keeps_gets; try typeclasses eauto
  | |- keeps _ _ (call _) => apply keeps_call; try typeclasses eauto
  | |- keeps _ _ (castObjectId _) => apply keeps_castObjectId; try typeclasses eauto
  | |- keeps _ _ (castObjectIds _) => apply keeps_castObjectIds; try typeclasses eauto
  | |- keeps (same _) _ (console_error _) => apply same_console_error
  | |- keeps logged _ (console_error _) => apply logged_console_error
  | |- keeps logged _ (modify_db _) => apply logged_modify_db
  | |- keeps (same _) _ (modify_db _) =>
      apply same_modify_db; intros []; reflexivity
  | |- keeps (same _) _ (Audit.save _) =>
      first [ apply same_Audit_save_down; first [assumption | reflexivity]
            | unfold Audit.save ]
  | |- keeps _ _ (Audit.save _) => unfold Audit.save
  | |- keeps _ _ (bind _ _) => apply keeps_bind; [try typeclasses eauto .. | | intro]
  | |- keeps _ _ (try_catch _ _) =>
      apply keeps_try_catch; [try typeclasses eauto .. | | intro]
  | |- keeps _ _ (match ?x with _ => _ end) => destruct x
  end.

Ltac frame := intros; unfold_model; repeat keeps_step.


(* ================================================================== *)
(** ** Audit recorder *)

(** [recordAudit] never throws.  Either the record is appended, or the
    failure is written to the console and the log is as it was. *)
Lemma recordAudit_spec env w taskId action changedBy changes :
  exists w',
    recordAudit taskId action changedBy changes env w = (Ok tt, w')
    /\ ((exists o,
           ObjectId_parse env changedBy = Some o
           /\ outage env Audit_save = false
           /\ audits (db w')
              = audits (db w)
                ++ [auditSchema.mk (next_oid (db w)) taskId action o changes (now env)]
           /\ console w' = console w)
        \/ ((ObjectId_parse env changedBy = None \/ outage env Audit_save = true)
            /\ audits (db w') = audits (db w)
            /\ console w' = console w ++ ["Error recording audit log:"])).
Proof.
  unfold recordAudit, try_catch, bind, new_ObjectId, bind, gets, modify_db, ret,
    asks, Audit.save, bind, console_error.
  destruct (ObjectId_parse env changedBy) as [o |] eqn:Hcast.
  - rewrite (castObjectId_Some _ _ _ _ Hcast).
    destruct (outage env Audit_save) eqn:Hout.
    + rewrite (call_down _ _ _ Hout). eexists. split; [reflexivity |].
      right. simpl. auto.
    + rewrite (call_up _ _ _ Hout). eexists. split; [reflexivity |].
      left. exists o. simpl. auto.
  - rewrite (castObjectId_None _ _ _ Hcast). eexists. split; [reflexivity |].
    right. simpl. auto.
Qed.

(** The notifications name their actor: [sendNotifications] looks the
    actor up first, so it only returns when the actor id casts. *)
Lemma sendNotifications_Ok_actor env w userIds task type actorId w' :
  sendNotifications userIds task type actorId env w = (Ok tt, w') ->
  exists o, ObjectId_parse env actorId = Some o.
Proof.
  unfold sendNotifications, User.findById. intros H.
  apply bind_Ok in H as (actor & w1 & H & _).
  apply bind_Ok in H as (o & w2 & H & _).
  apply castObjectId_Ok in H as [H _]. eauto.
Qed.

(** A handler that does not answer 500 did not reach its [catch]. *)
Lemma handler_Ok (body : M Response) env w msg failure r w' :
  try_catch body (fun _ => console_error msg ;; ret (res 500 failure)) env w
  = (Ok r, w') ->
  status r <> 500%nat ->
  body env w = (Ok r, w').
Proof.
  intros H Hs. apply try_catch_Ok in H as [H | (e & w1 & _ & H)].
  - exact H.
  - inversion H; subst. simpl in Hs. congruence.
Qed.

Lemma keeps_run {A} R env (m : M A) w x w' :
  keeps R env m -> m env w = (x, w') -> R w w'.
Proof. intros Hk H. specialize (Hk w). rewrite H in Hk. exact Hk. Qed.

(** From a run [H : m env w = (x, w')], what [m] leaves alone. *)
Tactic Notation "framed" constr(part) hyp(H) "as" ident(F) :=
  match type of H with
  | ?m ?env ?w = (?x, ?w') =>
      assert (F : same part w w')
        by (apply (keeps_run _ env m w x w'); [frame | exact H]);
      unfold same in F
  end.

(** The audit step in the middle of a handler that went on to notify as
    [req_userId]: with the store taking the write, exactly one record was
    appended. *)
Lemma audit_step env w taskId action req_userId changes w1 userIds task type w2 w3 :
  outage env Audit_save = false ->
  recordAudit taskId action req_userId changes env w = (Ok tt, w1) ->
  sendNotifications userIds task type req_userId env w2 = (Ok tt, w3) ->
  exists a, audits (db w1) = audits (db w) ++ [a]
            /\ auditSchema.action a = action
            /\ auditSchema.taskId a = taskId
            /\ auditSchema.changes a = changes
            /\ ObjectId_parse env req_userId = Some (auditSchema.changedBy a).
Proof.
  intros Hup Haudit Hsend.
  destruct (recordAudit_spec env w taskId action req_userId changes)
    as (w1' & Hrun & Hcases).
  rewrite Hrun in Haudit. inversion Haudit; subst w1'. clear Haudit.
  destruct Hcases as [(o & Hcast & _ & Happ & _) | ([Hcast | Hdown] & _)].
  - eexists. split; [exact Happ |]. simpl. auto.
  - apply sendNotifications_Ok_actor in Hsend as (o & Ho). congruence.
  - congruence.
Qed.

(** C5, as the code has it.  A task create, update or delete through its
    route that reports success, with the store taking the audit write,
    appends exactly one AuditRecord, with the action of the mutation and
    the caller as [changedBy]. *)
Theorem task_mutation_audited env w req_userId m r w' :
  outage env Audit_save = false ->
  serve req_userId m env w = (Ok r, w') ->
  status r = success_of m ->
  exists a, audits (db w') = audits (db w) ++ [a]
            /\ auditSchema.action a = action_of m
            /\ ObjectId_parse env req_userId = Some (auditSchema.changedBy a).
Proof.
  intros Hup Hrun Hstatus. destruct m as [b | id b | id]; simpl in *.
  - (* POST *)
    apply handler_Ok in Hrun; [| rewrite Hstatus; discriminate].
    apply bind_Ok in Hrun as (newTask & w1 & Hnew & Hrun).
    apply bind_Ok in Hrun as (savedTask & w2 & Hsave & Hrun).
    apply bind_Ok in Hrun as ([] & w3 & Haudit & Hrun).
    apply bind_Ok in Hrun as (usersToNotify & w4 & Husers & Hrun).
    apply bind_Ok in Hrun as ([] & w5 & Hsend & Hrun).
    inversion Hrun; subst; clear Hrun.
    framed audits Hnew as F1. framed audits Hsave as F2.
    framed audits Husers as F4. framed audits Hsend as F5.
    destruct (audit_step _ _ _ _ _ _ _ _ _ _ _ _ Hup Haudit Hsend)
      as (a & Happ & Hact & _ & _ & Hby).
    exists a. repeat split; [congruence | exact Hact | exact Hby].
  - (* PUT *)
    apply handler_Ok in Hrun; [| rewrite Hstatus; discriminate].
    apply bind_Ok in Hrun as ([updatedTask |] & w1 & Hupdate & Hrun);
      [| inversion Hrun; subst; discriminate].
    apply bind_Ok in Hrun as ([oldTask |] & w2 & Hold & Hrun); [| discriminate].
    apply bind_Ok in Hrun as ([] & w3 & Haudit & Hrun).
    apply bind_Ok in Hrun as (usersToNotify & w4 & Husers & Hrun).
    apply bind_Ok in Hrun as ([] & w5 & Hsend & Hrun).
    inversion Hrun; subst; clear Hrun.
    framed audits Hupdate as F1. framed audits Hold as F2.
    framed audits Husers as F4. framed audits Hsend as F5.
    destruct (audit_step _ _ _ _ _ _ _ _ _ _ _ _ Hup Haudit Hsend)
      as (a & Happ & Hact & _ & _ & Hby).
    exists a. repeat split; [congruence | exact Hact | exact Hby].
  - (* DELETE *)
    apply handler_Ok in Hrun; [| rewrite Hstatus; discriminate].
    apply bind_Ok in Hrun as ([taskToDelete |] & w1 & Hfind & Hrun);
      [| inversion Hrun; subst; discriminate].
    apply bind_Ok in Hrun as ([] & w2 & Haudit & Hrun).
    apply bind_Ok in Hrun as (deletedTask & w3 & Hdelete & Hrun).
    apply bind_Ok in Hrun as (usersToNotify & w4 & Husers & Hrun).
    apply bind_Ok in Hrun as ([] & w5 & Hsend & Hrun).
    inversion Hrun; subst; clear Hrun.
    framed audits Hfind as F1. framed audits Hdelete as F3.
    framed audits Husers as F4. framed audits Hsend as F5.
    destruct (audit_step _ _ _ _ _ _ _ _ _ _ _ _ Hup Haudit Hsend)
      as (a & Happ & Hact & _ & _ & Hby).
    exists a. repeat split; [congruence | exact Hact | exact Hby].
Qed.

(* ================================================================== *)
(** ** The audit write does not decide anything else *)

Lemma same_but_audits_refl d : same_but_audits d d.
Proof. unfold same_but_audits. auto. Qed.

Section Blind.
Variable env : Env.

Lemma blind_ret {A} (a : A) : blind_to_audit env (ret a).
Proof. intros w1 w2 H. simpl. auto. Qed.

Lemma blind_throw {A} e : blind_to_audit env (@throw A e).
Proof. intros w1 w2 H. simpl. auto. Qed.

Lemma blind_asks {A} (f : Env -> A) :
  f (with_outage env Audit_save false) = f (with_outage env Audit_save true) ->
  blind_to_audit env (asks f).
Proof. intros Hf w1 w2 H. unfold asks. simpl. rewrite Hf. auto. Qed.

Lemma blind_gets {A} (f : Db -> A) :
  (forall d1 d2, same_but_audits d1 d2 -> f d1 = f d2) ->
  blind_to_audit env (gets f).
Proof. intros Hf w1 w2 H. unfold gets. simpl. rewrite (Hf _ _ H). auto. Qed.

Lemma blind_modify_db (f : Db -> Db) :
  (forall d1 d2, same_but_audits d1 d2 -> same_but_audits (f d1) (f d2)) ->
  blind_to_audit env (modify_db f).
Proof. intros Hf w1 w2 H. unfold modify_db. simpl. auto. Qed.

Lemma blind_console_error msg : blind_to_audit env (console_error msg).
Proof. intros w1 w2 H. simpl. auto. Qed.

Lemma blind_call op : Op_eqb op Audit_save = false -> blind_to_audit env (call op).
Proof.
  intros Hop w1 w2 H. unfold call. simpl. rewrite Hop.
  destruct (outage env op); simpl; auto.
Qed.

Lemma blind_bind {A B} (m : M A) (k : A -> M B) :
  blind_to_audit env m -> (forall a, blind_to_audit env (k a)) ->
  blind_to_audit env (bind m k).
Proof.
  intros Hm Hk w1 w2 H. unfold bind. destruct (Hm w1 w2 H) as [Hfst Hsnd].
  destruct (m (with_outage env Audit_save false) w1) as [[a | e] w1'],
           (m (with_outage env Audit_save true) w2) as [[a' | e'] w2'];
    simpl in *; try discriminate Hfst.
  - inversion Hfst; subst. apply Hk. exact Hsnd.
  - inversion Hfst; subst. auto.
Qed.

Lemma blind_try_catch {A} (m : M A) (h : Exn -> M A) :
  blind_to_audit env m -> (forall e, blind_to_audit env (h e)) ->
  blind_to_audit env (try_catch m h).
Proof.
  intros Hm Hh w1 w2 H. unfold try_catch. destruct (Hm w1 w2 H) as [Hfst Hsnd].
  destruct (m (with_outage env Audit_save false) w1) as [[a | e] w1'],
           (m (with_outage env Audit_save true) w2) as [[a' | e'] w2'];
    simpl in *; try discriminate Hfst.
  - auto.
  - inversion Hfst; subst. apply Hh. exact Hsnd.
Qed.

Lemma blind_castObjectId s : blind_to_audit env (castObjectId s).
Proof.
  unfold castObjectId, ObjectId_of_string.
  apply blind_try_catch; [| intros; apply blind_throw].
  apply blind_bind; [apply blind_asks; reflexivity |].
  intros parse. destruct (parse s); [apply blind_ret | apply blind_throw].
Qed.

Lemma blind_castObjectIds l : blind_to_audit env (castObjectIds l).
Proof.
  induction l as [| s rest IH]; simpl.
  - apply blind_ret.
  - apply blind_bind; [apply blind_castObjectId |]. intros o.
    apply blind_bind; [exact IH |]. intros os. apply blind_ret.
Qed.

(** The one place where the two runs part: [recordAudit] appends in the
    one and logs in the other, and returns in both. *)
Lemma blind_recordAudit taskId action changedBy changes :
  blind_to_audit env (recordAudit taskId action changedBy changes).
Proof.
  intros w1 w2 (Hu & Ht & Hg & Hn & Ho).
  unfold recordAudit, try_catch, bind, new_ObjectId, bind, gets, modify_db, ret,
    asks, Audit.save, bind, console_error, castObjectId, try_catch,
    ObjectId_of_string, bind, asks, call.
  simpl. destruct (ObjectId_parse env changedBy); simpl;
    unfold same_but_audits; simpl; rewrite Ho; auto 6.
Qed.
End Blind.

Ltac blind_step :=
  match goal with
  | |- blind_to_audit _ (ret _) => apply blind_ret
  | |- blind_to_audit _ (throw _) => apply blind_throw
  | |- blind_to_audit _ (asks _) => apply blind_asks; reflexivity
  | |- blind_to_audit _ (gets _) =>
      apply blind_gets; intros ? ? (? & ? & ? & ? & ?); assumption
  | |- blind_to_audit _ (modify_db _) =>
      apply blind_modify_db; intros [] [] (? & ? & ? & ? & ?);
      unfold same_but_audits in *; simpl in *; subst; auto 6
  | |- blind_to_audit _ (console_error _) => apply blind_console_error
  | |- blind_to_audit _ (call _) => apply blind_call; reflexivity
  | |- blind_to_audit _ (castObjectId _) => apply blind_castObjectId
  | |- blind_to_audit _ (castObjectIds _) => apply blind_castObjectIds
  | |- blind_to_audit _ (recordAudit _ _ _ _) => apply blind_recordAudit
  | |- blind_to_audit _ (bind _ _) => apply blind_bind; [| intro]
  | |- blind_to_audit _ (try_catch _ _) => apply blind_try_catch; [| intro]
  | |- blind_to_audit _ (match ?x with _ => _ end) => destruct x
  end.

Ltac blind :=
  intros;
  unfold postTask, putTask, deleteTask, getUsersToNotify, sendNotifications,
    new_Task, update_of, group_if_provided,
    Task.findById, Task.save, Task.findOneAndUpdate, Task.findOneAndDelete,
    Group.findById, Group.populate_members, User.findById,
    Notification.insertMany, new_ObjectId, ObjectId_of_string;
  repeat blind_step.

(** Response, tasks, groups, users and notifications of a task mutation
    are the same whether the audit write goes through or fails. *)
Lemma serve_blind_to_audit env req_userId m :
  blind_to_audit env (serve req_userId m).
Proof. destruct m; simpl; blind. Qed.

Lemma recordAudit_down_logged env w taskId action changedBy changes w1 :
  outage env Audit_save = true ->
  recordAudit taskId action changedBy changes env w = (Ok tt, w1) ->
  In "Error recording audit log:" (console w1).
Proof.
  intros Hdown Hrun.
  destruct (recordAudit_spec env w taskId action changedBy changes)
    as (w1' & Hrun' & Hcases).
  rewrite Hrun' in Hrun. inversion Hrun; subst w1'. clear Hrun.
  destruct Hcases as [(o & _ & Hup & _) | (_ & _ & Hconsole)].
  - congruence.
  - rewrite Hconsole. apply in_or_app. right. left. reflexivity.
Qed.

Tactic Notation "still_logged" hyp(H) "as" ident(F) :=
  match type of H with
  | ?m ?env ?w = (?x, ?w') =>
      assert (F : logged w w')
        by (apply (keeps_run _ env m w x w'); [frame | exact H])
  end.

(** A task mutation that reports success while the audit write fails has
    the failure on the console. *)
Lemma serve_down_logged env w req_userId m r w' :
  outage env Audit_save = true ->
  serve req_userId m env w = (Ok r, w') ->
  status r = success_of m ->
  In "Error recording audit log:" (console w').
Proof.
  intros Hdown Hrun Hstatus. destruct m as [b | id b | id]; simpl in *.
  - apply handler_Ok in Hrun; [| rewrite Hstatus; discriminate].
    apply bind_Ok in Hrun as (newTask & w1 & Hnew & Hrun).
    apply bind_Ok in Hrun as (savedTask & w2 & Hsave & Hrun).
    apply bind_Ok in Hrun as ([] & w3 & Haudit & Hrun).
    apply bind_Ok in Hrun as (usersToNotify & w4 & Husers & Hrun).
    apply bind_Ok in Hrun as ([] & w5 & Hsend & Hrun).
    inversion Hrun; subst; clear Hrun.
    still_logged Husers as L4. still_logged Hsend as L5.
    apply L5, L4. exact (recordAudit_down_logged _ _ _ _ _ _ _ Hdown Haudit).
  - apply handler_Ok in Hrun; [| rewrite Hstatus; discriminate].
    apply bind_Ok in Hrun as ([updatedTask |] & w1 & Hupdate & Hrun);
      [| inversion Hrun; subst; discriminate].
    apply bind_Ok in Hrun as ([oldTask |] & w2 & Hold & Hrun); [| discriminate].
    apply bind_Ok in Hrun as ([] & w3 & Haudit & Hrun).
    apply bind_Ok in Hrun as (usersToNotify & w4 & Husers & Hrun).
    apply bind_Ok in Hrun as ([] & w5 & Hsend & Hrun).
    inversion Hrun; subst; clear Hrun.
    still_logged Husers as L4. still_logged Hsend as L5.
    apply L5, L4. exact (recordAudit_down_logged _ _ _ _ _ _ _ Hdown Haudit).
  - apply handler_Ok in Hrun; [| rewrite Hstatus; discriminate].
    apply bind_Ok in Hrun as ([taskToDelete |] & w1 & Hfind & Hrun);
      [| inversion Hrun; subst; discriminate].
    apply bind_Ok in Hrun as ([] & w2 & Haudit & Hrun).
    apply bind_Ok in Hrun as (deletedTask & w3 & Hdelete & Hrun).
    apply bind_Ok in Hrun as (usersToNotify & w4 & Husers & Hrun).
    apply bind_Ok in Hrun as ([] & w5 & Hsend & Hrun).
    inversion Hrun; subst; clear Hrun.
    still_logged Hdelete as L3. still_logged Husers as L4.
    still_logged Hsend as L5.
    apply L5, L4, L3. exact (recordAudit_down_logged _ _ _ _ _ _ _ Hdown Haudit).
Qed.

(** With the audit write failing, a task mutation leaves the audit log as
    it was. *)
Lemma serve_down_same_audits env req_userId m :
  outage env Audit_save = true -> keeps (same audits) env (serve req_userId m).
Proof. intros Hdown. destruct m; simpl; frame. Qed.

(** C8.  Take any task create, update or delete that reports success
    when the audit write goes through.  When the audit write fails
    instead, the caller gets the same response, the tasks and the
    notifications end up the same, so the mutation stands, no audit record
    is written, and the failure is on the console. *)
Theorem audit_failure_swallowed env w req_userId m r w_up :
  serve req_userId m (with_outage env Audit_save false) w = (Ok r, w_up) ->
  status r = success_of m ->
  exists w_down,
    serve req_userId m (with_outage env Audit_save true) w = (Ok r, w_down)
    /\ tasks (db w_down) = tasks (db w_up)
    /\ notifications (db w_down) = notifications (db w_up)
    /\ audits (db w_down) = audits (db w)
    /\ In "Error recording audit log:" (console w_down).
Proof.
  intros Hup Hstatus.
  destruct (serve_blind_to_audit env req_userId m w w (same_but_audits_refl _))
    as [Hfst Hsnd].
  destruct (serve req_userId m (with_outage env Audit_save true) w)
    as [r' w_down] eqn:Hdown.
  rewrite Hup in Hfst, Hsnd. simpl in Hfst, Hsnd. subst r'.
  exists w_down. destruct Hsnd as (_ & Htasks & _ & Hnotifications & _).
  repeat split.
  - congruence.
  - congruence.
  - apply (keeps_run _ _ _ _ _ _
             (serve_down_same_audits (with_outage env Audit_save true)
                                     req_userId m eq_refl) Hdown).
  - apply (serve_down_logged (with_outage env Audit_save true) _ _ _ _ _
                             eq_refl Hdown Hstatus).
Qed.

(* ================================================================== *)
(** ** What [putTask] writes to the audit log *)

Lemma bind_inv {A B} (m : M A) (k : A -> M B) env w x w' :
  bind m k env w = (x, w') ->
  (exists e, m env w = (Throw e, w') /\ x = Throw e)
  \/ (exists a w1, m env w = (Ok a, w1) /\ k a env w1 = (x, w')).
Proof.
  unfold bind. destruct (m env w) as [[a | e] w1]; intros H.
  - right. exists a, w1. auto.
  - left. exists e. inversion H. auto.
Qed.

Lemma try_catch_inv {A} (m : M A) (h : Exn -> M A) env w x w' :
  try_catch m h env w = (x, w') ->
  (exists a, m env w = (Ok a, w') /\ x = Ok a)
  \/ (exists e w1, m env w = (Throw e, w1) /\ h e env w1 = (x, w')).
Proof.
  unfold try_catch. destruct (m env w) as [[a | e] w1]; intros H.
  - left. exists a. inversion H. auto.
  - right. exists e, w1. auto.
Qed.

Lemma update_first_find o f l :
  (forall t, taskSchema._id (f t) = taskSchema._id t) ->
  find (Task.has_id o) (Task.update_first o f l)
  = option_map f (find (Task.has_id o) l).
Proof.
  intros Hid. induction l as [| t rest IH]; simpl; [reflexivity |].
  destruct (Task.has_id o t) eqn:Ht; simpl.
  - unfold Task.has_id in *. rewrite Hid, Ht. reflexivity.
  - rewrite Ht. exact IH.
Qed.

Lemma update_of_id b env w f w' t :
  update_of b env w = (Ok f, w') -> taskSchema._id (f t) = taskSchema._id t.
Proof.
  unfold update_of. intros H.
  apply bind_Ok in H as (linkedTasks & w1 & _ & H).
  apply bind_Ok in H as (group & w2 & _ & H).
  inversion H. reflexivity.
Qed.

(** [oldTask] is read after the update has been written: it is
    [updatedTask]. *)
Lemma putTask_oldTask_is_updatedTask env w id b updatedTask w1 oldTask w2 :
  Task.findOneAndUpdate id (update_of b) env w = (Ok (Some updatedTask), w1) ->
  Task.findById id env w1 = (Ok (Some oldTask), w2) ->
  oldTask = updatedTask.
Proof.
  unfold Task.findOneAndUpdate, Task.findById. intros Hupdate Hold.
  apply bind_Ok in Hupdate as (o & wa & Hcast & Hupdate).
  apply castObjectId_Ok in Hcast as [Hcast ->].
  apply bind_Ok in Hupdate as (f & wb & Hf & Hupdate).
  apply bind_Ok in Hupdate as ([] & wc & _ & Hupdate).
  unfold bind, gets, modify_db, ret in Hupdate. simpl in Hupdate.
  inversion Hupdate as [[Hfound Hw1]]. clear Hupdate.
  apply bind_Ok in Hold as (o' & wd & Hcast' & Hold).
  apply castObjectId_Ok in Hcast' as [Hcast' ->].
  assert (o' = o) by congruence. subst o'.
  apply bind_Ok in Hold as ([] & we & Hcall & Hold).
  unfold call in Hcall. destruct (outage env Task_findById); [discriminate |].
  inversion Hcall; subst we. clear Hcall.
  unfold bind, gets, ret in Hold. simpl in Hold. rewrite <- Hw1 in Hold.
  simpl in Hold. rewrite update_first_find, Hfound in Hold.
  - inversion Hold. reflexivity.
  - intros t. exact (update_of_id _ _ _ _ _ t Hf).
Qed.

Lemma group_differs_same g : group_differs g g = false.
Proof. destruct g; simpl; [rewrite String.eqb_refl |]; reflexivity. Qed.

Lemma changes_of_same t : changes_of t t = [].
Proof.
  unfold changes_of. rewrite String.eqb_refl, group_differs_same. reflexivity.
Qed.

(** Whatever the request and however the handler ends, every audit record
    [putTask] adds has an empty [changes]. *)
Lemma putTask_changes_empty env w req_userId id b r w' a :
  putTask req_userId id b env w = (r, w') ->
  In a (audits (db w')) ->
  In a (audits (db w))
  \/ (auditSchema.action a = "update" /\ auditSchema.changes a = []).
Proof.
  intros Hrun Hin.
  assert (Hbody : forall x w1,
    (updatedTask <- Task.findOneAndUpdate id (update_of b) ;;
     match updatedTask with
     | None => ret (res 404 (json_message "Task not found"))
     | Some updatedTask =>
         oldTask <- Task.findById id ;;
         match oldTask with
         | None => throw TypeError
         | Some oldTask =>
             recordAudit (taskSchema._id updatedTask) "update" req_userId
                         (changes_of oldTask updatedTask) ;;
             usersToNotify <- getUsersToNotify updatedTask ;;
             sendNotifications usersToNotify updatedTask update req_userId ;;
             ret (res 200 (json_task updatedTask))
         end
     end) env w = (x, w1) ->
    In a (audits (db w1)) ->
    In a (audits (db w))
    \/ (auditSchema.action a = "update" /\ auditSchema.changes a = [])).
  { clear. intros x w5 Hrun Hin.
    apply bind_inv in Hrun as [(e & Hupdate & _) | (updated & w1 & Hupdate & Hrun)].
    { framed audits Hupdate as F. left. congruence. }
    framed audits Hupdate as F1.
    destruct updated as [updatedTask |];
      [| inversion Hrun; subst; left; congruence].
    apply bind_inv in Hrun as [(e & Hold & _) | (old & w2 & Hold & Hrun)].
    { framed audits Hold as F. left. congruence. }
    framed audits Hold as F2.
    destruct old as [oldTask |]; [| inversion Hrun; subst; left; congruence].
    rewrite (putTask_oldTask_is_updatedTask _ _ _ _ _ _ _ _ Hupdate Hold) in Hrun.
    rewrite changes_of_same in Hrun.
    destruct (recordAudit_spec env w2 (taskSchema._id updatedTask) "update"
                               req_userId [])
      as (w3 & Haudit & Hcases).
    unfold bind at 1 in Hrun. rewrite Haudit in Hrun.
    framed audits Hrun as F4.
    destruct Hcases as [(o & _ & _ & Happ & _) | (_ & Hsame & _)].
    - rewrite F4, Happ, F2, F1 in Hin. apply in_app_or in Hin as [Hin | Hin].
      + left. exact Hin.
      + right. destruct Hin as [<- | []]. simpl. auto.
    - left. congruence. }
  unfold putTask in Hrun.
  apply try_catch_inv in Hrun as [(x & Hb & _) | (e & w1 & Hb & Hcatch)].
  - exact (Hbody _ _ Hb Hin).
  - framed audits Hcatch as F. rewrite F in Hin. exact (Hbody _ _ Hb Hin).
Qed.

(* ================================================================== *)
(** ** Notification dispatcher *)

(** An [assigned_to] that the [ObjectId] constructor refuses makes it
    throw on the first line of the [try]: the [catch] logs and returns
    [[]], before the owner and the group are looked at. *)
Lemma getUsersToNotify_unparsable env w task name :
  taskSchema.assigned_to task = Some name ->
  name <> EmptyString ->
  ObjectId_parse env name = None ->
  getUsersToNotify task env w
  = (Ok [], mkWorld (db w) (console w ++ ["Error determining users to notify:"])).
Proof.
  intros Hassigned Hname Hparse. unfold getUsersToNotify, try_catch.
  unfold bind at 1. rewrite Hassigned.
  destruct name as [| c rest]; [congruence |].
  unfold bind at 1. unfold ObjectId_of_string, bind, asks. rewrite Hparse.
  reflexivity.
Qed.

(** Whatever goes wrong while the recipients are computed, the caller
    of [getUsersToNotify] gets an array back. *)
Lemma getUsersToNotify_returns env w task :
  exists userIds w', getUsersToNotify task env w = (Ok userIds, w').
Proof.
  unfold getUsersToNotify, try_catch.
  match goal with
  | |- exists _ _, match ?body env w with _ => _ end = _ =>
      destruct (body env w) as [[userIds | e] w1]
  end.
  - eauto.
  - do 2 eexists. reflexivity.
Qed.

(** Once [POST /api/tasks] has saved the task, the task is in the store
    when the handler answers, whatever the audit and the notifications
    do. *)
Lemma postTask_not_rolled_back env w req_userId b newTask w1 w2 :
  new_Task b req_userId env w = (Ok newTask, w1) ->
  Task.save newTask env w1 = (Ok newTask, w2) ->
  In newTask (tasks (db (snd (postTask req_userId b env w)))).
Proof.
  intros Hnew Hsave.
  assert (Hin : In newTask (tasks (db w2))).
  { unfold Task.save in Hsave.
    apply bind_Ok in Hsave as ([] & wa & Hcall & Hsave).
    unfold call in Hcall. destruct (outage env Task_save); [discriminate |].
    inversion Hcall; subst wa. unfold bind, modify_db, ret in Hsave.
    inversion Hsave. simpl. apply in_or_app. right. left. reflexivity. }
  unfold postTask, try_catch. unfold bind at 1. rewrite Hnew.
  unfold bind at 1. rewrite Hsave.
  match goal with
  | |- In _ (tasks (db (snd (match ?k env w2 with _ => _ end)))) =>
      assert (K : keeps (same tasks) env
                    (try_catch k
                       (fun _ => console_error "Error creating task:" ;;
                                 ret (res 500 (json_message "Failed to create task")))))
        by frame
  end.
  specialize (K w2). unfold same, try_catch in K. rewrite K. exact Hin.
Qed.

(** With nobody to notify, nothing is inserted. *)
Lemma sendNotifications_nobody env task type actorId :
  keeps (same notifications) env (sendNotifications [] task type actorId).
Proof. unfold sendNotifications. simpl map. frame. Qed.

Lemma notify_nobody env task name type actorId (r : Response) :
  taskSchema.assigned_to task = Some name ->
  name <> EmptyString ->
  ObjectId_parse env name = None ->
  keeps (same notifications) env
        (usersToNotify <- getUsersToNotify task ;;
         sendNotifications usersToNotify task type actorId ;;
         ret r).
Proof.
  intros Hassigned Hname Hparse w. unfold bind at 1.
  rewrite (getUsersToNotify_unparsable _ _ _ _ Hassigned Hname Hparse).
  match goal with
  | |- same _ _ (snd (?m env ?w1)) =>
      assert (K : keeps (same notifications) env m)
  end.
  { apply keeps_bind; [typeclasses eauto | apply sendNotifications_nobody |].
    intros. apply keeps_ret. typeclasses eauto. }
  exact (K _).
Qed.

(** C10.  A task whose [assigned_to] is a non-empty string that the
    [ObjectId] constructor refuses: [getUsersToNotify] returns the empty
    list (and logs), whoever owns the task and whatever its group; and a
    [PUT] that leaves the task in this state, or a [DELETE] of it, inserts
    no notification. *)
Theorem unparsable_assignee_notifies_nobody env task name :
  taskSchema.assigned_to task = Some name ->
  name <> EmptyString ->
  ObjectId_parse env name = None ->
  (forall w,
      getUsersToNotify task env w
      = (Ok [], mkWorld (db w)
                        (console w ++ ["Error determining users to notify:"])))
  /\ (forall w req_userId id b w1,
         Task.findOneAndUpdate id (update_of b) env w = (Ok (Some task), w1) ->
         notifications (db (snd (putTask req_userId id b env w)))
         = notifications (db w))
  /\ (forall w req_userId id w1,
         Task.findById id env w = (Ok (Some task), w1) ->
         notifications (db (snd (deleteTask req_userId id env w)))
         = notifications (db w)).
Proof.
  intros Hassigned Hname Hparse. split; [| split].
  - intros w. exact (getUsersToNotify_unparsable _ _ _ _ Hassigned Hname Hparse).
  - intros w req_userId id b w1 Hupdate.
    framed notifications Hupdate as F1.
    unfold putTask, try_catch. unfold bind at 1. rewrite Hupdate.
    match goal with
    | |- notifications (db (snd (match ?k env w1 with _ => _ end))) = _ =>
        assert (K : keeps (same notifications) env
                      (try_catch k
                         (fun _ => console_error "Error updating task:" ;;
                                   ret (res 500 (json_message "Failed to update task")))))
    end.
    { apply keeps_try_catch; [typeclasses eauto | | frame].
      apply keeps_bind; [typeclasses eauto | frame |].
      intros [oldTask |]; [| frame].
      apply keeps_bind; [typeclasses eauto | frame |]. intros _.
      exact (notify_nobody _ _ _ _ _ _ Hassigned Hname Hparse). }
    specialize (K w1). unfold same, try_catch in K. rewrite <- F1. exact K.
  - intros w req_userId id w1 Hfind.
    framed notifications Hfind as F1.
    unfold deleteTask, try_catch. unfold bind at 1. rewrite Hfind.
    match goal with
    | |- notifications (db (snd (match ?k env w1 with _ => _ end))) = _ =>
        assert (K : keeps (same notifications) env
                      (try_catch k
                         (fun _ => console_error "Error deleting task:" ;;
                                   ret (res 500 (json_message "Failed to delete task")))))
    end.
    { apply keeps_try_catch; [typeclasses eauto | | frame].
      apply keeps_bind; [typeclasses eauto | frame |]. intros _.
      apply keeps_bind; [typeclasses eauto | frame |]. intros _.
      exact (notify_nobody _ _ _ _ _ _ Hassigned Hname Hparse). }
    specialize (K w1). unfold same, try_catch in K. rewrite <- F1. exact K.
Qed.

(** The fan-out of property 7: the assignee, the owner, the two members. *)
Lemma getUsersToNotify_fanout env w task a u1 g grp u3 u4 d3 d4 :
  taskSchema.assigned_to task = Some a ->
  a <> EmptyString ->
  ObjectId_parse env a = Some u1 ->
  toString (taskSchema.owner task) <> a ->
  taskSchema.visibility task = "group" ->
  taskSchema.group task = Some g ->
  outage env Group_findById = false ->
  outage env User_find = false ->
  find (Group.has_id g) (groups (db w)) = Some grp ->
  groupSchema.members grp = [u3; u4] ->
  find (User.has_id u3) (users (db w)) = Some d3 ->
  find (User.has_id u4) (users (db w)) = Some d4 ->
  u3 <> u4 ->
  getUsersToNotify task env w = (Ok [u1; taskSchema.owner task; u3; u4], w).
Proof.
  intros Hassigned Hname Hparse Howner Hvis Hgroup Hup1 Hup2 Hgrp Hmembers
    Hd3 Hd4 Hneq.
  assert (H3 : userSchema._id d3 = u3).
  { apply find_some in Hd3 as [_ H]. apply N.eqb_eq. exact H. }
  assert (H4 : userSchema._id d4 = u4).
  { apply find_some in Hd4 as [_ H]. apply N.eqb_eq. exact H. }
  unfold getUsersToNotify, try_catch. rewrite Hassigned, Hvis, Hgroup.
  destruct a as [| c rest]; [congruence |].
  apply String.eqb_neq in Howner.
  unfold bind at 1. unfold bind at 1. unfold ObjectId_of_string, bind at 1, asks.
  rewrite Hparse, Howner.
  unfold Group.findById, Group.populate_members, bind, gets, ret, call.
  cbn. rewrite Hup1. cbn. rewrite Hgrp. cbn. rewrite Hup2, Hmembers. cbn.
  rewrite Hd3, Hd4. cbn. rewrite H3, H4.
  unfold Set_add. cbn. apply N.eqb_neq in Hneq. rewrite Hneq. reflexivity.
Qed.

(** The same with the assignee among the members: the assignee is in the
    array twice, once as the object built from [assigned_to] and once as
    the [_id] of the populated member. *)
Lemma getUsersToNotify_assignee_member_twice env w task a u1 g grp u4 d1 d4 :
  taskSchema.assigned_to task = Some a ->
  a <> EmptyString ->
  ObjectId_parse env a = Some u1 ->
  toString (taskSchema.owner task) <> a ->
  taskSchema.visibility task = "group" ->
  taskSchema.group task = Some g ->
  outage env Group_findById = false ->
  outage env User_find = false ->
  find (Group.has_id g) (groups (db w)) = Some grp ->
  groupSchema.members grp = [u1; u4] ->
  find (User.has_id u1) (users (db w)) = Some d1 ->
  find (User.has_id u4) (users (db w)) = Some d4 ->
  u1 <> u4 ->
  getUsersToNotify task env w = (Ok [u1; taskSchema.owner task; u1; u4], w).
Proof. apply getUsersToNotify_fanout. Qed.

(** When [sendNotifications] throws in [POST /api/tasks], the handler's
    [catch] answers 500. *)
Lemma postTask_send_failure_surfaces env w req_userId b t w1 w2 w3 userIds w4 e w5 :
  new_Task b req_userId env w = (Ok t, w1) ->
  Task.save t env w1 = (Ok t, w2) ->
  recordAudit (taskSchema._id t) "create" req_userId (toObject t) env w2
  = (Ok tt, w3) ->
  getUsersToNotify t env w3 = (Ok userIds, w4) ->
  sendNotifications userIds t assignment req_userId env w4 = (Throw e, w5) ->
  postTask req_userId b env w
  = (Ok (res 500 (json_message "Failed to create task")),
     mkWorld (db w5) (console w5 ++ ["Error creating task:"])).
Proof.
  intros Hnew Hsave Haudit Husers Hsend.
  unfold postTask, try_catch.
  unfold bind at 1. rewrite Hnew.
  unfold bind at 1. rewrite Hsave.
  unfold bind at 1. rewrite Haudit.
  unfold bind at 1. rewrite Husers.
  unfold bind at 1. rewrite Hsend.
  reflexivity.
Qed.

(** A user who is both owner and assignee of a task outside any group is
    in the array once: the owner is not added when [owner.toString()] is
    [assigned_to]. *)
Lemma getUsersToNotify_owner_is_assignee env w task c rest u :
  taskSchema.assigned_to task = Some (String c rest) ->
  toString (taskSchema.owner task) = String c rest ->
  ObjectId_parse env (String c rest) = Some u ->
  taskSchema.group task = None ->
  getUsersToNotify task env w = (Ok [u], w).
Proof.
  intros Hassigned Howner Hparse Hgroup.
  unfold getUsersToNotify, try_catch. rewrite Hassigned, Hgroup, Howner.
  rewrite String.eqb_refl.
  unfold ObjectId_of_string, bind, asks, ret. rewrite Hparse.
  destruct (String.eqb (taskSchema.visibility task) "group"); reflexivity.
Qed.

(* ================================================================== *)
(** ** Access-control gate *)

Lemma authMiddleware_rejects env cookie next w :
  rejected env cookie -> authMiddleware cookie next env w = (Ok Unauthorized, w).
Proof.
  intros H. unfold authMiddleware, try_catch, jwt_verify, bind, asks, ret, throw.
  destruct H as [| s | key payload Hkey | payload e Hexp Hnow]; simpl.
  - reflexivity.
  - destruct s; reflexivity.
  - apply String.eqb_neq in Hkey. rewrite Hkey. reflexivity.
  - rewrite String.eqb_refl, Hexp.
    apply Z.leb_le in Hnow. rewrite Hnow. reflexivity.
Qed.

Lemma authMiddleware_accepts env cookie req_userId next w :
  accepted env cookie req_userId ->
  authMiddleware cookie next env w = next req_userId env w.
Proof.
  intros H. unfold authMiddleware, try_catch, jwt_verify, bind, asks, ret, throw.
  destruct H as [payload Hexp]. simpl. rewrite String.eqb_refl.
  destruct (exp payload) as [e |] eqn:He.
  - specialize (Hexp e eq_refl). apply Z.leb_gt in Hexp. rewrite Hexp. reflexivity.
  - reflexivity.
Qed.

Lemma rejected_or_accepted env cookie :
  rejected env cookie \/ exists req_userId, accepted env cookie req_userId.
Proof.
  destruct cookie as [[s | key payload] |].
  - left. constructor.
  - destruct (String.eqb_spec key (JWT_SECRET env)) as [-> | Hkey].
    + destruct (exp payload) as [e |] eqn:He.
      * destruct (Z.leb_spec e (now env)) as [Hle | Hlt].
        -- left. econstructor; eassumption.
        -- right. eexists. constructor. intros e' He'. congruence.
      * right. eexists. constructor. intros e' He'. congruence.
    + left. constructor. exact Hkey.
  - left. constructor.
Qed.

(** C6, as the code has it.  Whatever the store holds, the gate answers
    401 and runs nothing when the token is absent, malformed, signed with
    another key or expired; every other token is one signed with the
    server's key and not expired, and the guarded operation then runs
    with the user id the token carries.  The users collection is not
    consulted. *)
Theorem authMiddleware_gate env cookie :
  (rejected env cookie
   /\ forall next w, authMiddleware cookie next env w = (Ok Unauthorized, w))
  \/ (exists req_userId,
         accepted env cookie req_userId
         /\ forall next w, authMiddleware cookie next env w = next req_userId env w).
Proof.
  destruct (rejected_or_accepted env cookie) as [H | [req_userId H]].
  - left. split; [exact H |]. intros. apply authMiddleware_rejects. exact H.
  - right. exists req_userId. split; [exact H |].
    intros. apply authMiddleware_accepts. exact H.
Qed.

(** The token a successful signup answers with carries no [exp]. *)
Lemma postSignup_token env w name username password token id w' :
  postSignup name username password env w
  = (Ok (res 201 (json_signup token id)), w') ->
  token = signed (JWT_SECRET env) (mkPayload (toString id) (now env) None).
Proof.
  unfold postSignup. intros H.
  apply try_catch_Ok in H as [H | (e & w1 & _ & H)]; [| discriminate H].
  apply bind_Ok in H as ([existing |] & w1 & _ & H); [discriminate H |].
  apply bind_Ok in H as (hash & w2 & _ & H).
  apply bind_Ok in H as (oid & w3 & _ & H).
  apply bind_Ok in H as (newUser & w4 & _ & H).
  apply bind_Ok in H as ([] & w5 & _ & H).
  apply bind_Ok in H as (secret & w6 & Hsecret & H).
  apply bind_Ok in H as (token' & w7 & Hsign & H).
  inversion H; subst. inversion Hsecret; subst.
  unfold jwt_sign, bind, asks, ret in Hsign. inversion Hsign. reflexivity.
Qed.

(** The gate lets the signup token through at any later time. *)
Lemma signup_token_never_expires env w name username password token id w' :
  postSignup name username password env w
  = (Ok (res 201 (json_signup token id)), w') ->
  forall later next w2,
    JWT_SECRET later = JWT_SECRET env ->
    authMiddleware (Some token) next later w2 = next (toString id) later w2.
Proof.
  intros H later next w2 Hsecret.
  rewrite (postSignup_token _ _ _ _ _ _ _ _ H), <- Hsecret.
  apply (authMiddleware_accepts later _ _ next w2
           (accepted_valid later (mkPayload (toString id) (now env) None)
              ltac:(simpl; intros; discriminate))).
Qed.

(** The token a login sets as cookie expires 3600 seconds after it. *)
Lemma postLogin_token env w username password r token w' :
  postLogin username password env w = (Ok r, w') ->
  cookie_jwt r = Some token ->
  exists id, token = signed (JWT_SECRET env)
                            (mkPayload id (now env) (Some (now env + 3600)%Z)).
Proof.
  unfold postLogin. intros H Hcookie.
  apply try_catch_Ok in H as [H | (e & w1 & _ & H)];
    [| inversion H; subst; discriminate Hcookie].
  apply bind_Ok in H as ([user |] & w1 & _ & H);
    [| inversion H; subst; discriminate Hcookie].
  apply bind_Ok in H as (compare & w2 & _ & H).
  destruct (compare password (userSchema.password user));
    [| inversion H; subst; discriminate Hcookie].
  apply bind_Ok in H as (secret & w3 & Hsecret & H).
  apply bind_Ok in H as (token' & w4 & Hsign & H).
  inversion H; subst. inversion Hsecret; subst. simpl in Hcookie.
  inversion Hcookie; subst.
  unfold jwt_sign, bind, asks, ret in Hsign. inversion Hsign. eauto.
Qed.

(** The gate refuses the login token from one hour after the login on. *)
Lemma login_token_expires env w username password r token w' :
  postLogin username password env w = (Ok r, w') ->
  cookie_jwt r = Some token ->
  forall later next w2,
    JWT_SECRET later = JWT_SECRET env ->
    (now env + 3600 <= now later)%Z ->
    authMiddleware (Some token) next later w2 = (Ok Unauthorized, w2).
Proof.
  intros H Hcookie later next w2 Hsecret Hlate.
  destruct (postLogin_token _ _ _ _ _ _ _ H Hcookie) as [id ->].
  rewrite <- Hsecret. apply authMiddleware_rejects.
  econstructor; [reflexivity | exact Hlate].
Qed.

(* ================================================================== *)
(** ** Group deletion *)

Lemma Group_remove_first_In o l g :
  NoDup (map groupSchema._id l) ->
  In g (Group.remove_first o l) <-> In g l /\ groupSchema._id g <> o.
Proof.
  induction l as [| x rest IH]; simpl; intros Hnodup.
  - tauto.
  - inversion Hnodup as [| ? ? Hnotin Hrest]; subst.
    unfold Group.has_id at 1. destruct (N.eqb_spec (groupSchema._id x) o) as [He | Hne].
    + split.
      * intros Hin. split; [right; exact Hin |]. intros Hg. apply Hnotin.
        rewrite He, <- Hg. apply in_map. exact Hin.
      * intros [[<- | Hin] Hg]; [congruence | exact Hin].
    + simpl. rewrite (IH Hrest). split.
      * intros [<- | [Hin Hg]]; auto.
      * intros [[<- | Hin] Hg]; auto.
Qed.

Lemma option_oid_eqb_eq a b : option_oid_eqb a b = true <-> a = Some b.
Proof.
  destruct a as [o |]; simpl.
  - rewrite N.eqb_eq. split; congruence.
  - split; discriminate.
Qed.

(** C9.  [DELETE /api/groups/:id] on a stored group.  A caller who is not
    its owner gets 403 and the store (groups and tasks alike) is exactly
    as before.  For its owner, with the store answering, the answer is
    200, the group is gone and so is every task whose [group] is this
    group; the other groups and tasks stay. *)
Theorem deleteGroup_owner_only env w req_userId groupId id group :
  ObjectId_parse env groupId = Some id ->
  outage env Group_findById = false ->
  find (Group.has_id id) (groups (db w)) = Some group ->
  (toString (groupSchema.owner group) <> req_userId ->
   deleteGroup req_userId groupId env w
   = (Ok (res 403 (json_message "Forbidden: Only the owner can delete the group")), w))
  /\ (toString (groupSchema.owner group) = req_userId ->
      outage env Group_findByIdAndDelete = false ->
      outage env Task_deleteMany = false ->
      NoDup (map groupSchema._id (groups (db w))) ->
      exists w',
        deleteGroup req_userId groupId env w
        = (Ok (res 200 (json_message "Group deleted")), w')
        /\ (forall g, In g (groups (db w'))
                      <-> In g (groups (db w)) /\ groupSchema._id g <> id)
        /\ (forall t, In t (tasks (db w'))
                      <-> In t (tasks (db w)) /\ taskSchema.group t <> Some id)).
Proof.
  intros Hid Hfind Hgroup.
  assert (Hhead : forall (k : option groupSchema.t -> M Response) h,
    try_catch (i <- castObjectId groupId ;; g <- Group.findById i ;; k g) h env w
    = try_catch (k (Some group)) h env w).
  { intros k h. unfold try_catch, bind, Group.findById, bind, gets, ret.
    rewrite (castObjectId_Some _ _ _ _ Hid), (call_up _ _ _ Hfind), Hgroup.
    reflexivity. }
  unfold deleteGroup. rewrite Hhead. split.
  - intros Hother. apply String.eqb_neq in Hother.
    unfold try_catch. rewrite Hother. reflexivity.
  - intros Howner Hdelete Hmany Hnodup. apply String.eqb_eq in Howner.
    unfold try_catch. rewrite Howner. change (negb true) with false. cbv iota.
    unfold Group.findByIdAndDelete, Task.deleteMany_group, bind, modify_db, ret.
    rewrite (castObjectId_Some _ _ _ _ Hid), (call_up _ _ _ Hdelete).
    rewrite (castObjectId_Some _ _ _ _ Hid), (call_up _ _ _ Hmany).
    eexists. split; [reflexivity |]. simpl. split.
    + intros g. apply Group_remove_first_In. exact Hnodup.
    + intros t. rewrite filter_In, negb_true_iff.
      rewrite <- not_true_iff_false, option_oid_eqb_eq. reflexivity.
Qed.

(* ================================================================== *)
(** ** Frame rules for the other routes *)

Ltac unfold_routes :=
  unfold postSignup, postLogin, getVerify, getLogout, postResetPassword,
    postForgotPassword, putUser, postGroup, putGroup, getTaskAudit,
    getNotifications, putNotificationRead, putMarkAllRead,
    validate_group, populate_changedBy, user_save, user_findOne, store_call,
    Date_now, jwt_sign, jwt_verify.

Ltac frame_routes := intros; unfold_model; unfold_routes; unfold_model; repeat keeps_step.

Tactic Notation "framed_routes" constr(part) hyp(H) "as" ident(F) :=
  match type of H with
  | ?m ?env ?w = (?x, ?w') =>
      assert (F : same part w w')
        by (apply (keeps_run _ env m w x w'); [frame_routes | exact H]);
      unfold same in F
  end.

(* ================================================================== *)
(** ** Helpers of the server *)

Lemma every_from_spec A (toString_of : A -> string) (arr1 pre suf : list A) :
  List.length arr1 = List.length suf ->
  every_from A (List.length pre)
    (fun value index =>
       match nth_error (pre ++ suf) index with
       | Some other => Ok (String.eqb (toString_of value) (toString_of other))
       | None => Throw TypeError
       end)
    arr1
  = Ok (if list_eq_dec string_dec (map toString_of arr1) (map toString_of suf)
        then true else false).
Proof.
  revert pre suf. induction arr1 as [| x rest IH]; intros pre [| y suf] Hlen;
    try discriminate Hlen.
  - reflexivity.
  - simpl every_from.
    rewrite nth_error_app2, Nat.sub_diag by reflexivity. simpl nth_error.
    destruct (String.eqb_spec (toString_of x) (toString_of y)) as [Hxy | Hxy].
    + specialize (IH (pre ++ [y]) suf ltac:(simpl in Hlen; congruence)).
      rewrite length_app, Nat.add_1_r, <- app_assoc in IH. simpl in IH.
      rewrite IH, (proj2 (String.eqb_eq _ _) Hxy). simpl map.
      destruct (list_eq_dec string_dec (map toString_of rest) (map toString_of suf)),
               (list_eq_dec string_dec (toString_of x :: map toString_of rest)
                                       (toString_of y :: map toString_of suf));
        congruence.
    + rewrite (proj2 (String.eqb_neq _ _) Hxy). simpl map.
      destruct (list_eq_dec string_dec (toString_of x :: map toString_of rest)
                                       (toString_of y :: map toString_of suf));
        congruence.
Qed.

(** X1.  [arraysEqual] never throws, and answers [true] exactly when the two
    arrays print, element by element, to the same strings. *)
Theorem arraysEqual_compares_strings A (toString_of : A -> string) arr1 arr2 :
  exists b,
    arraysEqual A toString_of arr1 arr2 = Ok b
    /\ (b = true <-> map toString_of arr1 = map toString_of arr2).
Proof.
  unfold arraysEqual.
  destruct (Nat.eqb_spec (List.length arr1) (List.length arr2)) as [Hlen | Hlen];
    simpl negb; cbv iota.
  - pose proof (every_from_spec A toString_of arr1 [] arr2 Hlen) as H.
    simpl in H. rewrite H.
    eexists. split; [reflexivity |].
    destruct (list_eq_dec string_dec (map toString_of arr1) (map toString_of arr2));
      split; congruence.
  - exists false. split; [reflexivity |]. split; [discriminate |].
    intros H. exfalso. apply Hlen.
    rewrite <- (length_map toString_of arr1), <- (length_map toString_of arr2).
    congruence.
Qed.

(** For an id that parses and that no user in the array has,
    [getNameById] throws a TypeError where [getUsernameById] returns
    null; for an id a user has, they return the name and the username of
    the first such user; for a string that is no ObjectId both throw. *)
Lemma getNameById_throws_on_unknown_id env w users userid :
  match ObjectId_parse env userid with
  | None =>
      getNameById users userid env w = (Throw BSONError, w)
      /\ getUsernameById users userid env w = (Throw BSONError, w)
  | Some o =>
      match find (User.has_id o) users with
      | Some user =>
          getNameById users userid env w = (Ok (userSchema.name user), w)
          /\ getUsernameById users userid env w
             = (Ok (Some (userSchema.username user)), w)
      | None =>
          getNameById users userid env w = (Throw TypeError, w)
          /\ getUsernameById users userid env w = (Ok None, w)
      end
  end.
Proof.
  unfold getNameById, getUsernameById, ObjectId_of_string, bind, asks, ret, throw.
  destruct (ObjectId_parse env userid) as [o |]; [| split; reflexivity].
  destruct (find (User.has_id o) users); split; reflexivity.
Qed.

(* ================================================================== *)
(** ** Sessions: login, verify, logout *)

Lemma bind_run {A B} (m : M A) (k : A -> M B) env w a w1 :
  m env w = (Ok a, w1) -> bind m k env w = k a env w1.
Proof. intros H. unfold bind. rewrite H. reflexivity. Qed.

Lemma bind_fail {A B} (m : M A) (k : A -> M B) env w e w1 :
  m env w = (Throw e, w1) -> bind m k env w = (Throw e, w1).
Proof. intros H. unfold bind. rewrite H. reflexivity. Qed.

Lemma bind_asks {A B} (f : Env -> A) (k : A -> M B) env w :
  bind (asks f) k env w = k (f env) env w.
Proof. reflexivity. Qed.

Lemma bind_gets {A B} (f : Db -> A) (k : A -> M B) env w :
  bind (gets f) k env w = k (f (db w)) env w.
Proof. reflexivity. Qed.

Lemma bind_call {B} op (k : unit -> M B) env w :
  outage env op = false -> bind (call op) k env w = k tt env w.
Proof. intros H. unfold bind. rewrite (call_up _ _ _ H). reflexivity. Qed.

Lemma bind_cast {B} s o (k : ObjectId -> M B) env w :
  ObjectId_parse env s = Some o -> bind (castObjectId s) k env w = k o env w.
Proof. intros H. unfold bind. rewrite (castObjectId_Some _ _ _ _ H). reflexivity. Qed.

Lemma User_findOne_up env w username :
  outage env User_findOne = false ->
  User.findOne username env w
  = (Ok (find (fun u => String.eqb (userSchema.username u) username) (users (db w))), w).
Proof.
  intros Hup. unfold User.findOne, bind, gets, ret. rewrite (call_up _ _ _ Hup).
  reflexivity.
Qed.

Lemma User_findById_up env w id o :
  outage env User_findById = false ->
  ObjectId_parse env id = Some o ->
  User.findById (Some id) env w = (Ok (find (User.has_id o) (users (db w))), w).
Proof.
  intros Hup Hid. unfold User.findById, bind, gets, ret.
  rewrite (castObjectId_Some _ _ _ _ Hid), (call_up _ _ _ Hup). reflexivity.
Qed.

(** X2.  [GET /api/users/verify], with the store answering.  A token the gate
    would refuse gets 401.  A token the gate would accept gets 200 with
    its user id only if a user with that id is stored, and 401 otherwise;
    the store is not changed. *)
Theorem getVerify_checks_user env w cookie :
  outage env User_findById = false ->
  (rejected env cookie ->
   fst (getVerify cookie env w) = Ok Unauthorized
   /\ db (snd (getVerify cookie env w)) = db w)
  /\ (forall req_userId o,
         accepted env cookie req_userId ->
         ObjectId_parse env req_userId = Some o ->
         getVerify cookie env w
         = (Ok (match find (User.has_id o) (users (db w)) with
                | Some _ => res 200 (json_verify "JWT is valid" req_userId)
                | None => Unauthorized
                end), w)).
Proof.
  intros Hup. split.
  - intros Hrej.
    unfold getVerify, try_catch, jwt_verify, bind, asks, ret, throw, console_error.
    destruct Hrej as [| s | key payload Hkey | payload e Hexp Hnow]; simpl.
    + auto.
    + destruct s; auto.
    + apply String.eqb_neq in Hkey. rewrite Hkey. auto.
    + rewrite String.eqb_refl, Hexp. apply Z.leb_le in Hnow. rewrite Hnow. auto.
  - intros req_userId o Hacc Hid. destruct Hacc as [payload Hexp].
    assert (Hverify : jwt_verify (signed (JWT_SECRET env) payload) (JWT_SECRET env) env w
                      = (Ok payload, w)).
    { unfold jwt_verify, bind, asks, ret, throw. rewrite String.eqb_refl.
      destruct (exp payload) as [e |]; [| reflexivity].
      specialize (Hexp e eq_refl). apply Z.leb_gt in Hexp. rewrite Hexp.
      reflexivity. }
    unfold getVerify. unfold try_catch at 1. unfold no_token. cbv beta iota.
    rewrite bind_asks, (bind_run _ _ _ _ _ _ Hverify).
    unfold try_catch. rewrite (bind_run _ _ _ _ _ _ (User_findById_up _ _ _ _ Hup Hid)).
    destruct (find (User.has_id o) (users (db w))); reflexivity.
Qed.

(** X3.  A login with the stored user's password, with the store answering:
    the answer is 200 and sets a [jwt] cookie, and until 3600 seconds
    after the login the gate takes that token and runs the guarded
    operation as this user; the store is not changed. *)
Theorem postLogin_opens_session env w username password user :
  outage env User_findOne = false ->
  find (fun u => String.eqb (userSchema.username u) username) (users (db w))
  = Some user ->
  bcrypt_compare env password (userSchema.password user) = true ->
  exists token,
    postLogin username password env w
    = (Ok (mkResponse 200
             (json_login token (userSchema._id user) (userSchema.name user))
             (Some token)), w)
    /\ forall later next w2,
         JWT_SECRET later = JWT_SECRET env ->
         (now later < now env + 3600)%Z ->
         authMiddleware (Some token) next later w2
         = next (toString (userSchema._id user)) later w2.
Proof.
  intros Hup Hfind Hcompare.
  exists (signed (JWT_SECRET env)
            (mkPayload (toString (userSchema._id user)) (now env)
                       (Some (now env + 3600)%Z))).
  split.
  - unfold postLogin, try_catch. unfold bind at 1.
    rewrite (User_findOne_up _ _ _ Hup), Hfind.
    unfold bind, asks, jwt_sign, bind, asks, ret. rewrite Hcompare. reflexivity.
  - intros later next w2 Hsecret Hnow. rewrite <- Hsecret.
    apply (authMiddleware_accepts later _ _ next w2
             (accepted_valid later
                (mkPayload (toString (userSchema._id user)) (now env)
                           (Some (now env + 3600)%Z))
                ltac:(simpl; intros e He; inversion He; subst; exact Hnow))).
Qed.

(** X4.  A login that names no stored user, or whose password does not match
    the stored hash: both get the same 400, no cookie is set and nothing
    changes. *)
Theorem postLogin_fails_closed env w username password :
  outage env User_findOne = false ->
  (forall user,
      find (fun u => String.eqb (userSchema.username u) username) (users (db w))
      = Some user ->
      bcrypt_compare env password (userSchema.password user) = false) ->
  postLogin username password env w
  = (Ok (res 400 (json_message "Invalid username or password")), w).
Proof.
  intros Hup Hwrong. unfold postLogin, try_catch. unfold bind at 1.
  rewrite (User_findOne_up _ _ _ Hup).
  destruct (find _ (users (db w))) as [user |] eqn:Hfind; [| reflexivity].
  unfold bind, asks, ret. rewrite (Hwrong user eq_refl). reflexivity.
Qed.

(** X5.  Logout is a matter of the client's cookie only: the route answers
    200, sets a cookie the gate refuses, and leaves store and console as
    they are, so the gate goes on taking a token it took before. *)
Theorem getLogout_keeps_tokens_valid env w :
  exists cookie,
    getLogout env w
    = (Ok (mkResponse 200 (json_message "Logged out successfully") (Some cookie)), w)
    /\ (forall next w2,
           authMiddleware (Some cookie) next env w2 = (Ok Unauthorized, w2))
    /\ (forall token req_userId next,
           accepted env (Some token) req_userId ->
           authMiddleware (Some token) next env (snd (getLogout env w))
           = next req_userId env w).
Proof.
  exists (malformed EmptyString). split; [reflexivity |]. split.
  - intros next w2. apply authMiddleware_rejects. constructor.
  - intros token req_userId next Hacc. apply authMiddleware_accepts. exact Hacc.
Qed.

(* ================================================================== *)
(** ** Accounts: signup *)

Lemma find_None_existsb {A} (P : A -> bool) l : find P l = None -> existsb P l = false.
Proof.
  induction l as [| x rest IH]; simpl; [reflexivity |].
  destruct (P x); [discriminate | exact IH].
Qed.

Lemma existsb_false_find {A} (P : A -> bool) l : existsb P l = false -> find P l = None.
Proof.
  induction l as [| x rest IH]; simpl; [reflexivity |].
  destruct (P x); [discriminate | exact IH].
Qed.

Lemma find_app_None {A} (P : A -> bool) l x :
  find P l = None -> find P (l ++ [x]) = if P x then Some x else None.
Proof.
  induction l as [| y rest IH]; simpl; [reflexivity |].
  destruct (P y); [discriminate | exact IH].
Qed.

Lemma NoDup_snoc {A} (l : list A) x : NoDup l -> ~ In x l -> NoDup (l ++ [x]).
Proof.
  induction l as [| y rest IH]; simpl; intros Hnodup Hnotin.
  - constructor; [intros [] | constructor].
  - inversion Hnodup as [| ? ? Hy Hrest]; subst. constructor.
    + rewrite in_app_iff. simpl. intros [H | [H | []]]; [auto | subst; auto].
    + apply IH; [exact Hrest | auto].
Qed.

Lemma truthy_nonempty s : s <> EmptyString -> truthy (Some s) = true.
Proof. destruct s; [congruence | reflexivity]. Qed.

(** What [newUser.save()] does to the users: nothing, or it appends the
    user, whose username nobody had. *)
Lemma User_save_users env w u x w' :
  User.save u env w = (x, w') ->
  users (db w') = users (db w)
  \/ (x = Ok u
      /\ users (db w') = users (db w) ++ [u]
      /\ find (fun v => String.eqb (userSchema.username v) (userSchema.username u))
              (users (db w)) = None).
Proof.
  unfold User.save. intros H.
  destruct (truthy (Some (userSchema.name u)) && truthy (Some (userSchema.username u))
            && truthy (Some (userSchema.password u)));
    [| inversion H; auto].
  unfold bind, call, gets, modify_db, ret, throw in H.
  destruct (outage env User_save); [inversion H; auto |].
  simpl in H.
  destruct (existsb _ (users (db w))) eqn:Hex; inversion H; subst; simpl; auto.
  right. repeat split. apply existsb_false_find. exact Hex.
Qed.

Lemma postSignup_users env w name username password :
  users (db (snd (postSignup name username password env w))) = users (db w)
  \/ exists u,
       users (db (snd (postSignup name username password env w)))
       = users (db w) ++ [u]
       /\ userSchema.username u = username
       /\ find (fun v => String.eqb (userSchema.username v) username) (users (db w))
          = None.
Proof.
  destruct (postSignup name username password env w) as [x w'] eqn:Hrun.
  unfold postSignup in Hrun. simpl snd.
  assert (Hbody : forall x1 w1,
    (existingUser <- User.findOne username ;;
     match existingUser with
     | Some _ => ret (res 400 (json_message "Username already exists"))
     | None =>
         hash <- asks bcrypt_hash ;;
         let hashedPassword := hash password in
         id <- new_ObjectId ;;
         newUser <- User.save (userSchema.mk id name username hashedPassword None None) ;;
         call sendMail ;;
         secret <- asks JWT_SECRET ;;
         token <- jwt_sign (toString (userSchema._id newUser)) secret None ;;
         ret (res 201 (json_signup token (userSchema._id newUser)))
     end) env w = (x1, w1) ->
    users (db w1) = users (db w)
    \/ exists u, users (db w1) = users (db w) ++ [u]
                 /\ userSchema.username u = username
                 /\ find (fun v => String.eqb (userSchema.username v) username)
                         (users (db w)) = None).
  { clear. intros x5 w5 Hrun.
    apply bind_inv in Hrun as [(e & H1 & _) | (existing & w1 & H1 & Hrun)].
    { framed users H1 as F. auto. }
    framed users H1 as F1.
    destruct existing as [existing |]; [inversion Hrun; subst; auto |].
    rewrite bind_asks in Hrun. cbv zeta in Hrun.
    apply bind_inv in Hrun as [(e & H2 & _) | (id & w2 & H2 & Hrun)].
    { framed users H2 as F. left. congruence. }
    framed users H2 as F2.
    apply bind_inv in Hrun as [(e & H3 & _) | (newUser & w3 & H3 & Hrun)].
    - apply User_save_users in H3 as [H3 | (Habs & _)]; [| discriminate Habs].
      left. congruence.
    - framed_routes users Hrun as F4.
      apply User_save_users in H3 as [H3 | (_ & H3 & Hnone)].
      + left. congruence.
      + right. eexists. rewrite F4, H3, F2, F1. split; [reflexivity |].
        simpl in Hnone |- *. rewrite F2, F1 in Hnone. auto. }
  apply try_catch_inv in Hrun as [(y & Hb & _) | (e & w1 & Hb & Hcatch)].
  - exact (Hbody _ _ Hb).
  - framed users Hcatch as F. rewrite F. exact (Hbody _ _ Hb).
Qed.

(** X6.  However a signup ends, it leaves no two users with the same
    username if there were none before; and a signup for a username that
    is taken gets 400 and changes nothing. *)
Theorem postSignup_keeps_usernames_unique env w name username password :
  (NoDup (map userSchema.username (users (db w))) ->
   NoDup (map userSchema.username
              (users (db (snd (postSignup name username password env w))))))
  /\ (outage env User_findOne = false ->
      (exists taken,
          find (fun u => String.eqb (userSchema.username u) username) (users (db w))
          = Some taken) ->
      postSignup name username password env w
      = (Ok (res 400 (json_message "Username already exists")), w)).
Proof.
  split.
  - intros Hnodup.
    destruct (postSignup_users env w name username password)
      as [-> | (u & -> & Hname & Hnone)]; [exact Hnodup |].
    rewrite map_app. simpl. apply NoDup_snoc; [exact Hnodup |].
    rewrite in_map_iff. intros (v & Hv & Hin).
    pose proof (find_none _ _ Hnone v Hin) as Hfalse. simpl in Hfalse.
    apply String.eqb_neq in Hfalse. congruence.
  - intros Hup [taken Htaken]. unfold postSignup, try_catch.
    rewrite (bind_run _ _ _ _ _ _ (User_findOne_up _ _ _ Hup)), Htaken.
    reflexivity.
Qed.

(** The world after a signup has stored its user. *)
Lemma postSignup_saves env w name username password :
  outage env User_findOne = false ->
  outage env User_save = false ->
  find (fun u => String.eqb (userSchema.username u) username) (users (db w)) = None ->
  name <> EmptyString ->
  username <> EmptyString ->
  bcrypt_hash env password <> EmptyString ->
  let user := userSchema.mk (next_oid (db w)) name username
                            (bcrypt_hash env password) None None in
  let saved := mkWorld (set_users (set_next_oid (db w) (N.succ (next_oid (db w))))
                                  (users (db w) ++ [user]))
                       (console w) in
  postSignup name username password env w
  = if outage env sendMail
    then (Ok (res 500 (json_message "Server error")),
          mkWorld (db saved) (console w ++ ["Error signing up user:"]))
    else (Ok (res 201 (json_signup
                         (signed (JWT_SECRET env)
                                 (mkPayload (toString (next_oid (db w))) (now env) None))
                         (next_oid (db w)))),
          saved).
Proof.
  intros Hfind Hsave Hnone Hname Husername Hhash user saved.
  unfold postSignup, try_catch.
  rewrite (bind_run _ _ _ _ _ _ (User_findOne_up _ _ _ Hfind)), Hnone.
  rewrite bind_asks. cbv zeta.
  unfold new_ObjectId. unfold bind at 1. rewrite bind_gets.
  unfold bind at 1. unfold modify_db at 1. unfold ret at 1.
  unfold User.save. simpl userSchema.name. simpl userSchema.username.
  simpl userSchema.password.
  rewrite (truthy_nonempty _ Hname), (truthy_nonempty _ Husername),
    (truthy_nonempty _ Hhash). simpl andb. cbv iota.
  unfold bind at 1. rewrite (bind_call _ _ _ _ Hsave), bind_gets.
  cbn [db users set_next_oid]. rewrite (find_None_existsb _ _ Hnone).
  unfold bind, modify_db, ret, call, asks, jwt_sign, bind, asks, ret, console_error.
  cbn [db users set_next_oid console].
  destruct (outage env sendMail); reflexivity.
Qed.

(** X7.  A signup that goes through, then a login with the same username and
    password (the hash library taking the password it hashed): the login
    answers 200 for the user the signup made. *)
Theorem postSignup_then_postLogin env w name username password :
  outage env User_findOne = false ->
  outage env User_save = false ->
  outage env sendMail = false ->
  find (fun u => String.eqb (userSchema.username u) username) (users (db w)) = None ->
  name <> EmptyString ->
  username <> EmptyString ->
  bcrypt_hash env password <> EmptyString ->
  bcrypt_compare env password (bcrypt_hash env password) = true ->
  exists token w',
    postSignup name username password env w
    = (Ok (res 201 (json_signup token (next_oid (db w)))), w')
    /\ exists token', 
         postLogin username password env w'
         = (Ok (mkResponse 200 (json_login token' (next_oid (db w)) name)
                           (Some token')), w').
Proof.
  intros Hfind Hsave Hmail Hnone Hname Husername Hhash Hcompare.
  rewrite (postSignup_saves _ _ _ _ _ Hfind Hsave Hnone Hname Husername Hhash), Hmail.
  do 2 eexists. split; [reflexivity |].
  eexists. unfold postLogin, try_catch.
  rewrite (bind_run _ _ _ _ _ _ (User_findOne_up _ _ _ Hfind)).
  cbn [db users set_users set_next_oid]. rewrite (find_app_None _ _ _ Hnone).
  cbn [userSchema.username].
  rewrite String.eqb_refl.
  unfold bind, asks, jwt_sign, bind, asks, ret. cbn [userSchema.password].
  rewrite Hcompare. reflexivity.
Qed.

(** X8.  A signup whose welcome mail cannot be sent answers 500, yet its user
    is stored: a second signup for the username then gets 400, whatever
    the mail relay does. *)
Theorem postSignup_mail_failure_keeps_user env w name username password :
  outage env User_findOne = false ->
  outage env User_save = false ->
  outage env sendMail = true ->
  find (fun u => String.eqb (userSchema.username u) username) (users (db w)) = None ->
  name <> EmptyString ->
  username <> EmptyString ->
  bcrypt_hash env password <> EmptyString ->
  exists w',
    postSignup name username password env w
    = (Ok (res 500 (json_message "Server error")), w')
    /\ users (db w')
       = users (db w)
         ++ [userSchema.mk (next_oid (db w)) name username
                           (bcrypt_hash env password) None None]
    /\ forall env2 name2 password2,
         outage env2 User_findOne = false ->
         postSignup name2 username password2 env2 w'
         = (Ok (res 400 (json_message "Username already exists")), w').
Proof.
  intros Hfind Hsave Hmail Hnone Hname Husername Hhash.
  rewrite (postSignup_saves _ _ _ _ _ Hfind Hsave Hnone Hname Husername Hhash), Hmail.
  eexists. split; [reflexivity |]. split; [reflexivity |].
  intros env2 name2 password2 Hfind2. unfold postSignup, try_catch.
  rewrite (bind_run _ _ _ _ _ _ (User_findOne_up _ _ _ Hfind2)).
  cbn [db users set_users set_next_oid]. rewrite (find_app_None _ _ _ Hnone).
  cbn [userSchema.username].
  rewrite String.eqb_refl. reflexivity.
Qed.

(* ================================================================== *)
(** ** Accounts: profile and password reset *)

Lemma NoDup_map_inj {A B} (f : A -> B) l x y :
  NoDup (map f l) -> In x l -> In y l -> f x = f y -> x = y.
Proof.
  induction l as [| z rest IH]; simpl; intros Hnodup Hx Hy Hxy; [contradiction |].
  inversion Hnodup as [| ? ? Hz Hrest]; subst.
  destruct Hx as [-> | Hx], Hy as [-> | Hy].
  - reflexivity.
  - exfalso. apply Hz. rewrite Hxy. apply in_map. exact Hy.
  - exfalso. apply Hz. rewrite <- Hxy. apply in_map. exact Hx.
  - auto.
Qed.

Lemma find_unique {A} (P : A -> bool) l u :
  In u l -> P u = true -> (forall x, In x l -> P x = true -> x = u) ->
  find P l = Some u.
Proof.
  induction l as [| y rest IH]; simpl; intros Hin Hu Huniq; [contradiction |].
  destruct (P y) eqn:Hy.
  - f_equal. apply Huniq; auto.
  - destruct Hin as [-> | Hin]; [congruence |]. apply IH; auto.
Qed.

Lemma replace_user_ids u l :
  map userSchema._id (replace_user u l) = map userSchema._id l.
Proof.
  induction l as [| v rest IH]; simpl; [reflexivity |].
  unfold User.has_id at 1. destruct (N.eqb_spec (userSchema._id v) (userSchema._id u)).
  - simpl. congruence.
  - simpl. congruence.
Qed.

(** With unique ids, replacing the document of a stored user changes that
    document and no other. *)
Lemma replace_user_In u l x :
  NoDup (map userSchema._id l) ->
  (exists v, In v l /\ userSchema._id v = userSchema._id u) ->
  In x (replace_user u l)
  <-> x = u \/ (In x l /\ userSchema._id x <> userSchema._id u).
Proof.
  induction l as [| v rest IH]; simpl; intros Hnodup [v0 [Hv0 Hid]]; [contradiction |].
  inversion Hnodup as [| ? ? Hv Hrest]; subst.
  unfold User.has_id at 1. destruct (N.eqb_spec (userSchema._id v) (userSchema._id u)) as [He | Hne].
  - simpl. split.
    + intros [<- | Hin]; [auto |]. right. split; [auto |].
      intros Hx. apply Hv. rewrite He, <- Hx. apply in_map. exact Hin.
    + intros [-> | [[<- | Hin] Hx]]; [auto | congruence | auto].
  - destruct Hv0 as [-> | Hv0]; [congruence |].
    simpl. rewrite (IH Hrest (ex_intro _ v0 (conj Hv0 Hid))). split.
    + intros [<- | [-> | [Hin Hx]]]; auto.
    + intros [-> | [[<- | Hin] Hx]]; auto.
Qed.

Lemma user_save_ok env w u :
  outage env User_save = false ->
  userSchema.name u <> EmptyString ->
  userSchema.username u <> EmptyString ->
  userSchema.password u <> EmptyString ->
  (forall v, In v (users (db w)) ->
             userSchema.username v = userSchema.username u ->
             userSchema._id v = userSchema._id u) ->
  user_save u env w
  = (Ok u, mkWorld (set_users (db w) (replace_user u (users (db w)))) (console w)).
Proof.
  intros Hup Hname Husername Hpassword Hfree. unfold user_save.
  rewrite (truthy_nonempty _ Hname), (truthy_nonempty _ Husername),
    (truthy_nonempty _ Hpassword). cbn [andb].
  rewrite (bind_call _ _ _ _ Hup), bind_gets.
  assert (Hex : existsb (fun v => negb (User.has_id (userSchema._id u) v)
                                  && String.eqb (userSchema.username v)
                                                (userSchema.username u))
                        (users (db w)) = false).
  { apply not_true_iff_false. rewrite existsb_exists. intros (v & Hin & Hv).
    apply andb_true_iff in Hv as [Hid Hv]. apply String.eqb_eq in Hv.
    apply negb_true_iff in Hid. unfold User.has_id in Hid.
    apply N.eqb_neq in Hid. auto. }
  rewrite Hex. reflexivity.
Qed.

Lemma user_save_taken env w u other :
  outage env User_save = false ->
  userSchema.name u <> EmptyString ->
  userSchema.username u <> EmptyString ->
  userSchema.password u <> EmptyString ->
  In other (users (db w)) ->
  userSchema._id other <> userSchema._id u ->
  userSchema.username other = userSchema.username u ->
  user_save u env w = (Throw (MongoError User_save), w).
Proof.
  intros Hup Hname Husername Hpassword Hin Hid Hsame. unfold user_save.
  rewrite (truthy_nonempty _ Hname), (truthy_nonempty _ Husername),
    (truthy_nonempty _ Hpassword). cbn [andb].
  rewrite (bind_call _ _ _ _ Hup), bind_gets.
  assert (Hex : existsb (fun v => negb (User.has_id (userSchema._id u) v)
                                  && String.eqb (userSchema.username v)
                                                (userSchema.username u))
                        (users (db w)) = true).
  { rewrite existsb_exists. exists other. split; [exact Hin |].
    apply andb_true_iff. split.
    - apply negb_true_iff. unfold User.has_id. apply N.eqb_neq. exact Hid.
    - apply String.eqb_eq. exact Hsame. }
  rewrite Hex. reflexivity.
Qed.

(** X9.  [PUT /api/users/:id] on a stored user, by anyone but that user: 403,
    and store and console are as they were. *)
Theorem putUser_only_own_profile env w req_userId userId o user name username :
  outage env User_findById = false ->
  ObjectId_parse env userId = Some o ->
  find (User.has_id o) (users (db w)) = Some user ->
  toString (userSchema._id user) <> req_userId ->
  putUser req_userId userId name username env w
  = (Ok (mkReply 403 (sent_json (json_message
           "Forbidden: You can only update your own profile"))), w).
Proof.
  intros Hup Hid Hfind Hother. unfold putUser, try_catch.
  rewrite (bind_run _ _ _ _ _ _ (User_findById_up _ _ _ _ Hup Hid)), Hfind.
  apply String.eqb_neq in Hother. rewrite Hother. reflexivity.
Qed.

(** X10.  [PUT /api/users/:id] by the user itself, with the store answering
    and ids unique.  If another user has the new username the answer is
    500 and nothing is stored; otherwise the answer is 200, the user's
    document has the new name and username and its old password hash,
    and every other document is untouched. *)
Theorem putUser_updates_own_profile env w req_userId userId o user name username :
  outage env User_findById = false ->
  outage env User_save = false ->
  ObjectId_parse env userId = Some o ->
  find (User.has_id o) (users (db w)) = Some user ->
  toString (userSchema._id user) = req_userId ->
  name <> EmptyString ->
  username <> EmptyString ->
  userSchema.password user <> EmptyString ->
  NoDup (map userSchema._id (users (db w))) ->
  let updatedUser := userSchema.mk (userSchema._id user) name username
                       (userSchema.password user) (userSchema.resetToken user)
                       (userSchema.resetTokenExpiration user) in
  (forall other,
      In other (users (db w)) ->
      userSchema._id other <> userSchema._id user ->
      userSchema.username other = username ->
      fst (putUser req_userId userId name username env w)
      = Ok (mkReply 500 (sent_json (json_message "Failed to update user")))
      /\ users (db (snd (putUser req_userId userId name username env w)))
         = users (db w))
  /\ ((forall v, In v (users (db w)) ->
                 userSchema.username v = username ->
                 userSchema._id v = userSchema._id user) ->
      fst (putUser req_userId userId name username env w)
      = Ok (mkReply 200 (sent_user updatedUser))
      /\ forall x,
           In x (users (db (snd (putUser req_userId userId name username env w))))
           <-> x = updatedUser
               \/ (In x (users (db w)) /\ userSchema._id x <> userSchema._id user)).
Proof.
  intros Hup Hsave Hid Hfind Hself Hname Husername Hpassword Hnodup updatedUser.
  assert (Hhead : putUser req_userId userId name username env w
                  = try_catch
                      (u <- user_save updatedUser ;; ret (mkReply 200 (sent_user u)))
                      (fun _ => console_error "Error updating user:" ;;
                                ret (mkReply 500 (sent_json
                                       (json_message "Failed to update user"))))
                      env w).
  { unfold putUser, try_catch.
    rewrite (bind_run _ _ _ _ _ _ (User_findById_up _ _ _ _ Hup Hid)), Hfind.
    apply String.eqb_eq in Hself. rewrite Hself. reflexivity. }
  rewrite Hhead. clear Hhead. split.
  - intros other Hin Hother Hsame. unfold try_catch.
    rewrite (bind_fail _ _ _ _ _ _
               (user_save_taken env w updatedUser other Hsave Hname Husername
                                Hpassword Hin Hother Hsame)).
    split; reflexivity.
  - intros Hfree. unfold try_catch.
    rewrite (bind_run _ _ _ _ _ _
               (user_save_ok env w updatedUser Hsave Hname Husername Hpassword Hfree)).
    split; [reflexivity |]. intros x. simpl.
    apply (replace_user_In updatedUser (users (db w)) x Hnodup).
    exists user. split; [| reflexivity].
    apply find_some in Hfind. tauto.
Qed.

Lemma find_all_false {A} (P : A -> bool) l :
  (forall x, In x l -> P x = false) -> find P l = None.
Proof.
  induction l as [| y rest IH]; simpl; intros H; [reflexivity |].
  rewrite (H y (or_introl eq_refl)). apply IH. auto.
Qed.

Lemma Date_now_run env w : Date_now env w = (Ok (1000 * now env)%Z, w).
Proof. reflexivity. Qed.

Lemma user_findOne_up env w filter :
  outage env User_findOne = false ->
  user_findOne filter env w = (Ok (find filter (users (db w))), w).
Proof.
  intros Hup. unfold user_findOne. rewrite (bind_call _ _ _ _ Hup). reflexivity.
Qed.

(** The reset of a password with a token that the query finds no user
    for. *)
Lemma postResetPassword_no_holder env w token password :
  outage env User_findOne = false ->
  (forall v, In v (users (db w)) ->
             option_string_eqb (userSchema.resetToken v) token
             && match userSchema.resetTokenExpiration v with
                | Some expiration => (1000 * now env <? expiration)%Z
                | None => false
                end = false) ->
  postResetPassword token password env w
  = (Ok (res 400 (json_message "Invalid or expired token")), w).
Proof.
  intros Hup Hnone. unfold postResetPassword, try_catch.
  rewrite (bind_run _ _ _ _ _ _ (Date_now_run env w)).
  rewrite (bind_run _ _ _ _ _ _ (user_findOne_up _ _ _ Hup)).
  rewrite find_all_false; [reflexivity | exact Hnone].
Qed.

(** X11.  [POST /api/users/reset-password] with a token that no stored user
    holds unexpired (unknown, used up, or issued an hour or more ago):
    400, and nothing changes. *)
Theorem postResetPassword_refuses_stale_token env w token password :
  outage env User_findOne = false ->
  (forall v expiration,
      In v (users (db w)) ->
      userSchema.resetToken v = Some token ->
      userSchema.resetTokenExpiration v = Some expiration ->
      (expiration <= 1000 * now env)%Z) ->
  postResetPassword token password env w
  = (Ok (res 400 (json_message "Invalid or expired token")), w).
Proof.
  intros Hup Hstale. apply (postResetPassword_no_holder _ _ _ _ Hup).
  intros v Hin. apply andb_false_iff.
  destruct (option_string_eqb (userSchema.resetToken v) token) eqn:Htoken; [| auto].
  right. apply option_string_eqb_eq in Htoken.
  destruct (userSchema.resetTokenExpiration v) as [expiration |] eqn:Hexp;
    [| reflexivity].
  apply Z.ltb_ge. exact (Hstale v expiration Hin Htoken Hexp).
Qed.

(** X12.  The password reset, end to end, with the store and the mail relay
    answering, ids and usernames unique, and a drawn token that no user
    holds yet.  The request for the stored user's address answers 200;
    less than 3600 seconds later the drawn token resets the password: the
    user's document gets the hash of the new password and loses the
    token, every other document is untouched; and the token does not
    work a second time. *)
Theorem password_reset_round_trip env w randomBytes email user env2 password :
  outage env User_findOne = false ->
  outage env User_save = false ->
  outage env sendMail = false ->
  find (fun u => String.eqb (userSchema.username u) email) (users (db w)) = Some user ->
  userSchema.name user <> EmptyString ->
  userSchema.username user <> EmptyString ->
  userSchema.password user <> EmptyString ->
  NoDup (map userSchema._id (users (db w))) ->
  NoDup (map userSchema.username (users (db w))) ->
  (forall v, In v (users (db w)) -> userSchema.resetToken v <> Some randomBytes) ->
  outage env2 User_findOne = false ->
  outage env2 User_save = false ->
  (now env2 < now env + 3600)%Z ->
  bcrypt_hash env2 password <> EmptyString ->
  exists w1 w2,
    postForgotPassword randomBytes email env w
    = (Ok (res 200 (json_message "Password reset email sent")), w1)
    /\ postResetPassword randomBytes password env2 w1
       = (Ok (res 200 (json_message "Password reset successful")), w2)
    /\ (forall x,
           In x (users (db w2))
           <-> x = userSchema.mk (userSchema._id user) (userSchema.name user)
                                 (userSchema.username user)
                                 (bcrypt_hash env2 password) None None
               \/ (In x (users (db w)) /\ userSchema._id x <> userSchema._id user))
    /\ forall env3 password3,
         outage env3 User_findOne = false ->
         postResetPassword randomBytes password3 env3 w2
         = (Ok (res 400 (json_message "Invalid or expired token")), w2).
Proof.
  intros Hfind Hsave Hmail Huser Hname Husername Hpassword Hids Hnames Hfresh
    Hfind2 Hsave2 Hsoon Hhash.
  pose proof (find_some _ _ Huser) as [Hin _].
  set (u1 := userSchema.mk (userSchema._id user) (userSchema.name user)
               (userSchema.username user) (userSchema.password user)
               (Some randomBytes) (Some (1000 * now env + 3600000)%Z)).
  set (u2 := userSchema.mk (userSchema._id user) (userSchema.name user)
               (userSchema.username user) (bcrypt_hash env2 password) None None).
  set (w1 := mkWorld (set_users (db w) (replace_user u1 (users (db w)))) (console w)).
  set (w2 := mkWorld (set_users (db w1) (replace_user u2 (users (db w1)))) (console w1)).
  assert (Hfree : forall v, In v (users (db w)) ->
                            userSchema.username v = userSchema.username user ->
                            userSchema._id v = userSchema._id user).
  { intros v Hv Hsame. f_equal.
    exact (NoDup_map_inj userSchema.username _ v user Hnames Hv Hin Hsame). }
  assert (Hin1 : forall x, In x (users (db w1))
                           <-> x = u1 \/ (In x (users (db w))
                                          /\ userSchema._id x <> userSchema._id user)).
  { intros x. apply (replace_user_In u1 (users (db w)) x Hids).
    exists user. auto. }
  assert (Hids1 : NoDup (map userSchema._id (users (db w1)))).
  { simpl. rewrite replace_user_ids. exact Hids. }
  assert (Hin2 : forall x, In x (users (db w2))
                           <-> x = u2 \/ (In x (users (db w))
                                          /\ userSchema._id x <> userSchema._id user)).
  { intros x. unfold w2. cbn [db users set_users].
    rewrite (replace_user_In u2 (users (db w1)) x Hids1
               (ex_intro _ u1 (conj (proj2 (Hin1 u1) (or_introl eq_refl)) eq_refl))).
    rewrite Hin1. simpl. split.
    - intros [-> | [[-> | [Hx Hne]] Hne']]; auto. simpl in Hne'. congruence.
    - intros [-> | [Hx Hne]]; auto. }
  exists w1, w2. split; [| split; [| split]].
  - unfold postForgotPassword, try_catch.
    rewrite (bind_run _ _ _ _ _ _ (User_findOne_up _ _ _ Hfind)), Huser.
    cbv zeta. rewrite (bind_run _ _ _ _ _ _ (Date_now_run env w)).
    rewrite (bind_run _ _ _ _ _ _
               (user_save_ok env w u1 Hsave Hname Husername Hpassword Hfree)).
    fold w1. rewrite (bind_call _ _ _ _ Hmail). reflexivity.
  - unfold postResetPassword, try_catch.
    rewrite (bind_run _ _ _ _ _ _ (Date_now_run env2 w1)).
    rewrite (bind_run _ _ _ _ _ _ (user_findOne_up _ _ _ Hfind2)).
    rewrite (find_unique _ _ u1).
    + rewrite bind_asks. cbv zeta.
      rewrite (bind_run _ _ _ _ _ _
                 (user_save_ok env2 w1 u2 Hsave2 Hname Husername Hhash
                    ltac:(intros v Hv Hsame; apply Hin1 in Hv as [-> | [Hv Hne]];
                          [reflexivity | exact (Hfree v Hv Hsame)]))).
      reflexivity.
    + apply Hin1. auto.
    + unfold u1.
      cbn [option_string_eqb userSchema.resetToken userSchema.resetTokenExpiration].
      rewrite String.eqb_refl. cbn [andb]. apply Z.ltb_lt. lia.
    + intros x Hx Hfilter. apply Hin1 in Hx as [-> | [Hx Hne]]; [reflexivity |].
      apply andb_true_iff in Hfilter as [Htoken _].
      apply option_string_eqb_eq in Htoken. exfalso. exact (Hfresh x Hx Htoken).
  - exact Hin2.
  - intros env3 password3 Hfind3.
    apply (postResetPassword_no_holder _ _ _ _ Hfind3).
    intros v Hv. apply andb_false_iff. left.
    destruct (option_string_eqb (userSchema.resetToken v) randomBytes) eqn:Htoken;
      [| reflexivity].
    apply option_string_eqb_eq in Htoken. exfalso.
    apply Hin2 in Hv as [-> | [Hv Hne]]; [discriminate Htoken |].
    exact (Hfresh v Hv Htoken).
Qed.

(* ================================================================== *)
(** ** Groups: update, ownership, membership *)

Lemma Group_findById_up env w id :
  outage env Group_findById = false ->
  Group.findById id env w = (Ok (find (Group.has_id id) (groups (db w))), w).
Proof.
  intros Hup. unfold Group.findById. rewrite (bind_call _ _ _ _ Hup). reflexivity.
Qed.

Lemma castObjectIds_Ok env w l os :
  Forall2 (fun s o => ObjectId_parse env s = Some o) l os ->
  castObjectIds l env w = (Ok os, w).
Proof.
  induction 1 as [| s o l os Hs _ IH]; simpl; [reflexivity |].
  rewrite (bind_cast _ _ _ _ _ Hs), (bind_run _ _ _ _ _ _ IH). reflexivity.
Qed.

Lemma validate_group_ok env w id name owner members v ms :
  name <> EmptyString ->
  ObjectId_parse env owner = Some v ->
  Forall2 (fun s o => ObjectId_parse env s = Some o) members ms ->
  validate_group id name owner members env w = (Ok (groupSchema.mk id name v ms), w).
Proof.
  intros Hname Howner Hmembers. unfold validate_group, try_catch.
  destruct name as [| c rest]; [congruence |].
  unfold bind at 1. unfold ret at 1.
  rewrite (bind_cast _ _ _ _ _ Howner),
    (bind_run _ _ _ _ _ _ (castObjectIds_Ok _ _ _ _ Hmembers)).
  reflexivity.
Qed.

Lemma replace_group_find g l :
  find (Group.has_id (groupSchema._id g)) (replace_group g l)
  = option_map (fun _ => g) (find (Group.has_id (groupSchema._id g)) l).
Proof.
  induction l as [| x rest IH]; simpl; [reflexivity |].
  destruct (Group.has_id (groupSchema._id g) x) eqn:Hx; simpl.
  - unfold Group.has_id. rewrite N.eqb_refl. reflexivity.
  - rewrite Hx. exact IH.
Qed.

Lemma replace_group_In g l x :
  NoDup (map groupSchema._id l) ->
  (exists v, In v l /\ groupSchema._id v = groupSchema._id g) ->
  In x (replace_group g l)
  <-> x = g \/ (In x l /\ groupSchema._id x <> groupSchema._id g).
Proof.
  induction l as [| v rest IH]; simpl; intros Hnodup [v0 [Hv0 Hid]]; [contradiction |].
  inversion Hnodup as [| ? ? Hv Hrest]; subst.
  unfold Group.has_id at 1.
  destruct (N.eqb_spec (groupSchema._id v) (groupSchema._id g)) as [He | Hne].
  - simpl. split.
    + intros [<- | Hin]; [auto |]. right. split; [auto |].
      intros Hx. apply Hv. rewrite He, <- Hx. apply in_map. exact Hin.
    + intros [-> | [[<- | Hin] Hx]]; [auto | congruence | auto].
  - destruct Hv0 as [-> | Hv0]; [congruence |].
    simpl. rewrite (IH Hrest (ex_intro _ v0 (conj Hv0 Hid))). split.
    + intros [<- | [-> | [Hin Hx]]]; auto.
    + intros [-> | [[<- | Hin] Hx]]; auto.
Qed.

(** [PUT /api/groups/:id] on a stored group by anyone but its owner: 403,
    and store and console are as they were. *)
Lemma putGroup_only_owner rejection env w req_userId groupId id group
        name members owner :
  ObjectId_parse env groupId = Some id ->
  outage env Group_findById = false ->
  find (Group.has_id id) (groups (db w)) = Some group ->
  toString (groupSchema.owner group) <> req_userId ->
  putGroup rejection req_userId groupId name members owner env w
  = (Ok (mkReply 403 (sent_json (json_message
           "Forbidden: Only the owner can update the group"))), w).
Proof.
  intros Hid Hup Hfind Hother. unfold putGroup, try_catch.
  rewrite (bind_cast _ _ _ _ _ Hid),
    (bind_run _ _ _ _ _ _ (Group_findById_up _ _ _ Hup)), Hfind.
  apply String.eqb_neq in Hother. rewrite Hother. reflexivity.
Qed.

(** The update of a stored group by its owner, with the store answering. *)
Lemma putGroup_ok rejection env w req_userId groupId id group name members owner v ms :
  ObjectId_parse env groupId = Some id ->
  outage env Group_findById = false ->
  rejection Group_save = None ->
  find (Group.has_id id) (groups (db w)) = Some group ->
  toString (groupSchema.owner group) = req_userId ->
  name <> EmptyString ->
  ObjectId_parse env owner = Some v ->
  Forall2 (fun s o => ObjectId_parse env s = Some o) members ms ->
  let updatedGroup := groupSchema.mk (groupSchema._id group) name v ms in
  putGroup rejection req_userId groupId name members owner env w
  = (Ok (mkReply 200 (sent_group updatedGroup)),
     mkWorld (set_groups (db w) (replace_group updatedGroup (groups (db w))))
             (console w)).
Proof.
  intros Hid Hup Hsave Hfind Hself Hname Howner Hmembers updatedGroup.
  unfold putGroup, try_catch.
  rewrite (bind_cast _ _ _ _ _ Hid),
    (bind_run _ _ _ _ _ _ (Group_findById_up _ _ _ Hup)), Hfind.
  apply String.eqb_eq in Hself. rewrite Hself. cbn [negb].
  rewrite (bind_run _ _ _ _ _ _
             (validate_group_ok _ _ (groupSchema._id group) _ _ _ _ _
                                Hname Howner Hmembers)).
  unfold store_call. rewrite Hsave. reflexivity.
Qed.

(** X13.  The owner hands the group over: the update names another user as
    [owner].  From then on the former owner gets 403 when it updates or
    deletes the group, and the group is stored with the new owner. *)
Theorem putGroup_transfers_ownership rejection env w req_userId groupId id group
        name members owner v ms :
  ObjectId_parse env groupId = Some id ->
  outage env Group_findById = false ->
  rejection Group_save = None ->
  find (Group.has_id id) (groups (db w)) = Some group ->
  toString (groupSchema.owner group) = req_userId ->
  name <> EmptyString ->
  ObjectId_parse env owner = Some v ->
  Forall2 (fun s o => ObjectId_parse env s = Some o) members ms ->
  toString v <> req_userId ->
  exists w',
    putGroup rejection req_userId groupId name members owner env w
    = (Ok (mkReply 200 (sent_group (groupSchema.mk id name v ms))), w')
    /\ find (Group.has_id id) (groups (db w')) = Some (groupSchema.mk id name v ms)
    /\ deleteGroup req_userId groupId env w'
       = (Ok (res 403 (json_message "Forbidden: Only the owner can delete the group")),
          w')
    /\ forall name' members' owner',
         putGroup rejection req_userId groupId name' members' owner' env w'
         = (Ok (mkReply 403 (sent_json (json_message
                  "Forbidden: Only the owner can update the group"))), w').
Proof.
  intros Hid Hup Hsave Hfind Hself Hname Howner Hmembers Hother.
  assert (Hgid : groupSchema._id group = id).
  { apply find_some in Hfind as [_ H]. apply N.eqb_eq. exact H. }
  rewrite (putGroup_ok rejection _ _ _ _ _ _ _ _ _ _ _ Hid Hup Hsave Hfind Hself
                       Hname Howner Hmembers).
  rewrite Hgid. eexists. split; [reflexivity |].
  assert (Hfound : find (Group.has_id id)
                        (replace_group (groupSchema.mk id name v ms) (groups (db w)))
                   = Some (groupSchema.mk id name v ms)).
  { pose proof (replace_group_find (groupSchema.mk id name v ms) (groups (db w))) as H.
    simpl in H. rewrite Hfind in H. exact H. }
  split; [exact Hfound | split].
  - unfold deleteGroup, try_catch.
    rewrite (bind_cast _ _ _ _ _ Hid),
      (bind_run _ _ _ _ _ _ (Group_findById_up _ _ _ Hup)).
    cbn [db groups set_groups]. rewrite Hfound. cbn [groupSchema.owner].
    apply String.eqb_neq in Hother. rewrite Hother. reflexivity.
  - intros name' members' owner'.
    apply (putGroup_only_owner rejection env _ req_userId groupId id
             (groupSchema.mk id name v ms)); auto.
Qed.

Lemma getTasks_run env w userId u :
  outage env Group_find = false ->
  outage env Task_find = false ->
  ObjectId_parse env userId = Some u ->
  getTasks userId env w
  = (Ok (res 200 (json_tasks
       (filter (tasks_filter u userId
                  (nodup N.eq_dec
                     (map groupSchema._id
                          (filter (fun g => mem_oid u (groupSchema.members g))
                                  (groups (db w))))))
               (tasks (db w))))), w).
Proof.
  intros Hgroups Htasks Hu.
  assert (Hids : Group.find_members_distinct_id userId env w
                 = (Ok (nodup N.eq_dec
                          (map groupSchema._id
                               (filter (fun g => mem_oid u (groupSchema.members g))
                                       (groups (db w))))), w)).
  { unfold Group.find_members_distinct_id.
    rewrite (bind_cast _ _ _ _ _ Hu), (bind_call _ _ _ _ Hgroups). reflexivity. }
  assert (Hfound : forall f, Task.find f env w = (Ok (filter f (tasks (db w))), w)).
  { intros f. unfold Task.find. rewrite (bind_call _ _ _ _ Htasks). reflexivity. }
  unfold getTasks, try_catch.
  rewrite (bind_run _ _ _ _ _ _ Hids), (bind_cast _ _ _ _ _ Hu),
    (bind_run _ _ _ _ _ _ (Hfound _)).
  reflexivity.
Qed.

(** X14.  After the owner's update of a group, its [members] array decides who
    sees the group's tasks: [GET /api/tasks] lists a group task of that
    group to a user exactly if the user owns it, is named in [assigned_by]
    or [assigned_to], or is among the members the update wrote. *)
Theorem putGroup_members_decide_visibility rejection env w req_userId groupId id
        group name members owner v ms userId u :
  ObjectId_parse env groupId = Some id ->
  outage env Group_findById = false ->
  rejection Group_save = None ->
  find (Group.has_id id) (groups (db w)) = Some group ->
  toString (groupSchema.owner group) = req_userId ->
  name <> EmptyString ->
  ObjectId_parse env owner = Some v ->
  Forall2 (fun s o => ObjectId_parse env s = Some o) members ms ->
  NoDup (map groupSchema._id (groups (db w))) ->
  outage env Group_find = false ->
  outage env Task_find = false ->
  ObjectId_parse env userId = Some u ->
  exists w' visible,
    putGroup rejection req_userId groupId name members owner env w
    = (Ok (mkReply 200 (sent_group (groupSchema.mk id name v ms))), w')
    /\ getTasks userId env w' = (Ok (res 200 (json_tasks visible)), w')
    /\ forall t,
         taskSchema.group t = Some id ->
         taskSchema.visibility t = "group" ->
         (In t visible
          <-> In t (tasks (db w))
              /\ (taskSchema.owner t = u
                  \/ taskSchema.assigned_by t = Some userId
                  \/ taskSchema.assigned_to t = Some userId
                  \/ In u ms)).
Proof.
  intros Hid Hup Hsave Hfind Hself Hname Howner Hmembers Hnodup Hgroups Htasks Hu.
  assert (Hgid : groupSchema._id group = id).
  { apply find_some in Hfind as [_ H]. apply N.eqb_eq. exact H. }
  rewrite (putGroup_ok rejection _ _ _ _ _ _ _ _ _ _ _ Hid Hup Hsave Hfind Hself
                       Hname Howner Hmembers).
  rewrite Hgid. set (g' := groupSchema.mk id name v ms).
  eexists. eexists. split; [reflexivity |]. split.
  - apply (getTasks_run _ _ _ _ Hgroups Htasks Hu).
  - intros t Hgroup Hvis. rewrite filter_In, tasks_filter_visible.
    cbn [db tasks set_groups groups].
    apply and_iff_compat_l. unfold visible_to. cbn [groups set_groups].
    assert (Hstored : exists x, In x (groups (db w))
                                /\ groupSchema._id x = groupSchema._id g').
    { exists group. split; [| exact Hgid].
      apply find_some in Hfind. tauto. }
    split.
    + intros [H | [H | [H | [H | [_ [g0 [Hin [Hg0 Hmem]]]]]]]]; auto.
      * rewrite Hvis in H. discriminate H.
      * apply (replace_group_In g' _ g0 Hnodup Hstored) in Hin.
        destruct Hin as [-> | [_ Hne]]; [auto |].
        rewrite Hgroup in Hg0. inversion Hg0. subst id. simpl in Hne. congruence.
    + intros [H | [H | [H | H]]]; auto.
      do 4 right. split; [exact Hvis |]. exists g'. split; [| auto].
      apply (replace_group_In g' _ g' Hnodup Hstored). auto.
Qed.

(* ================================================================== *)
(** ** Task routes: what they leave alone *)

#[local] Instance touches_Reflexive target : Reflexive (touches target).
Proof.
  intros w. unfold touches. induction (tasks (db w)); constructor; auto.
Qed.

#[local] Instance touches_Transitive target : Transitive (touches target).
Proof.
  intros a b c. unfold touches.
  generalize (tasks (db a)) (tasks (db b)) (tasks (db c)).
  intros la lb lc H. revert lc.
  induction H as [| x y la lb (Hid & Howner & Hsame) _ IH]; intros lc H';
    inversion H' as [| y' z lb' lc' (Hid' & Howner' & Hsame') Hrest]; subst;
    constructor; [| auto].
  repeat split; [congruence | congruence |].
  intros Hother. rewrite Hsame', Hsame; [reflexivity | exact Hother |].
  rewrite Hid. exact Hother.
Qed.

Lemma keeps_touches {A} target env (m : M A) :
  keeps (same tasks) env m -> keeps (touches target) env m.
Proof.
  intros H w. specialize (H w). unfold same in H. unfold touches. rewrite H.
  apply touches_Reflexive.
Qed.

Lemma update_of_owner b env w f w' t :
  update_of b env w = (Ok f, w') -> taskSchema.owner (f t) = taskSchema.owner t.
Proof.
  unfold update_of. intros H.
  apply bind_Ok in H as (linkedTasks & w1 & _ & H).
  apply bind_Ok in H as (group & w2 & _ & H).
  inversion H. reflexivity.
Qed.

Lemma update_first_touches o f l :
  (forall t, taskSchema._id (f t) = taskSchema._id t) ->
  (forall t, taskSchema.owner (f t) = taskSchema.owner t) ->
  Forall2 (fun t t' => taskSchema._id t' = taskSchema._id t
                       /\ taskSchema.owner t' = taskSchema.owner t
                       /\ (Some o <> Some (taskSchema._id t) -> t' = t))
          l (Task.update_first o f l).
Proof.
  intros Hid Howner. induction l as [| t rest IH]; simpl; [constructor |].
  destruct (Task.has_id o t) eqn:Ht.
  - constructor.
    + repeat split; auto. intros Hother. exfalso. apply Hother.
      unfold Task.has_id in Ht. apply N.eqb_eq in Ht. congruence.
    + clear. induction rest; constructor; auto.
  - constructor; auto.
Qed.

Lemma findOneAndUpdate_touches env id b :
  keeps (touches (ObjectId_parse env id)) env (Task.findOneAndUpdate id (update_of b)).
Proof.
  intros w. unfold Task.findOneAndUpdate.
  destruct (ObjectId_parse env id) as [o |] eqn:Hparse.
  - rewrite (bind_cast _ _ _ _ _ Hparse).
    destruct (update_of b env w) as [[f | e] w1] eqn:Hf.
    + rewrite (bind_run _ _ _ _ _ _ Hf).
      framed tasks Hf as F.
      destruct (outage env Task_findOneAndUpdate) eqn:Hout.
      * unfold bind at 1. rewrite (call_down _ _ _ Hout). simpl.
        unfold touches. rewrite F. apply touches_Reflexive.
      * rewrite (bind_call _ _ _ _ Hout). unfold touches. simpl. rewrite F.
        apply update_first_touches; intros t.
        -- exact (update_of_id _ _ _ _ _ t Hf).
        -- exact (update_of_owner _ _ _ _ _ t Hf).
    + rewrite (bind_fail _ _ _ _ _ _ Hf). simpl.
      framed tasks Hf as F. unfold touches. rewrite F. apply touches_Reflexive.
  - unfold bind. rewrite (castObjectId_None _ _ _ Hparse). simpl.
    apply touches_Reflexive.
Qed.

(** X15.  [PUT /api/tasks/:id], whatever the request and however it ends: no
    task is added, removed or moved; every task keeps its [_id] and its
    [owner]; and a task whose [_id] is not the one in the URL is as it
    was. *)
Theorem putTask_touches_one_task env w req_userId id b :
  touches (ObjectId_parse env id) w (snd (putTask req_userId id b env w)).
Proof.
  revert w. change (keeps (touches (ObjectId_parse env id)) env
                          (putTask req_userId id b)).
  unfold putTask. apply keeps_try_catch; [typeclasses eauto | |].
  - apply keeps_bind; [typeclasses eauto | apply findOneAndUpdate_touches |].
    intros updatedTask. apply keeps_touches. frame.
  - intros e. apply keeps_touches. frame.
Qed.

Lemma Task_findById_up env w id o :
  ObjectId_parse env id = Some o ->
  outage env Task_findById = false ->
  Task.findById id env w = (Ok (find (Task.has_id o) (tasks (db w))), w).
Proof.
  intros Hparse Hup. unfold Task.findById.
  rewrite (bind_cast _ _ _ _ _ Hparse), (bind_call _ _ _ _ Hup). reflexivity.
Qed.

(** Building the update document writes nothing. *)
Lemma update_of_pure env b : keeps eq env (update_of b).
Proof. frame. Qed.

Lemma update_first_miss o f l :
  find (Task.has_id o) l = None -> Task.update_first o f l = l.
Proof.
  induction l as [| t rest IH]; simpl; [reflexivity |].
  destruct (Task.has_id o t); [discriminate |]. intros H. rewrite (IH H). reflexivity.
Qed.

(** An update or a delete of an id no stored task has, with the store
    answering and the update document casting: 404, and store and console
    are as they were. *)
Lemma unknown_task_not_found env w req_userId id o b f :
  ObjectId_parse env id = Some o ->
  find (Task.has_id o) (tasks (db w)) = None ->
  outage env Task_findById = false ->
  outage env Task_findOneAndUpdate = false ->
  update_of b env w = (Ok f, w) ->
  putTask req_userId id b env w = (Ok (res 404 (json_message "Task not found")), w)
  /\ deleteTask req_userId id env w
     = (Ok (res 404 (json_message "Task not found")), w).
Proof.
  intros Hparse Hmiss Hfind Hupdate Hf. split.
  - unfold putTask, try_catch, Task.findOneAndUpdate.
    assert (Hrun : Task.findOneAndUpdate id (update_of b) env w = (Ok None, w)).
    { unfold Task.findOneAndUpdate.
      rewrite (bind_cast _ _ _ _ _ Hparse), (bind_run _ _ _ _ _ _ Hf),
        (bind_call _ _ _ _ Hupdate).
      unfold bind, gets, modify_db, ret. rewrite Hmiss, (update_first_miss _ _ _ Hmiss).
      destruct w as [[] ?]. reflexivity. }
    fold (Task.findOneAndUpdate id (update_of b)).
    rewrite (bind_run _ _ _ _ _ _ Hrun). reflexivity.
  - unfold deleteTask, try_catch.
    rewrite (bind_run _ _ _ _ _ _ (Task_findById_up _ _ _ _ Hparse Hfind)), Hmiss.
    reflexivity.
Qed.

Lemma findOneAndUpdate_miss env w id b :
  (forall o, ObjectId_parse env id = Some o ->
             find (Task.has_id o) (tasks (db w)) = None) ->
  Task.findOneAndUpdate id (update_of b) env w = (Ok None, w)
  \/ exists e, Task.findOneAndUpdate id (update_of b) env w = (Throw e, w).
Proof.
  intros Hmiss. unfold Task.findOneAndUpdate.
  destruct (ObjectId_parse env id) as [o |] eqn:Hparse.
  - specialize (Hmiss o eq_refl). rewrite (bind_cast _ _ _ _ _ Hparse).
    destruct (update_of b env w) as [[f | e] w1] eqn:Hf;
      assert (Hw1 : w = w1)
        by exact (keeps_run _ _ _ _ _ _ (update_of_pure env b) Hf);
      subst w1.
    + rewrite (bind_run _ _ _ _ _ _ Hf).
      destruct (outage env Task_findOneAndUpdate) eqn:Hout.
      * right. eexists. unfold bind at 1. rewrite (call_down _ _ _ Hout). reflexivity.
      * left. rewrite (bind_call _ _ _ _ Hout).
        unfold bind, gets, modify_db, ret.
        rewrite Hmiss, (update_first_miss _ _ _ Hmiss).
        destruct w as [[] ?]. reflexivity.
    + right. eexists. rewrite (bind_fail _ _ _ _ _ _ Hf). reflexivity.
  - right. eexists. unfold bind. rewrite (castObjectId_None _ _ _ Hparse). reflexivity.
Qed.

Lemma findById_miss env w id :
  (forall o, ObjectId_parse env id = Some o ->
             find (Task.has_id o) (tasks (db w)) = None) ->
  Task.findById id env w = (Ok None, w)
  \/ exists e, Task.findById id env w = (Throw e, w).
Proof.
  intros Hmiss. unfold Task.findById.
  destruct (ObjectId_parse env id) as [o |] eqn:Hparse.
  - specialize (Hmiss o eq_refl). rewrite (bind_cast _ _ _ _ _ Hparse).
    destruct (outage env Task_findById) eqn:Hout.
    + right. eexists. unfold bind at 1. rewrite (call_down _ _ _ Hout). reflexivity.
    + left. rewrite (bind_call _ _ _ _ Hout). unfold bind, gets, ret.
      rewrite Hmiss. reflexivity.
  - right. eexists. unfold bind. rewrite (castObjectId_None _ _ _ Hparse). reflexivity.
Qed.

(** X16.  However they end, an update or a delete of an id no stored task has
    changes nothing in the store, and answers 404 or 500. *)
Theorem unknown_task_changes_nothing env w req_userId id b :
  (forall o, ObjectId_parse env id = Some o ->
             find (Task.has_id o) (tasks (db w)) = None) ->
  let put := putTask req_userId id b env w in
  let del := deleteTask req_userId id env w in
  db (snd put) = db w /\ db (snd del) = db w
  /\ (fst put = Ok (res 404 (json_message "Task not found"))
      \/ fst put = Ok (res 500 (json_message "Failed to update task")))
  /\ (fst del = Ok (res 404 (json_message "Task not found"))
      \/ fst del = Ok (res 500 (json_message "Failed to delete task"))).
Proof.
  intros Hmiss put del. subst put del. unfold putTask, deleteTask, try_catch.
  destruct (findOneAndUpdate_miss env w id b Hmiss) as [Hput | [e Hput]];
    [rewrite (bind_run _ _ _ _ _ _ Hput) | rewrite (bind_fail _ _ _ _ _ _ Hput)];
    (destruct (findById_miss env w id Hmiss) as [Hdel | [e' Hdel]];
     [rewrite (bind_run _ _ _ _ _ _ Hdel) | rewrite (bind_fail _ _ _ _ _ _ Hdel)]);
    simpl; auto.
Qed.


(* ================================================================== *)
(** ** Task routes: creation *)

Lemma new_Task_owner env w b req_userId t w1 :
  new_Task b req_userId env w = (Ok t, w1) ->
  exists o, ObjectId_parse env req_userId = Some o /\ taskSchema.owner t = o.
Proof.
  unfold new_Task. intros H.
  apply bind_Ok in H as (id & wa & _ & H).
  apply try_catch_Ok in H as [H | (e & wb & _ & H)]; [| discriminate H].
  apply bind_Ok in H as (title & wb & _ & H).
  apply bind_Ok in H as (visibility & wc & _ & H).
  apply bind_Ok in H as (owner & wd & Howner & H).
  apply castObjectId_Ok in Howner as [Howner _].
  apply bind_Ok in H as (linkedTasks & we & _ & H).
  apply bind_Ok in H as (group & wf & _ & H).
  inversion H. exists owner. auto.
Qed.

(** X18.  A task [POST /api/tasks] answered 201 with is listed to its creator by
    [GET /api/tasks] from then on, whatever its visibility. *)
Theorem postTask_creator_sees_task env env' w req_userId b t w' :
  postTask req_userId b env w = (Ok (res 201 (json_task t)), w') ->
  ObjectId_parse env' req_userId = ObjectId_parse env req_userId ->
  outage env' Group_find = false ->
  outage env' Task_find = false ->
  exists visible,
    getTasks req_userId env' w' = (Ok (res 200 (json_tasks visible)), w')
    /\ In t visible.
Proof.
  intros Hrun Hsame Hgroups Htasks.
  unfold postTask in Hrun. apply handler_Ok in Hrun; [| discriminate].
  apply bind_Ok in Hrun as (newTask & w1 & Hnew & Hrun).
  apply bind_Ok in Hrun as (savedTask & w2 & Hsave & Hrun).
  apply new_Task_owner in Hnew as (o & Ho & Howner).
  assert (Hstored : savedTask = newTask /\ In newTask (tasks (db w2))).
  { unfold Task.save in Hsave.
    apply bind_Ok in Hsave as ([] & wa & _ & Hsave).
    unfold bind, modify_db, ret in Hsave. inversion Hsave. simpl.
    split; [reflexivity |]. apply in_or_app. right. left. reflexivity. }
  destruct Hstored as [-> Hstored].
  framed tasks Hrun as F.
  apply bind_Ok in Hrun as ([] & w3 & _ & Hrun).
  apply bind_Ok in Hrun as (usersToNotify & w4 & _ & Hrun).
  apply bind_Ok in Hrun as ([] & w5 & _ & Hrun).
  inversion Hrun; subst.
  rewrite <- Hsame in Ho.
  eexists. split; [apply (getTasks_run _ _ _ _ Hgroups Htasks Ho) |].
  apply filter_In. rewrite F. split; [exact Hstored |].
  unfold tasks_filter. rewrite N.eqb_refl. reflexivity.
Qed.

Lemma existsb_eqb_false v l : ~ In v l -> existsb (String.eqb v) l = false.
Proof.
  intros Hout. destruct (existsb (String.eqb v) l) eqn:E; [| reflexivity].
  apply existsb_exists in E as (x & Hin & Heq). apply String.eqb_eq in Heq.
  subst x. contradiction.
Qed.

(** X19.  A request without a title, with an empty title, or with a
    [visibility] outside [private], [group], [public] is answered 500; no
    task is stored, no audit record written and nobody notified. *)
Theorem postTask_rejects_invalid env w req_userId b :
  invalid_task b ->
  exists w',
    postTask req_userId b env w
    = (Ok (res 500 (json_message "Failed to create task")), w')
    /\ tasks (db w') = tasks (db w)
    /\ audits (db w') = audits (db w)
    /\ notifications (db w') = notifications (db w)
    /\ console w' = console w ++ ["Error creating task:"].
Proof.
  intros Hinvalid.
  assert (Hnew : new_Task b req_userId env w
                 = (Throw ValidationError,
                    mkWorld (set_next_oid (db w) (N.succ (next_oid (db w))))
                            (console w))).
  { unfold new_Task, new_ObjectId.
    unfold bind at 1. unfold bind at 1. unfold bind at 1.
    unfold gets, modify_db, ret at 1. cbn beta iota.
    unfold try_catch.
    destruct Hinvalid as [Htitle | [Htitle | (v & Hv & Hout)]].
    - rewrite Htitle. reflexivity.
    - rewrite Htitle. reflexivity.
    - rewrite Hv, (existsb_eqb_false _ _ Hout).
      destruct (body.title b) as [[| c s] |]; reflexivity. }
  unfold postTask, try_catch. rewrite (bind_fail _ _ _ _ _ _ Hnew).
  eexists. split; [reflexivity |]. simpl. auto.
Qed.

(* ================================================================== *)
(** ** Notification dispatcher *)

Lemma documents_spec first createdAt taskId message type userIds :
  let docs := Notification.documents first createdAt
                (map (fun userId => (userId, taskId, message, type)) userIds) in
  map notificationSchema.userId docs = userIds
  /\ Forall (fun n => notificationSchema.taskId n = taskId
                      /\ notificationSchema.message n = message
                      /\ notificationSchema.type n = type
                      /\ notificationSchema.read n = false
                      /\ notificationSchema.createdAt n = createdAt) docs.
Proof.
  revert first. induction userIds as [| u rest IH]; intros first; simpl.
  - split; [reflexivity | constructor].
  - destruct (IH (N.succ first)) as [Hmap Hall]. split.
    + f_equal. exact Hmap.
    + constructor; [simpl; auto | exact Hall].
Qed.

(** X20.  When [sendNotifications] returns, it has appended one unread
    notification per element of [userIds], in that order, all with the
    same message, the given type, the task's id and the clock's time; the
    notifications stored before are as they were. *)
Theorem sendNotifications_one_each env w userIds task type actorId w' :
  sendNotifications userIds task type actorId env w = (Ok tt, w') ->
  exists message docs,
    notifications (db w') = notifications (db w) ++ docs
    /\ map notificationSchema.userId docs = userIds
    /\ Forall (fun n => notificationSchema.taskId n = Some (taskSchema._id task)
                        /\ notificationSchema.message n = message
                        /\ notificationSchema.type n = type
                        /\ notificationSchema.read n = false
                        /\ notificationSchema.createdAt n = now env) docs.
Proof.
  unfold sendNotifications. intros H.
  apply bind_Ok in H as (actor & w1 & Hactor & H).
  apply bind_Ok in H as (message & w2 & Hmessage & H).
  framed notifications Hactor as F1.
  framed notifications Hmessage as F2.
  exists message.
  destruct (documents_spec (next_oid (db w2)) (now env) (Some (taskSchema._id task))
                           message type userIds) as [Hmap Hall].
  destruct userIds as [| u rest].
  - inversion H; subst. exists []. rewrite app_nil_r. repeat split; [congruence |].
    constructor.
  - unfold Notification.insertMany in H. cbn [map] in H.
    rewrite bind_asks, bind_gets in H.
    unfold bind at 1 in H. unfold modify_db at 1 in H. cbv beta iota in H.
    unfold call in H. unfold bind in H.
    destruct (outage env Notification_insertMany); [discriminate H |].
    unfold modify_db in H. inversion H. subst w'. clear H.
    eexists. cbn [db notifications set_notifications set_next_oid].
    rewrite F2, F1. split; [reflexivity |]. split; [exact Hmap | exact Hall].
Qed.

(** X21.  A task nobody is assigned to and that is no group task notifies
    nobody: not its owner either. *)
Theorem getUsersToNotify_unassigned env w task :
  taskSchema.assigned_to task = None
  \/ taskSchema.assigned_to task = Some EmptyString ->
  taskSchema.visibility task <> "group" \/ taskSchema.group task = None ->
  getUsersToNotify task env w = (Ok [], w).
Proof.
  intros Hnobody Hprivate. unfold getUsersToNotify, try_catch.
  assert (Hgroup : match String.eqb (taskSchema.visibility task) "group",
                         taskSchema.group task with
                   | true, Some _ => False
                   | _, _ => True
                   end).
  { destruct Hprivate as [Hv | Hg].
    - apply String.eqb_neq in Hv. rewrite Hv. exact I.
    - rewrite Hg. destruct (String.eqb _ _); exact I. }
  destruct Hnobody as [Hnone | Hempty]; [rewrite Hnone | rewrite Hempty];
    destruct (String.eqb (taskSchema.visibility task) "group");
    destruct (taskSchema.group task); try contradiction; reflexivity.
Qed.

(** X22.  A group task whose group is not stored notifies nobody: the assignee
    and the owner are dropped with the failure, which goes to the
    console. *)
Theorem getUsersToNotify_missing_group env w task g :
  taskSchema.visibility task = "group" ->
  taskSchema.group task = Some g ->
  outage env Group_findById = false ->
  find (Group.has_id g) (groups (db w)) = None ->
  getUsersToNotify task env w
  = (Ok [], mkWorld (db w) (console w ++ ["Error determining users to notify:"])).
Proof.
  intros Hvis Hgroup Hup Hmissing. unfold getUsersToNotify, try_catch.
  rewrite Hvis, Hgroup, String.eqb_refl.
  assert (Hthrow : forall users : JsSet,
             (group <- Group.findById g ;;
              members <- Group.populate_members group ;;
              match members with
              | None => throw TypeError
              | Some members =>
                  ret (fold_left
                         (fun users member =>
                            Set_add users (mkObj (ref_user_id (userSchema._id member))
                                                 (userSchema._id member)))
                         members users)
              end) env w = (Throw TypeError, w)).
  { intros users.
    rewrite (bind_run _ _ _ _ _ _ (Group_findById_up _ _ _ Hup)), Hmissing.
    reflexivity. }
  destruct (taskSchema.assigned_to task) as [[| c s] |].
  - unfold bind at 1. unfold ret at 1. cbv beta iota.
    rewrite (bind_fail _ _ _ _ _ _ (Hthrow _)). reflexivity.
  - destruct (ObjectId_parse env (String c s)) as [o |] eqn:Hparse.
    + assert (Hadd : forall users : JsSet,
                 (o <- ObjectId_of_string (String c s) ;;
                  ret (Set_add users (mkObj ref_new_ObjectId o))) env w
                 = (Ok (Set_add users (mkObj ref_new_ObjectId o)), w)).
      { intros users. unfold ObjectId_of_string, bind, asks. rewrite Hparse.
        reflexivity. }
      rewrite (bind_run _ _ _ _ _ _ (Hadd _)).
      rewrite (bind_fail _ _ _ _ _ _ (Hthrow _)). reflexivity.
    + assert (Hadd : forall users : JsSet,
                 (o <- ObjectId_of_string (String c s) ;;
                  ret (Set_add users (mkObj ref_new_ObjectId o))) env w
                 = (Throw BSONError, w)).
      { intros users. unfold ObjectId_of_string, bind, asks. rewrite Hparse.
        reflexivity. }
      rewrite (bind_fail _ _ _ _ _ _ (Hadd _)). reflexivity.
  - unfold bind at 1. unfold ret at 1. cbv beta iota.
    rewrite (bind_fail _ _ _ _ _ _ (Hthrow _)). reflexivity.
Qed.

(* ================================================================== *)
(** ** Notification routes *)

Lemma mark_read_read n : notificationSchema.read n = true -> mark_read n = n.
Proof. destruct n. simpl. intros ->. reflexivity. Qed.

(** X23.  [PUT /api/notifications/mark-all-read], with the store answering:
    every notification of the caller is stored as read, with nothing else
    about it changed; the notifications of other users are as they were;
    and a second call changes nothing more. *)
Theorem putMarkAllRead_marks_own rejection env w req_userId u :
  ObjectId_parse env req_userId = Some u ->
  rejection Notification_updateMany = None ->
  exists w',
    putMarkAllRead rejection req_userId env w
    = (Ok (mkReply 200 (sent_json (json_message "All notifications marked as read"))),
       w')
    /\ Forall2 (fun n n' =>
                  (notificationSchema.userId n = u -> n' = mark_read n)
                  /\ (notificationSchema.userId n <> u -> n' = n))
               (notifications (db w)) (notifications (db w'))
    /\ putMarkAllRead rejection req_userId env w'
       = (Ok (mkReply 200 (sent_json (json_message "All notifications marked as read"))),
          w').
Proof.
  intros Hu Hup.
  assert (Hrun : forall w0,
             putMarkAllRead rejection req_userId env w0
             = (Ok (mkReply 200 (sent_json (json_message
                      "All notifications marked as read"))),
                mkWorld (set_notifications (db w0)
                           (map (fun n =>
                                   if N.eqb (notificationSchema.userId n) u
                                      && negb (notificationSchema.read n)
                                   then mark_read n else n)
                                (notifications (db w0))))
                        (console w0))).
  { intros w0. unfold putMarkAllRead, try_catch.
    rewrite (bind_cast _ _ _ _ _ Hu). unfold store_call. rewrite Hup. reflexivity. }
  rewrite Hrun. eexists. split; [reflexivity |]. split.
  - cbn [db notifications set_notifications].
    induction (notifications (db w)) as [| n rest IH]; simpl; constructor; [| exact IH].
    destruct (N.eqb_spec (notificationSchema.userId n) u) as [He | Hne].
    + split; [| contradiction]. intros _.
      destruct (notificationSchema.read n) eqn:Hread; simpl; [| reflexivity].
      symmetry. apply mark_read_read. exact Hread.
    + split; [contradiction | reflexivity].
  - rewrite Hrun.
    assert (Hagain : forall l,
               map (fun n => if N.eqb (notificationSchema.userId n) u
                                && negb (notificationSchema.read n)
                             then mark_read n else n)
                   (map (fun n => if N.eqb (notificationSchema.userId n) u
                                     && negb (notificationSchema.read n)
                                  then mark_read n else n) l)
               = map (fun n => if N.eqb (notificationSchema.userId n) u
                                  && negb (notificationSchema.read n)
                               then mark_read n else n) l).
    { intros l. rewrite map_map. apply map_ext. intros n.
      destruct (N.eqb (notificationSchema.userId n) u) eqn:Hmine; simpl.
      - destruct (notificationSchema.read n) eqn:Hread; simpl.
        + rewrite Hmine, Hread. reflexivity.
        + rewrite Hmine. reflexivity.
      - rewrite Hmine. reflexivity. }
    destruct w as [[us ts gs au ns nx] c].
    cbn [db notifications set_notifications console]. rewrite Hagain. reflexivity.
Qed.

(** X24.  [PUT /api/notifications/:id/read] takes no caller: whoever sends the
    id marks the notification read.  With the store answering it answers
    204 whether or not a notification has the id, changes no notification
    with another id, and changes nothing of the one it marks but
    [read]. *)
Theorem putNotificationRead_marks_one rejection env w id o :
  ObjectId_parse env id = Some o ->
  rejection Notification_findByIdAndUpdate = None ->
  exists w',
    putNotificationRead rejection id env w = (Ok (mkReply 204 sent_status), w')
    /\ Forall2 (fun n n' =>
                  n' = n \/ (notificationSchema._id n = o /\ n' = mark_read n))
               (notifications (db w)) (notifications (db w'))
    /\ ((forall n, In n (notifications (db w)) -> notificationSchema._id n <> o) ->
        notifications (db w') = notifications (db w))
    /\ (forall n, find (fun n => N.eqb (notificationSchema._id n) o)
                       (notifications (db w)) = Some n ->
                  In (mark_read n) (notifications (db w'))).
Proof.
  intros Hid Hup. unfold putNotificationRead, try_catch.
  rewrite (bind_cast _ _ _ _ _ Hid). unfold store_call. rewrite Hup.
  eexists. split; [reflexivity |]. cbn [snd db notifications set_notifications].
  induction (notifications (db w)) as [| n rest (IH1 & IH2 & IH3)]; simpl.
  - repeat split; [constructor | discriminate].
  - destruct (N.eqb_spec (notificationSchema._id n) o) as [He | Hne].
    + split; [| split].
      * constructor; [auto |]. clear. induction rest; constructor; auto.
      * intros Hnone. exfalso. apply (Hnone n); auto.
      * intros n0 H. inversion H. subst n0. left. reflexivity.
    + split; [| split].
      * constructor; auto.
      * intros Hnone. f_equal. apply IH2. intros n0 Hin. apply Hnone. auto.
      * intros n0 H. right. apply IH3. exact H.
Qed.

Lemma insert_desc_In {A} (key : A -> Z) x l y :
  In y (insert_desc key x l) <-> y = x \/ In y l.
Proof.
  induction l as [| z rest IH]; simpl.
  - split; intros [H | H]; auto.
  - destruct (key z <? key x)%Z; simpl; [| rewrite IH]; intuition auto.
Qed.

Lemma sort_desc_In {A} (key : A -> Z) l y : In y (sort_desc key l) <-> In y l.
Proof.
  induction l as [| x rest IH]; simpl; [reflexivity |].
  rewrite insert_desc_In, IH. intuition auto.
Qed.

Lemma insert_desc_sorted {A} (key : A -> Z) x l :
  StronglySorted (fun a b => (key b <= key a)%Z) l ->
  StronglySorted (fun a b => (key b <= key a)%Z) (insert_desc key x l).
Proof.
  induction 1 as [| z rest Hrest IH Hz]; simpl.
  - constructor; constructor.
  - destruct (key z <? key x)%Z eqn:Hlt.
    + apply Z.ltb_lt in Hlt. constructor; [constructor; assumption |].
      constructor; [lia |]. rewrite Forall_forall in *. intros b Hb.
      specialize (Hz b Hb). lia.
    + apply Z.ltb_ge in Hlt. constructor; [exact IH |].
      rewrite Forall_forall in *. intros b Hb. apply insert_desc_In in Hb.
      destruct Hb as [-> | Hb]; [exact Hlt | auto].
Qed.

Lemma sort_desc_sorted {A} (key : A -> Z) l :
  StronglySorted (fun a b => (key b <= key a)%Z) (sort_desc key l).
Proof.
  induction l as [| x rest IH]; simpl; [constructor |].
  apply insert_desc_sorted. exact IH.
Qed.

Lemma sort_desc_length {A} (key : A -> Z) l : length (sort_desc key l) = length l.
Proof.
  induction l as [| x rest IH]; simpl; [reflexivity |]. rewrite <- IH.
  generalize (sort_desc key rest). intros s.
  induction s as [| z s IHs]; simpl; [reflexivity |].
  destruct (key z <? key x)%Z; simpl; [reflexivity | rewrite IHs; reflexivity].
Qed.

Lemma sorted_firstn_skipn {A} (R : A -> A -> Prop) n l :
  StronglySorted R l ->
  StronglySorted R (firstn n l)
  /\ forall x y, In x (firstn n l) -> In y (skipn n l) -> R x y.
Proof.
  intros H. revert n. induction H as [| z rest Hrest IH Hz]; intros [| n]; simpl.
  - split; [constructor | contradiction].
  - split; [constructor | contradiction].
  - split; [constructor | contradiction].
  - destruct (IH n) as [Hsorted Hcut]. split.
    + constructor; [exact Hsorted |]. rewrite Forall_forall in *.
      intros b Hb. apply Hz. rewrite <- (firstn_skipn n rest).
      apply in_or_app. auto.
    + intros x y [<- | Hx] Hy; [| auto].
      rewrite Forall_forall in Hz. apply Hz. rewrite <- (firstn_skipn n rest).
      apply in_or_app. auto.
Qed.

(** X25.  [GET /api/notifications], with the store answering: the answer holds
    notifications of the caller only, at most 30 of them, newest first,
    and every notification of the caller that is left out is no newer
    than any that is shown. *)
Theorem getNotifications_newest_thirty rejection env w req_userId u :
  ObjectId_parse env req_userId = Some u ->
  rejection Notification_find = None ->
  exists shown older,
    getNotifications rejection req_userId env w
    = (Ok (mkReply 200 (sent_notifications shown)), w)
    /\ length shown
       = Nat.min 30 (length (filter (fun n => N.eqb (notificationSchema.userId n) u)
                                    (notifications (db w))))
    /\ (forall n, In n shown \/ In n older
                  <-> In n (notifications (db w)) /\ notificationSchema.userId n = u)
    /\ StronglySorted
         (fun a b => (notificationSchema.createdAt b <= notificationSchema.createdAt a)%Z)
         shown
    /\ (forall x y, In x shown -> In y older ->
                    (notificationSchema.createdAt y <= notificationSchema.createdAt x)%Z).
Proof.
  intros Hu Hup. unfold getNotifications, try_catch.
  rewrite (bind_cast _ _ _ _ _ Hu). unfold store_call. rewrite Hup.
  set (mine := filter (fun n => N.eqb (notificationSchema.userId n) u)
                      (notifications (db w))).
  set (sorted := sort_desc notificationSchema.createdAt mine).
  exists (firstn 30 sorted), (skipn 30 sorted).
  split; [reflexivity |].
  destruct (sorted_firstn_skipn _ 30 sorted
              (sort_desc_sorted notificationSchema.createdAt mine)) as [Hsorted Hcut].
  split; [| split; [| split; [exact Hsorted | exact Hcut]]].
  - rewrite length_firstn. unfold sorted. rewrite sort_desc_length. reflexivity.
  - intros n. rewrite <- in_app_iff, firstn_skipn. unfold sorted.
    rewrite sort_desc_In. unfold mine. rewrite filter_In, N.eqb_eq. reflexivity.
Qed.

(* ================================================================== *)
(** ** Audit trail route *)

(** X26.  [GET /api/tasks/:id/audit] for a stored task, with the store
    answering: the records of that task and no others, newest first, each
    with the name of the user its [changedBy] refers to, or none when no
    such user is stored.  The caller is not looked at: any authenticated
    user reads any task's trail. *)
Theorem getTaskAudit_lists_trail rejection env w taskId id task :
  ObjectId_parse env taskId = Some id ->
  rejection Task_findOne = None ->
  rejection Audit_find = None ->
  outage env User_find = false ->
  find (Task.has_id id) (tasks (db w)) = Some task ->
  exists auditLogs,
    getTaskAudit rejection taskId env w
    = (Ok (mkReply 200 (sent_auditLogs auditLogs)), w)
    /\ (forall a, In a (map fst auditLogs)
                  <-> In a (audits (db w)) /\ auditSchema.taskId a = id)
    /\ StronglySorted
         (fun a b => (auditSchema.timestamp b <= auditSchema.timestamp a)%Z)
         (map fst auditLogs)
    /\ Forall (fun entry =>
                 snd entry
                 = option_map userSchema.name
                     (find (User.has_id (auditSchema.changedBy (fst entry)))
                           (users (db w))))
              auditLogs.
Proof.
  intros Hid Htask Haudit Husers Hfound. unfold getTaskAudit, try_catch.
  rewrite (bind_cast _ _ _ _ _ Hid). unfold store_call at 1. rewrite Htask.
  unfold bind at 1. unfold ret at 1. cbv beta iota.
  rewrite bind_gets, Hfound, (bind_cast _ _ _ _ _ Hid).
  unfold store_call. rewrite Haudit.
  unfold bind at 1. unfold ret at 1. cbv beta iota.
  rewrite bind_gets. unfold populate_changedBy.
  set (logs := sort_desc auditSchema.timestamp
                 (filter (fun a => N.eqb (auditSchema.taskId a) id) (audits (db w)))).
  unfold bind at 1. rewrite (bind_call _ _ _ _ Husers). unfold bind, gets, ret.
  eexists. split; [reflexivity |].
  rewrite map_map. cbn [fst]. rewrite map_id.
  split; [| split].
  - intros a. unfold logs. rewrite sort_desc_In, filter_In, N.eqb_eq. reflexivity.
  - apply sort_desc_sorted.
  - apply Forall_forall. intros entry Hin. apply in_map_iff in Hin as (a & <- & _).
    reflexivity.
Qed.



(* ================================================================== *)
(** ** The audit log over all routes *)

#[local] Instance grown_Reflexive : Reflexive grown.
Proof. intros w. exists []. rewrite app_nil_r. reflexivity. Qed.

#[local] Instance grown_Transitive : Transitive grown.
Proof.
  intros a b c [l1 H1] [l2 H2]. exists (l1 ++ l2). rewrite H2, H1.
  rewrite app_assoc. reflexivity.
Qed.

Lemma grown_modify_db env f :
  (forall d, exists added, audits (f d) = audits d ++ added) ->
  keeps grown env (modify_db f).
Proof. intros H w. unfold grown. simpl. apply H. Qed.

Lemma grown_console_error env msg : keeps grown env (console_error msg).
Proof. intros w. exists []. rewrite app_nil_r. reflexivity. Qed.

Ltac grown_step :=
  first
    [ apply grown_console_error
    | apply grown_modify_db; intros []; simpl;
      first [ exists []; rewrite app_nil_r; reflexivity | eexists; reflexivity ]
    | keeps_step ].

(** X28.  No route removes or rewrites an audit record: after any request the
    log is the log before it with records added at the end, and only the
    three task mutations add any. *)
Theorem audit_log_append_only rejection randomBytes env w r :
  exists added,
    audits (db (snd (route rejection randomBytes r env w)))
    = audits (db w) ++ added
    /\ match r with
       | task_mutation _ _ => True
       | _ => added = []
       end.
Proof.
  assert (Hsame : forall m : M unit,
             keeps (same audits) env m ->
             exists added, audits (db (snd (m env w))) = audits (db w) ++ added
                           /\ added = []).
  { intros m H. exists []. split; [| reflexivity]. rewrite app_nil_r. apply H. }
  destruct r;
    try (apply Hsame; unfold route, answered; frame_routes).
  assert (Hgrown : keeps grown env (answered (serve req_userId m))).
  { unfold answered, serve. destruct m; unfold_model; repeat grown_step. }
  destruct (Hgrown w) as [added Hadded]. exists added. auto.
Qed.

(* ================================================================== *)
(** ** Task routes: who may change a task *)

Lemma sendNotifications_returns env w userIds task type actorId actor :
  ObjectId_parse env actorId = Some actor ->
  outage env User_findById = false ->
  outage env Notification_insertMany = false ->
  type <> assignment ->
  exists w', sendNotifications userIds task type actorId env w = (Ok tt, w')
             /\ tasks (db w') = tasks (db w).
Proof.
  intros Hactor Husers Hinsert Htype.
  destruct (sendNotifications userIds task type actorId env w) as [[[] | e] w'] eqn:Hrun.
  - exists w'. split; [reflexivity |]. framed tasks Hrun as F. exact F.
  - exfalso. revert Hrun. unfold sendNotifications.
    rewrite (bind_run _ _ _ _ _ _ (User_findById_up _ _ _ _ Husers Hactor)).
    destruct type; [congruence | |];
      (unfold bind at 1; unfold ret at 1; cbv beta iota;
       unfold Notification.insertMany;
       destruct userIds as [| u rest]; cbn [map]; [discriminate |];
       rewrite bind_asks, bind_gets;
       unfold bind at 1; unfold modify_db at 1; cbv beta iota;
       rewrite (bind_call _ _ _ _ Hinsert); discriminate).
Qed.

(** [DELETE /api/tasks/:id] does not look at who asks.  For any caller
    whose id casts, with the store answering, a stored task is deleted,
    whoever owns it and whatever its visibility. *)
Lemma deleteTask_whoever_asks env w req_userId u id o t :
  (forall op, outage env op = false) ->
  ObjectId_parse env req_userId = Some u ->
  ObjectId_parse env id = Some o ->
  find (Task.has_id o) (tasks (db w)) = Some t ->
  exists w',
    deleteTask req_userId id env w = (Ok (res 200 (json_message "Task deleted")), w')
    /\ tasks (db w') = Task.remove_first o (tasks (db w)).
Proof.
  intros Hup Hu Hid Hfound. unfold deleteTask, try_catch.
  rewrite (bind_run _ _ _ _ _ _ (Task_findById_up _ _ _ _ Hid (Hup _))), Hfound.
  destruct (recordAudit_spec env w (taskSchema._id t) "delete" req_userId (snapshot t))
    as (w1 & Hrecord & _).
  framed tasks Hrecord as F1. rewrite (bind_run _ _ _ _ _ _ Hrecord).
  set (w2 := mkWorld (set_tasks (db w1) (Task.remove_first o (tasks (db w1))))
                     (console w1)).
  assert (Hdelete : Task.findOneAndDelete id env w1
                    = (Ok (find (Task.has_id o) (tasks (db w1))), w2)).
  { unfold Task.findOneAndDelete.
    rewrite (bind_cast _ _ _ _ _ Hid), (bind_call _ _ _ _ (Hup _)). reflexivity. }
  rewrite (bind_run _ _ _ _ _ _ Hdelete).
  destruct (getUsersToNotify_returns env w2 t) as (userIds & w3 & Husers).
  framed tasks Husers as F3. rewrite (bind_run _ _ _ _ _ _ Husers).
  destruct (sendNotifications_returns env w3 userIds t deleted req_userId u
              Hu (Hup _) (Hup _)) as (w4 & Hsend & F4); [discriminate |].
  rewrite (bind_run _ _ _ _ _ _ Hsend).
  eexists. split; [reflexivity |].
  rewrite F4, F3. unfold w2. cbn [db tasks set_tasks]. rewrite F1. reflexivity.
Qed.

(** [PUT /api/tasks/:id] does not look at who asks either.  For any
    caller whose id casts, with the store answering and the update
    document casting, a stored task is updated, whoever owns it. *)
Lemma putTask_whoever_asks env w req_userId u id o t b f :
  (forall op, outage env op = false) ->
  ObjectId_parse env req_userId = Some u ->
  ObjectId_parse env id = Some o ->
  find (Task.has_id o) (tasks (db w)) = Some t ->
  update_of b env w = (Ok f, w) ->
  exists w',
    putTask req_userId id b env w = (Ok (res 200 (json_task (f t))), w')
    /\ find (Task.has_id o) (tasks (db w')) = Some (f t).
Proof.
  intros Hup Hu Hid Hfound Hf. unfold putTask, try_catch.
  set (w1 := mkWorld (set_tasks (db w) (Task.update_first o f (tasks (db w))))
                     (console w)).
  assert (Hupdate : Task.findOneAndUpdate id (update_of b) env w
                    = (Ok (Some (f t)), w1)).
  { unfold Task.findOneAndUpdate.
    rewrite (bind_cast _ _ _ _ _ Hid), (bind_run _ _ _ _ _ _ Hf),
      (bind_call _ _ _ _ (Hup _)).
    unfold bind, gets, modify_db, ret. rewrite Hfound. reflexivity. }
  rewrite (bind_run _ _ _ _ _ _ Hupdate).
  assert (Hstored : find (Task.has_id o) (Task.update_first o f (tasks (db w)))
                    = Some (f t)).
  { rewrite update_first_find, Hfound; [reflexivity |].
    intros x. exact (update_of_id _ _ _ _ _ x Hf). }
  rewrite (bind_run _ _ _ _ _ _ (Task_findById_up _ _ _ _ Hid (Hup _))).
  replace (find (Task.has_id o) (tasks (db w1))) with (Some (f t)).
  destruct (recordAudit_spec env w1 (taskSchema._id (f t)) "update" req_userId
                             (changes_of (f t) (f t))) as (w2 & Hrecord & _).
  framed tasks Hrecord as F2. rewrite (bind_run _ _ _ _ _ _ Hrecord).
  destruct (getUsersToNotify_returns env w2 (f t)) as (userIds & w3 & Husers).
  framed tasks Husers as F3. rewrite (bind_run _ _ _ _ _ _ Husers).
  destruct (sendNotifications_returns env w3 userIds (f t) update req_userId u
              Hu (Hup _) (Hup _)) as (w4 & Hsend & F4); [discriminate |].
  rewrite (bind_run _ _ _ _ _ _ Hsend).
  eexists. split; [reflexivity |].
  rewrite F4, F3, F2. exact Hstored.
Qed.

(** X29.  Neither [PUT] nor [DELETE /api/tasks/:id] looks at who asks.  For any
    caller whose id casts, with the store answering, a stored task is
    deleted, and updated by any update document that casts, whoever owns
    the task and whatever its visibility. *)
Theorem task_mutation_by_anyone env w req_userId u id o t :
  (forall op, outage env op = false) ->
  ObjectId_parse env req_userId = Some u ->
  ObjectId_parse env id = Some o ->
  find (Task.has_id o) (tasks (db w)) = Some t ->
  (exists w',
      deleteTask req_userId id env w = (Ok (res 200 (json_message "Task deleted")), w')
      /\ tasks (db w') = Task.remove_first o (tasks (db w)))
  /\ (forall b f,
         update_of b env w = (Ok f, w) ->
         exists w',
           putTask req_userId id b env w = (Ok (res 200 (json_task (f t))), w')
           /\ find (Task.has_id o) (tasks (db w')) = Some (f t)).
Proof.
  intros Hup Hu Hid Hfound. split.
  - exact (deleteTask_whoever_asks env w req_userId u id o t Hup Hu Hid Hfound).
  - intros b f Hf.
    exact (putTask_whoever_asks env w req_userId u id o t b f Hup Hu Hid Hfound Hf).
Qed.

(* ================================================================== *)
(** ** Group deletion is not atomic *)

(** X30.  [deleteGroup] deletes the group, then its tasks.  When the store
    rejects the second call the answer is 500, the group is gone, and its
    tasks are all still stored. *)
Theorem deleteGroup_leaves_tasks_behind env w req_userId groupId id group :
  ObjectId_parse env groupId = Some id ->
  outage env Group_findById = false ->
  find (Group.has_id id) (groups (db w)) = Some group ->
  toString (groupSchema.owner group) = req_userId ->
  outage env Group_findByIdAndDelete = false ->
  outage env Task_deleteMany = true ->
  exists w',
    deleteGroup req_userId groupId env w
    = (Ok (res 500 (json_message "Failed to delete group")), w')
    /\ groups (db w') = Group.remove_first id (groups (db w))
    /\ tasks (db w') = tasks (db w).
Proof.
  intros Hid Hfind Hfound Howner Hdelete Hmany. unfold deleteGroup, try_catch.
  rewrite (bind_cast _ _ _ _ _ Hid),
    (bind_run _ _ _ _ _ _ (Group_findById_up _ _ _ Hfind)), Hfound.
  apply String.eqb_eq in Howner. rewrite Howner. cbn [negb].
  set (w1 := mkWorld (set_groups (db w) (Group.remove_first id (groups (db w))))
                     (console w)).
  assert (Hgone : Group.findByIdAndDelete groupId env w = (Ok tt, w1)).
  { unfold Group.findByIdAndDelete.
    rewrite (bind_cast _ _ _ _ _ Hid), (bind_call _ _ _ _ Hdelete). reflexivity. }
  assert (Hfail : Task.deleteMany_group groupId env w1
                  = (Throw (MongoError Task_deleteMany), w1)).
  { unfold Task.deleteMany_group. rewrite (bind_cast _ _ _ _ _ Hid).
    unfold bind. rewrite (call_down _ _ _ Hmany). reflexivity. }
  rewrite (bind_run _ _ _ _ _ _ Hgone).
  rewrite (bind_fail _ _ _ _ _ _ Hfail).
  eexists. split; [reflexivity |]. simpl. auto.
Qed.

(* ================================================================== *)
(** ** Runs on the small deployment *)

Import Demo Cases.

(** Cid asks for his tasks: the theorem on the visibility resolver, at
    work. *)
Lemma getTasks_visible_witness :
  exists visible,
    getTasks (toString 3) Demo.env (store [task_A; team_task])
    = (Ok (res 200 (json_tasks visible)), store [task_A; team_task])
    /\ forall t, In t visible
                 <-> In t (tasks (db (store [task_A; team_task])))
                     /\ visible_to (db (store [task_A; team_task])) 3 (toString 3) t.
Proof.
  apply (getTasks_visible Demo.env (store [task_A; team_task]) (toString 3) 3).
  - reflexivity.
  - reflexivity.
  - vm_compute. reflexivity.
Defined.

(** C2.  Bob renames his task "A" to "B".  The task is renamed and the
    answer is 200, but the AuditRecord of the update has an empty
    [changes]: the title is not in it. *)
Theorem putTask_rename_audits_no_change :
  let run := putTask (toString 2) (toString 50) rename_to_B Demo.env (store [task_A]) in
  fst run = Ok (res 200 (json_task task_B))
  /\ tasks (db (snd run)) = [task_B]
  /\ audits (db (snd run)) = [auditSchema.mk 100 50 "update" 2 [] 1000%Z]
  /\ map auditSchema.changes (audits (db (snd run))) <> [[("title", VString "B")]].
Proof.
  vm_compute. repeat split; try reflexivity. discriminate.
Qed.

(** C3.  Bob creates a task while inserting notifications fails, and Bob
    creates a task assigned to "Robert" with everything up.  Both times
    the task is stored and audited, and the answer is 500 "Failed to
    create task". *)
Theorem postTask_notification_failure_surfaces :
  let failed := Ok (res 500 (json_message "Failed to create task")) in
  let run1 := postTask (toString 2) for_team
                       (with_outage Demo.env Notification_insertMany true) empty in
  let run2 := postTask (toString 2) for_Robert Demo.env empty in
  (fst run1 = failed
   /\ map taskSchema.title (tasks (db (snd run1))) = ["T"]
   /\ map auditSchema.action (audits (db (snd run1))) = ["create"]
   /\ notifications (db (snd run1)) = [])
  /\ (fst run2 = failed
      /\ map taskSchema.title (tasks (db (snd run2))) = ["T"]
      /\ map auditSchema.action (audits (db (snd run2))) = ["create"]
      /\ notifications (db (snd run2)) = []).
Proof. vm_compute. repeat split; reflexivity. Qed.

(** The fan-out of property 7 on the small deployment: Bob assigns Ann a
    task of the team; Ann, Bob, Cid and Dee get one unread notification
    each, all with the same text and kind. *)
Example postTask_fanout :
  let run := postTask (toString 2) for_team Demo.env empty in
  map notificationSchema.userId (notifications (db (snd run))) = [1; 2; 3; 4]
  /\ forall n, In n (notifications (db (snd run))) ->
               notificationSchema.message n
               = ("Bob created a task " ++ dquote ++ "T" ++ dquote ++ " for Ann.")%string
               /\ notificationSchema.type n = assignment
               /\ notificationSchema.read n = false.
Proof.
  vm_compute. split; [reflexivity |].
  intros n [<- | [<- | [<- | [<- | []]]]]; repeat split; reflexivity.
Qed.

(** C4.  Bob assigns Ann a task of the crew, of which Ann is a member.
    The recipients are Ann, Bob, Ann, Cid: Ann gets two notifications for
    the one event. *)
Theorem postTask_member_assignee_notified_twice :
  let run := postTask (toString 2) for_crew Demo.env empty in
  fst (getUsersToNotify (task 100 "T" "group" (Some 11) 2 (Some (toString 1)))
                        Demo.env empty) = Ok [1; 2; 1; 3]
  /\ map notificationSchema.userId (notifications (db (snd run))) = [1; 2; 1; 3]
  /\ count_for 1 (notifications (db (snd run))) = 2%nat.
Proof. vm_compute. repeat split; reflexivity. Qed.

(** C5 fails on the cascade.  Bob deletes the team: its task is removed
    from the store and no AuditRecord is written for it. *)
Lemma deleteGroup_cascade_not_audited :
  let w := store [task_A; team_task] in
  let run := deleteGroup (toString 2) (toString 10) Demo.env w in
  fst run = Ok (res 200 (json_message "Group deleted"))
  /\ In team_task (tasks (db w))
  /\ ~ In team_task (tasks (db (snd run)))
  /\ ~ exists a, audits (db (snd run)) = audits (db w) ++ [a]
                 /\ auditSchema.action a = "delete".
Proof.
  vm_compute. repeat split.
  - right. left. reflexivity.
  - intros [H | []]. discriminate H.
  - intros (a & H & _). discriminate H.
Qed.

Lemma task_mutation_audited_witness :
  let w := store [task_A] in
  exists a,
    audits (db (snd (serve (toString 2) (delete (toString 50)) Demo.env w)))
    = audits (db w) ++ [a]
    /\ auditSchema.action a = "delete"
    /\ ObjectId_parse Demo.env (toString 2) = Some (auditSchema.changedBy a).
Proof.
  apply (task_mutation_audited Demo.env (store [task_A]) (toString 2)
           (delete (toString 50)) (res 200 (json_message "Task deleted"))).
  - reflexivity.
  - vm_compute. reflexivity.
  - reflexivity.
Defined.

(** C6 fails on a user id that no user has: the gate lets the token
    through and the guarded handler runs as that id, where
    [GET /api/users/verify] answers 401 for the same token. *)
Lemma authMiddleware_admits_unknown_user :
  User.findById (Some (toString 99)) Demo.env empty = (Ok None, empty)
  /\ authMiddleware (Some stranger) getTasks Demo.env empty
     = (Ok (res 200 (json_tasks [])), empty)
  /\ authMiddleware (Some stranger) getTasks Demo.env empty
     <> (Ok Unauthorized, empty)
  /\ getVerify (Some stranger) Demo.env empty = (Ok Unauthorized, empty).
Proof. vm_compute. repeat split; try reflexivity. discriminate. Qed.

(** C7.  Eve signs up at time 1000; two hours later the gate still takes
    the token of the signup answer.  A token Bob got by logging in at
    time 1000 is refused at that time. *)
Theorem signup_token_accepted_after_two_hours :
  (exists token id,
      fst (postSignup "Eve" "eve@example.org" "pw" Demo.env empty)
      = Ok (res 201 (json_signup token id))
      /\ authMiddleware (Some token) getTasks two_hours_later empty
         = (Ok (res 200 (json_tasks [])), empty))
  /\ (exists token,
         cookie_jwt_of (fst (postLogin "bob@example.org" "b" Demo.env empty))
         = Some token
         /\ authMiddleware (Some token) getTasks two_hours_later empty
            = (Ok Unauthorized, empty)).
Proof.
  split.
  - do 2 eexists. split; vm_compute; reflexivity.
  - eexists. split; vm_compute; reflexivity.
Qed.

(** Bob creates a task with the audit write failing: the theorem on the
    swallowed audit failure, at work. *)
Lemma audit_failure_swallowed_witness :
  let created := task 100 "T" "group" (Some 10) 2 (Some (toString 1)) in
  let w_up := snd (serve (toString 2) (create for_team)
                         (with_outage Demo.env Audit_save false) empty) in
  exists w_down,
    serve (toString 2) (create for_team) (with_outage Demo.env Audit_save true) empty
    = (Ok (res 201 (json_task created)), w_down)
    /\ tasks (db w_down) = tasks (db w_up)
    /\ notifications (db w_down) = notifications (db w_up)
    /\ audits (db w_down) = audits (db empty)
    /\ In "Error recording audit log:" (console w_down).
Proof.
  apply (audit_failure_swallowed Demo.env empty (toString 2) (create for_team)).
  - vm_compute. reflexivity.
  - reflexivity.
Defined.

(** Cid, a member, and Bob, the owner, each ask to delete the team: the
    theorem on group deletion, at work. *)
Lemma deleteGroup_owner_only_witness :
  let w := store [task_A; team_task] in
  deleteGroup (toString 3) (toString 10) Demo.env w
  = (Ok (res 403 (json_message "Forbidden: Only the owner can delete the group")), w)
  /\ exists w',
       deleteGroup (toString 2) (toString 10) Demo.env w
       = (Ok (res 200 (json_message "Group deleted")), w')
       /\ (forall g, In g (groups (db w'))
                     <-> In g (groups (db w)) /\ groupSchema._id g <> 10)
       /\ (forall t, In t (tasks (db w'))
                     <-> In t (tasks (db w)) /\ taskSchema.group t <> Some 10).
Proof.
  split.
  - apply (proj1 (deleteGroup_owner_only Demo.env (store [task_A; team_task])
                    (toString 3) (toString 10) 10 team
                    ltac:(vm_compute; reflexivity) eq_refl eq_refl)).
    vm_compute. discriminate.
  - apply (proj2 (deleteGroup_owner_only Demo.env (store [task_A; team_task])
                    (toString 2) (toString 10) 10 team
                    ltac:(vm_compute; reflexivity) eq_refl eq_refl)).
    + vm_compute. reflexivity.
    + reflexivity.
    + reflexivity.
    + simpl. repeat constructor; simpl; intuition discriminate.
Defined.

(** Bob's task assigned to "Robert" is updated, then deleted: the theorem
    on the unparsable assignee, at work. *)
Lemma unparsable_assignee_notifies_nobody_witness :
  let w := store [named_task] in
  getUsersToNotify named_task Demo.env w
  = (Ok [], mkWorld (db w) (console w ++ ["Error determining users to notify:"]))
  /\ notifications
       (db (snd (putTask (toString 2) (toString 52)
                         (request "call" None None None) Demo.env w)))
     = notifications (db w)
  /\ notifications (db (snd (deleteTask (toString 2) (toString 52) Demo.env w)))
     = notifications (db w).
Proof.
  destruct (unparsable_assignee_notifies_nobody Demo.env named_task "Robert"
              eq_refl ltac:(discriminate) ltac:(vm_compute; reflexivity))
    as (Husers & Hput & Hdelete).
  split; [| split].
  - apply Husers.
  - apply (Hput (store [named_task]) (toString 2) (toString 52)
                (request "call" None None None) (store [named_task])).
    vm_compute. reflexivity.
  - apply (Hdelete (store [named_task]) (toString 2) (toString 52)
                   (store [named_task])).
    vm_compute. reflexivity.
Defined.

(* ================================================================== *)
(** ** More runs on the small deployment *)

Import Runs.

(** A token for a user id no user has is answered 401 by
    [GET /api/users/verify]. *)
Lemma getVerify_checks_user_witness :
  getVerify (Some stranger) Demo.env empty = (Ok Unauthorized, empty).
Proof.
  destruct (getVerify_checks_user Demo.env empty (Some stranger)) as [_ H].
  - reflexivity.
  - apply (H (toString 99) 99).
    + apply (accepted_valid Demo.env (mkPayload (toString 99) 900%Z (Some 4500%Z))).
      intros e He. inversion He. reflexivity.
    + vm_compute. reflexivity.
Defined.

(** Bob logs in. *)
Lemma postLogin_opens_session_witness :
  exists token,
    postLogin "bob@example.org" "b" Demo.env empty
    = (Ok (mkResponse 200 (json_login token 2 "Bob") (Some token)), empty)
    /\ forall later next w2,
         JWT_SECRET later = JWT_SECRET Demo.env ->
         (now later < now Demo.env + 3600)%Z ->
         authMiddleware (Some token) next later w2 = next (toString 2) later w2.
Proof.
  apply (postLogin_opens_session Demo.env empty "bob@example.org" "b" bob).
  - reflexivity.
  - vm_compute. reflexivity.
  - vm_compute. reflexivity.
Defined.

(** Bob mistypes his password. *)
Lemma postLogin_fails_closed_witness :
  postLogin "bob@example.org" "d" Demo.env empty
  = (Ok (res 400 (json_message "Invalid username or password")), empty).
Proof.
  apply (postLogin_fails_closed Demo.env empty "bob@example.org" "d").
  - reflexivity.
  - intros user H. vm_compute in H. inversion H. vm_compute. reflexivity.
Defined.

Lemma Demo_usernames : NoDup (map userSchema.username (users (db empty))).
Proof.
  vm_compute. repeat constructor; simpl; intuition discriminate.
Defined.

Lemma Demo_user_ids : NoDup (map userSchema._id (users (db empty))).
Proof.
  vm_compute. repeat constructor; simpl; intuition discriminate.
Defined.

(** Eve signs up with Bob's address. *)
Lemma postSignup_keeps_usernames_unique_witness :
  NoDup (map userSchema.username
             (users (db (snd (postSignup "Eve" "bob@example.org" "e" Demo.env empty)))))
  /\ postSignup "Eve" "bob@example.org" "e" Demo.env empty
     = (Ok (res 400 (json_message "Username already exists")), empty).
Proof.
  destruct (postSignup_keeps_usernames_unique Demo.env empty "Eve" "bob@example.org" "e")
    as [H1 H2].
  split.
  - apply H1. exact Demo_usernames.
  - apply H2; [reflexivity |]. exists bob. vm_compute. reflexivity.
Defined.

(** Eve signs up and logs in. *)
Lemma postSignup_then_postLogin_witness :
  exists token w',
    postSignup "Eve" "eve@example.org" "e" Demo.env empty
    = (Ok (res 201 (json_signup token 100)), w')
    /\ exists token',
         postLogin "eve@example.org" "e" Demo.env w'
         = (Ok (mkResponse 200 (json_login token' 100 "Eve") (Some token')), w').
Proof.
  apply (postSignup_then_postLogin Demo.env empty "Eve" "eve@example.org" "e").
  - reflexivity.
  - reflexivity.
  - reflexivity.
  - vm_compute. reflexivity.
  - discriminate.
  - discriminate.
  - vm_compute. discriminate.
  - vm_compute. reflexivity.
Defined.

(** Eve signs up while the mail relay is down. *)
Lemma postSignup_mail_failure_keeps_user_witness :
  exists w',
    postSignup "Eve" "eve@example.org" "e" (with_outage Demo.env sendMail true) empty
    = (Ok (res 500 (json_message "Server error")), w')
    /\ users (db w')
       = users (db empty)
         ++ [userSchema.mk (next_oid (db empty)) "Eve" "eve@example.org"
               (bcrypt_hash (with_outage Demo.env sendMail true) "e") None None]
    /\ forall env2 name2 password2,
         outage env2 User_findOne = false ->
         postSignup name2 "eve@example.org" password2 env2 w'
         = (Ok (res 400 (json_message "Username already exists")), w').
Proof.
  apply (postSignup_mail_failure_keeps_user (with_outage Demo.env sendMail true) empty
           "Eve" "eve@example.org" "e").
  - reflexivity.
  - reflexivity.
  - reflexivity.
  - vm_compute. reflexivity.
  - discriminate.
  - discriminate.
  - vm_compute. discriminate.
Defined.

(** Ann tries to rename Bob. *)
Lemma putUser_only_own_profile_witness :
  putUser (toString 1) (toString 2) "Robert" "rob@example.org" Demo.env empty
  = (Ok (mkReply 403 (sent_json (json_message
           "Forbidden: You can only update your own profile"))), empty).
Proof.
  apply (putUser_only_own_profile Demo.env empty (toString 1) (toString 2) 2 bob).
  - reflexivity.
  - vm_compute. reflexivity.
  - vm_compute. reflexivity.
  - vm_compute. discriminate.
Defined.

(** Bob renames himself. *)
Lemma putUser_updates_own_profile_witness :
  fst (putUser (toString 2) (toString 2) "Robert" "rob@example.org" Demo.env empty)
  = Ok (mkReply 200 (sent_user
         (userSchema.mk 2 "Robert" "rob@example.org" "bcrypt:b" None None))).
Proof.
  destruct (putUser_updates_own_profile Demo.env empty (toString 2) (toString 2) 2 bob
              "Robert" "rob@example.org") as [_ H].
  - reflexivity.
  - reflexivity.
  - vm_compute. reflexivity.
  - vm_compute. reflexivity.
  - vm_compute. reflexivity.
  - discriminate.
  - discriminate.
  - vm_compute. discriminate.
  - exact Demo_user_ids.
  - apply H. intros v [<- | [<- | [<- | [<- | []]]]] Hname; try reflexivity;
      vm_compute in Hname; discriminate Hname.
Defined.

(** A token nobody was sent. *)
Lemma postResetPassword_refuses_stale_token_witness :
  postResetPassword "r4nd0m" "new" Demo.env empty
  = (Ok (res 400 (json_message "Invalid or expired token")), empty).
Proof.
  apply (postResetPassword_refuses_stale_token Demo.env empty "r4nd0m" "new").
  - reflexivity.
  - intros v expiration [<- | [<- | [<- | [<- | []]]]] H; discriminate H.
Defined.

(** Bob forgets his password and sets a new one. *)
Lemma password_reset_round_trip_witness :
  exists w1 w2,
    postForgotPassword "r4nd0m" "bob@example.org" Demo.env empty
    = (Ok (res 200 (json_message "Password reset email sent")), w1)
    /\ postResetPassword "r4nd0m" "new" Demo.env w1
       = (Ok (res 200 (json_message "Password reset successful")), w2)
    /\ In (userSchema.mk 2 "Bob" "bob@example.org" "bcrypt:new" None None)
          (users (db w2)).
Proof.
  destruct (password_reset_round_trip Demo.env empty "r4nd0m" "bob@example.org" bob
              Demo.env "new") as (w1 & w2 & H1 & H2 & H3 & _).
  - reflexivity.
  - reflexivity.
  - reflexivity.
  - vm_compute. reflexivity.
  - discriminate.
  - discriminate.
  - discriminate.
  - exact Demo_user_ids.
  - exact Demo_usernames.
  - intros v [<- | [<- | [<- | [<- | []]]]]; discriminate.
  - reflexivity.
  - reflexivity.
  - reflexivity.
  - vm_compute. discriminate.
  - exists w1, w2. split; [exact H1 |]. split; [exact H2 |].
    apply H3. left. reflexivity.
Defined.

Lemma Demo_group_ids : NoDup (map groupSchema._id (groups (db empty))).
Proof.
  vm_compute. repeat constructor; simpl; intuition discriminate.
Defined.

Lemma Demo_members :
  Forall2 (fun s o => ObjectId_parse Demo.env s = Some o)
          [toString 3; toString 4] [3; 4].
Proof.
  constructor; [vm_compute; reflexivity |].
  constructor; [vm_compute; reflexivity |]. constructor.
Defined.

(** Bob hands the team to Ann. *)
Lemma putGroup_transfers_ownership_witness :
  exists w',
    putGroup answering (toString 2) (toString 10) "team" [toString 3; toString 4]
             (toString 1) Demo.env empty
    = (Ok (mkReply 200 (sent_group (groupSchema.mk 10 "team" 1 [3; 4]))), w')
    /\ find (Group.has_id 10) (groups (db w')) = Some (groupSchema.mk 10 "team" 1 [3; 4])
    /\ deleteGroup (toString 2) (toString 10) Demo.env w'
       = (Ok (res 403 (json_message "Forbidden: Only the owner can delete the group")),
          w')
    /\ forall name' members' owner',
         putGroup answering (toString 2) (toString 10) name' members' owner' Demo.env w'
         = (Ok (mkReply 403 (sent_json (json_message
                  "Forbidden: Only the owner can update the group"))), w').
Proof.
  apply (putGroup_transfers_ownership answering Demo.env empty (toString 2) (toString 10)
           10 team "team" [toString 3; toString 4] (toString 1) 1 [3; 4]).
  - vm_compute. reflexivity.
  - reflexivity.
  - reflexivity.
  - vm_compute. reflexivity.
  - vm_compute. reflexivity.
  - discriminate.
  - vm_compute. reflexivity.
  - exact Demo_members.
  - vm_compute. discriminate.
Defined.

(** Bob makes Ann the only member of the team; Cid asks for his tasks. *)
Lemma putGroup_members_decide_visibility_witness :
  exists w' visible,
    putGroup answering (toString 2) (toString 10) "team" [toString 1] (toString 2)
             Demo.env (store [team_task])
    = (Ok (mkReply 200 (sent_group (groupSchema.mk 10 "team" 2 [1]))), w')
    /\ getTasks (toString 3) Demo.env w' = (Ok (res 200 (json_tasks visible)), w')
    /\ ~ In team_task visible.
Proof.
  destruct (putGroup_members_decide_visibility answering Demo.env (store [team_task])
              (toString 2) (toString 10) 10 team "team" [toString 1] (toString 2) 2 [1]
              (toString 3) 3) as (w' & visible & H1 & H2 & H3).
  - vm_compute. reflexivity.
  - reflexivity.
  - reflexivity.
  - vm_compute. reflexivity.
  - vm_compute. reflexivity.
  - discriminate.
  - vm_compute. reflexivity.
  - constructor; [vm_compute; reflexivity | constructor].
  - exact Demo_group_ids.
  - reflexivity.
  - reflexivity.
  - vm_compute. reflexivity.
  - exists w', visible. split; [exact H1 |]. split; [exact H2 |].
    intros Hin. apply (H3 team_task) in Hin; [| reflexivity | reflexivity].
    destruct Hin as [_ [H | [H | [H | [H | []]]]]]; discriminate H.
Defined.

(** Bob deletes the team while deleting its tasks fails. *)
Lemma deleteGroup_leaves_tasks_behind_witness :
  exists w',
    deleteGroup (toString 2) (toString 10)
                (with_outage Demo.env Task_deleteMany true) (store [team_task])
    = (Ok (res 500 (json_message "Failed to delete group")), w')
    /\ groups (db w') = [crew]
    /\ tasks (db w') = [team_task].
Proof.
  apply (deleteGroup_leaves_tasks_behind (with_outage Demo.env Task_deleteMany true)
           (store [team_task]) (toString 2) (toString 10) 10 team).
  - vm_compute. reflexivity.
  - reflexivity.
  - vm_compute. reflexivity.
  - vm_compute. reflexivity.
  - reflexivity.
  - reflexivity.
Defined.

(** An update and a delete of a task that is not stored. *)
Lemma unknown_task_changes_nothing_witness :
  db (snd (putTask (toString 2) (toString 77) rename_to_B Demo.env (store [task_A])))
  = db (store [task_A])
  /\ db (snd (deleteTask (toString 2) (toString 77) Demo.env (store [task_A])))
     = db (store [task_A]).
Proof.
  destruct (unknown_task_changes_nothing Demo.env (store [task_A]) (toString 2)
              (toString 77) rename_to_B) as (H1 & H2 & _).
  - intros o H. vm_compute in H. inversion H. reflexivity.
  - split; [exact H1 | exact H2].
Defined.


(** Bob creates a task of the team for Ann and asks for his tasks. *)
Lemma postTask_creator_sees_task_witness :
  exists visible,
    getTasks (toString 2) Demo.env (snd (postTask (toString 2) for_team Demo.env empty))
    = (Ok (res 200 (json_tasks visible)),
       snd (postTask (toString 2) for_team Demo.env empty))
    /\ In (task 100 "T" "group" (Some 10) 2 (Some (toString 1))) visible.
Proof.
  apply (postTask_creator_sees_task Demo.env Demo.env empty (toString 2) for_team).
  - vm_compute. reflexivity.
  - reflexivity.
  - reflexivity.
  - reflexivity.
Defined.

(** Bob sends a task without a title. *)
Lemma postTask_rejects_invalid_witness :
  exists w',
    postTask (toString 2) untitled Demo.env empty
    = (Ok (res 500 (json_message "Failed to create task")), w')
    /\ tasks (db w') = tasks (db empty)
    /\ audits (db w') = audits (db empty)
    /\ notifications (db w') = notifications (db empty)
    /\ console w' = console empty ++ ["Error creating task:"].
Proof.
  apply (postTask_rejects_invalid Demo.env empty (toString 2) untitled).
  right. left. reflexivity.
Defined.

(** Ann deletes, and renames, Bob's private task. *)
Lemma task_mutation_by_anyone_witness :
  (exists w',
      deleteTask (toString 1) (toString 50) Demo.env (store [task_A])
      = (Ok (res 200 (json_message "Task deleted")), w')
      /\ tasks (db w') = [])
  /\ exists w',
       putTask (toString 1) (toString 50) rename_to_B Demo.env (store [task_A])
       = (Ok (res 200 (json_task task_B)), w')
       /\ find (Task.has_id 50) (tasks (db w')) = Some task_B.
Proof.
  destruct (task_mutation_by_anyone Demo.env (store [task_A]) (toString 1) 1
              (toString 50) 50 task_A) as [Hdelete Hput].
  - intros op. reflexivity.
  - vm_compute. reflexivity.
  - vm_compute. reflexivity.
  - vm_compute. reflexivity.
  - split; [exact Hdelete |].
    exact (Hput rename_to_B _ eq_refl).
Defined.

(** Bob's update of his task is announced to Ann and Cid. *)
Lemma sendNotifications_one_each_witness :
  exists message docs,
    notifications
      (db (snd (sendNotifications [1; 3] task_A update (toString 2) Demo.env empty)))
    = notifications (db empty) ++ docs
    /\ map notificationSchema.userId docs = [1; 3]
    /\ Forall (fun n => notificationSchema.taskId n = Some (taskSchema._id task_A)
                        /\ notificationSchema.message n = message
                        /\ notificationSchema.type n = update
                        /\ notificationSchema.read n = false
                        /\ notificationSchema.createdAt n = now Demo.env) docs.
Proof.
  apply (sendNotifications_one_each Demo.env empty [1; 3] task_A update (toString 2)).
  vm_compute. reflexivity.
Defined.

(** Bob's private task, assigned to nobody. *)
Lemma getUsersToNotify_unassigned_witness :
  getUsersToNotify task_A Demo.env empty = (Ok [], empty).
Proof.
  apply (getUsersToNotify_unassigned Demo.env empty task_A).
  - left. reflexivity.
  - right. reflexivity.
Defined.

(** A task of a group that is gone, assigned to Ann. *)
Lemma getUsersToNotify_missing_group_witness :
  getUsersToNotify orphan Demo.env empty
  = (Ok [], mkWorld (db empty)
                    (console empty ++ ["Error determining users to notify:"])).
Proof.
  apply (getUsersToNotify_missing_group Demo.env empty orphan 77).
  - reflexivity.
  - reflexivity.
  - reflexivity.
  - vm_compute. reflexivity.
Defined.

(** Ann marks all her notifications read. *)
Lemma putMarkAllRead_marks_own_witness :
  exists w',
    putMarkAllRead answering (toString 1) Demo.env inbox
    = (Ok (mkReply 200 (sent_json (json_message "All notifications marked as read"))),
       w')
    /\ Forall2 (fun n n' =>
                  (notificationSchema.userId n = 1 -> n' = mark_read n)
                  /\ (notificationSchema.userId n <> 1 -> n' = n))
               (notifications (db inbox)) (notifications (db w'))
    /\ putMarkAllRead answering (toString 1) Demo.env w'
       = (Ok (mkReply 200 (sent_json (json_message "All notifications marked as read"))),
          w').
Proof.
  apply (putMarkAllRead_marks_own answering Demo.env inbox (toString 1) 1).
  - vm_compute. reflexivity.
  - reflexivity.
Defined.

(** Somebody marks Bob's notification read. *)
Lemma putNotificationRead_marks_one_witness :
  exists w',
    putNotificationRead answering (toString 61) Demo.env inbox
    = (Ok (mkReply 204 sent_status), w')
    /\ In (note 61 2 true 20%Z) (notifications (db w')).
Proof.
  destruct (putNotificationRead_marks_one answering Demo.env inbox (toString 61) 61)
    as (w' & H1 & _ & _ & H2).
  - vm_compute. reflexivity.
  - reflexivity.
  - exists w'. split; [exact H1 |].
    apply (H2 (note 61 2 false 20%Z)). vm_compute. reflexivity.
Defined.

(** Ann reads her notifications. *)
Lemma getNotifications_newest_thirty_witness :
  exists shown older,
    getNotifications answering (toString 1) Demo.env inbox
    = (Ok (mkReply 200 (sent_notifications shown)), inbox)
    /\ length shown
       = Nat.min 30 (length (filter (fun n => N.eqb (notificationSchema.userId n) 1)
                                    (notifications (db inbox))))
    /\ (forall n, In n shown \/ In n older
                  <-> In n (notifications (db inbox)) /\ notificationSchema.userId n = 1)
    /\ StronglySorted
         (fun a b => (notificationSchema.createdAt b <= notificationSchema.createdAt a)%Z)
         shown
    /\ (forall x y, In x shown -> In y older ->
                    (notificationSchema.createdAt y <= notificationSchema.createdAt x)%Z).
Proof.
  apply (getNotifications_newest_thirty answering Demo.env inbox (toString 1) 1).
  - vm_compute. reflexivity.
  - reflexivity.
Defined.

(** The trail of Bob's task "A". *)
Lemma getTaskAudit_lists_trail_witness :
  exists auditLogs,
    getTaskAudit answering (toString 50) Demo.env trail
    = (Ok (mkReply 200 (sent_auditLogs auditLogs)), trail)
    /\ (forall a, In a (map fst auditLogs)
                  <-> In a (audits (db trail)) /\ auditSchema.taskId a = 50)
    /\ StronglySorted
         (fun a b => (auditSchema.timestamp b <= auditSchema.timestamp a)%Z)
         (map fst auditLogs)
    /\ Forall (fun entry =>
                 snd entry
                 = option_map userSchema.name
                     (find (User.has_id (auditSchema.changedBy (fst entry)))
                           (users (db trail))))
              auditLogs.
Proof.
  apply (getTaskAudit_lists_trail answering Demo.env trail (toString 50) 50 task_A).
  - vm_compute. reflexivity.
  - reflexivity.
  - reflexivity.
  - reflexivity.
  - vm_compute. reflexivity.
Defined.

